(** * InfraSnitch: the NUMA diagnostic engine and its report logger

    A shallow embedding of [infra_snitch/InfraMathDef.py] (class
    [NumaChecker]) and [infra_snitch/report_logger.py] (class
    [ReportLogger]), and the properties of the validation engine and of
    the report aggregator that the specification states about them.

    Conventions of the embedding:
    - a Python [str] is the list of its code points ([pystr]); literals
      are written [py "..."] and decoded from the UTF-8 of this file, as
      Python decodes its source;
    - a value fetched from the server is a [value] (None, bool, int, str);
    - a row built by [dict(zip(columns, row))] is a [gmap pystr value];
    - a check is a computation in the monad [M]: it threads the lines
      handed to [self.out] and either returns or raises an [exn];
    - a local variable that Python may leave unbound is an [option],
      read through [local], which raises [UnboundLocalError].

    The second part embeds [infra_snitch/db_connect.py]
    ([get_connection]) and [infra_snitch/main.py] ([main]).

    Left out: the calls to [logging], which write to a channel of their
    own and never to the report; the parsing of the command line;
    [check_socket_layout], which stands as a parameter; failures of the
    file system when a report is written. *)

From Stdlib Require Import ZArith NArith List Ascii String Bool Lia QArith.
From Stdlib Require Import Numbers.DecimalString.
From stdpp Require Import base gmap list.

Set Default Proof Using "Type".
Open Scope Z_scope.

(** ** Python strings *)

Module PyStr.

Definition pystr : Type := list N.

(** Decoding of a UTF-8 byte sequence into code points; a truncated
    sequence decodes to U+FFFD.  Only used to read the literals below. *)
Fixpoint utf8_decode (bs : list N) : list N :=
  match bs with
  | [] => []
  | b0 :: t0 =>
      if (b0 <? 128)%N then b0 :: utf8_decode t0
      else
        match t0 with
        | [] => [65533%N]
        | b1 :: t1 =>
            if (b0 <? 224)%N
            then ((b0 mod 32) * 64 + b1 mod 64)%N :: utf8_decode t1
            else
              match t1 with
              | [] => [65533%N]
              | b2 :: t2 =>
                  if (b0 <? 240)%N
                  then ((b0 mod 16) * 4096 + (b1 mod 64) * 64 + b2 mod 64)%N
                         :: utf8_decode t2
                  else
                    match t2 with
                    | [] => [65533%N]
                    | b3 :: t3 =>
                        ((b0 mod 8) * 262144 + (b1 mod 64) * 4096
                         + (b2 mod 64) * 64 + b3 mod 64)%N :: utf8_decode t3
                    end
              end
        end
  end.

Definition py (s : string) : pystr :=
  utf8_decode (map N_of_ascii (list_ascii_of_string s)).

(** [prefix_of p s]: [s.startswith(p)]. *)
Fixpoint prefix_of (p s : pystr) : bool :=
  match p, s with
  | [], _ => true
  | _ :: _, [] => false
  | a :: p', b :: s' => (a =? b)%N && prefix_of p' s'
  end.

(** [str_in needle hay]: the Python test [needle in hay] on strings. *)
Fixpoint str_in (needle hay : pystr) : bool :=
  prefix_of needle hay ||
  match hay with
  | [] => false
  | _ :: hay' => str_in needle hay'
  end.

(** What "contains" means: the needle occurs between some prefix and
    some suffix of the text. *)
Definition occurs_in (needle hay : pystr) : Prop :=
  exists pre suf : pystr, hay = pre ++ needle ++ suf.

(** [str(n)] for an integer: decimal digits, a leading minus sign. *)
Definition str_of_Z (z : Z) : pystr :=
  map N_of_ascii (list_ascii_of_string (NilZero.string_of_int (Z.to_int z))).

(** Lexicographic order on code points: [a < b] on strings. *)
Fixpoint str_ltb (a b : pystr) : bool :=
  match a, b with
  | _, [] => false
  | [], _ :: _ => true
  | x :: a', y :: b' => (x <? y)%N || ((x =? y)%N && str_ltb a' b')
  end.

End PyStr.
Export PyStr.

(** ** Values, exceptions and the monad of a check *)

(** What the driver hands over for a column.  A value of another type (a
    timestamp) only ever reaches an f-string and is carried as the text
    [str()] gives for it. *)
Inductive value : Type :=
| VNone
| VBool (b : bool)
| VInt (z : Z)
| VStr (s : pystr).

(** The number a value stands for in arithmetic and comparisons
    ([bool] is a subclass of [int]). *)
Definition as_num (v : value) : option Z :=
  match v with
  | VBool b => Some (Z.b2z b)
  | VInt z => Some z
  | _ => None
  end.

(** [a == b]. *)
Definition py_eqb (a b : value) : bool :=
  match a, b with
  | VNone, VNone => true
  | VStr s, VStr t => bool_decide (s = t)
  | _, _ =>
      match as_num a, as_num b with
      | Some x, Some y => x =? y
      | _, _ => false
      end
  end.

(** [str(v)], what an f-string prints for [{v}]. *)
Definition py_str (v : value) : pystr :=
  match v with
  | VNone => py "None"
  | VBool true => py "True"
  | VBool false => py "False"
  | VInt z => str_of_Z z
  | VStr s => s
  end.

Inductive exn : Type :=
| PyodbcError (msg : pystr)          (* pyodbc.Error, from the driver *)
| OSError (msg : pystr)              (* a failed host probe *)
| UnboundLocalError (name : pystr)   (* a NameError: local read before assignment *)
| KeyError (key : pystr)
| IndexError
| TypeError
| OverflowError.                     (* an int too large for a float *)

(** [UnboundLocalError] is the subclass of [NameError] that Python raises
    for a local variable. *)
Definition is_NameError (e : exn) : bool :=
  match e with UnboundLocalError _ => true | _ => false end.

Inductive outcome (A : Type) : Type :=
| Return (a : A)
| Raise (e : exn).
Arguments Return {A} a.
Arguments Raise {A} e.

(** A computation reads the lines emitted so far and extends them. *)
Definition M (A : Type) : Type := list pystr -> outcome A * list pystr.

Definition ret {A} (a : A) : M A := fun log => (Return a, log).
Definition raise {A} (e : exn) : M A := fun log => (Raise e, log).
Definition bind {A B} (m : M A) (k : A -> M B) : M B :=
  fun log =>
    match m log with
    | (Return a, log') => k a log'
    | (Raise e, log') => (Raise e, log')
    end.

Notation "x <- m ;; k" := (bind m (fun x => k))
  (at level 20, m at level 99, k at level 200, only parsing, right associativity).
Notation "m ;;; k" := (bind m (fun _ => k))
  (at level 100, k at level 200, only parsing, right associativity).

(** [self.out(msg)]. *)
Definition out (msg : pystr) : M unit := fun log => (Return tt, log ++ [msg]).

(** [try: m  except Exception as e: handler e]. *)
Definition try_except {A} (m : M A) (handler : exn -> M A) : M A :=
  fun log =>
    match m log with
    | (Return a, log') => (Return a, log')
    | (Raise e, log') => handler e log'
    end.

(** A pure step that may raise. *)
Definition lift {A} (o : outcome A) : M A := fun log => (o, log).

(** Reading a local variable. *)
Definition local {A} (name : string) (v : option A) : outcome A :=
  match v with
  | Some a => Return a
  | None => Raise (UnboundLocalError (py name))
  end.

(** Whether a call returned. *)
Definition returned {A} (o : outcome A) : bool :=
  match o with Return _ => true | Raise _ => false end.

(** Running a check from an empty report. *)
Definition run {A} (m : M A) : outcome A * list pystr := m [].

(** ** Floats

    The program meets floats in two places, [max_mem * 0.25] and
    [row[i] / 1024], both on integers.  A float that comes from an
    integer is kept here as the number it denotes. *)

(** The float nearest to a natural number: 53 significant bits, a tie
    goes to the even significand. *)
Definition round53 (a : Z) : Z :=
  let e := Z.log2 a - 52 in
  if e <=? 0 then a
  else
    let q := Z.shiftr a e in
    let r := a - Z.shiftl q e in
    let half := Z.shiftl 1 (e - 1) in
    let q' := if (half <? r) || ((half =? r) && Z.odd q) then q + 1 else q in
    Z.shiftl q' e.

(** [float(n)], as [n * 0.25] converts its left operand: the nearest
    float, an [OverflowError] from [2 ** 1024] on. *)
Definition float_of_int (n : Z) : outcome Z :=
  let m := round53 (Z.abs n) in
  if 2 ^ 1024 <=? m then Raise OverflowError else Return (Z.sgn n * m).

(** [int(n / 1024)]: the true division gives the float nearest to the
    quotient, which [int] truncates towards zero.  Dividing by 1024
    only moves the exponent, so the float nearest to the quotient is
    the float nearest to [n], divided by 1024; the division overflows
    when that float reaches [2 ** 1024]. *)
Definition int_of_true_divide_1024 (n : Z) : outcome Z :=
  let m := round53 (Z.abs n) in
  if 2 ^ 1034 <=? m then Raise OverflowError else Return (Z.quot (Z.sgn n * m) 1024).


(** ** Hexadecimal digits, [repr] and Python containers *)

Definition hex_digit (n : N) : N :=
  if (n <? 10)%N then (48 + n)%N else (87 + n)%N.

Definition hex2 (n : N) : pystr :=
  [hex_digit (n / 16 mod 16); hex_digit (n mod 16)]%N.

Definition hex4 (n : N) : pystr :=
  [hex_digit (n / 4096 mod 16); hex_digit (n / 256 mod 16);
   hex_digit (n / 16 mod 16); hex_digit (n mod 16)]%N.

Definition hex8 (n : N) : pystr :=
  hex4 (n / 65536)%N ++ hex4 (n mod 65536)%N.

(** The code points from 128 on that [str.isprintable] refuses (the
    control, format, surrogate, private-use and unassigned code points
    and the separators), as ranges with both ends included: the table
    of CPython 3.11, which follows Unicode 14.0. *)
Definition unprintable_ranges : list (N * N) :=
  [(128, 160); (173, 173); (888, 889); (896, 899); (907, 907); (909, 909); (930, 930);
   (1328, 1328); (1367, 1368); (1419, 1420); (1424, 1424); (1480, 1487); (1515, 1518);
   (1525, 1541); (1564, 1564); (1757, 1757); (1806, 1807); (1867, 1868); (1970, 1983);
   (2043, 2044); (2094, 2095); (2111, 2111); (2140, 2141); (2143, 2143); (2155, 2159);
   (2191, 2199); (2274, 2274); (2436, 2436); (2445, 2446); (2449, 2450); (2473, 2473);
   (2481, 2481); (2483, 2485); (2490, 2491); (2501, 2502); (2505, 2506); (2511, 2518);
   (2520, 2523); (2526, 2526); (2532, 2533); (2559, 2560); (2564, 2564); (2571, 2574);
   (2577, 2578); (2601, 2601); (2609, 2609); (2612, 2612); (2615, 2615); (2618, 2619);
   (2621, 2621); (2627, 2630); (2633, 2634); (2638, 2640); (2642, 2648); (2653, 2653);
   (2655, 2661); (2679, 2688); (2692, 2692); (2702, 2702); (2706, 2706); (2729, 2729);
   (2737, 2737); (2740, 2740); (2746, 2747); (2758, 2758); (2762, 2762); (2766, 2767);
   (2769, 2783); (2788, 2789); (2802, 2808); (2816, 2816); (2820, 2820); (2829, 2830);
   (2833, 2834); (2857, 2857); (2865, 2865); (2868, 2868); (2874, 2875); (2885, 2886);
   (2889, 2890); (2894, 2900); (2904, 2907); (2910, 2910); (2916, 2917); (2936, 2945);
   (2948, 2948); (2955, 2957); (2961, 2961); (2966, 2968); (2971, 2971); (2973, 2973);
   (2976, 2978); (2981, 2983); (2987, 2989); (3002, 3005); (3011, 3013); (3017, 3017);
   (3022, 3023); (3025, 3030); (3032, 3045); (3067, 3071); (3085, 3085); (3089, 3089);
   (3113, 3113); (3130, 3131); (3141, 3141); (3145, 3145); (3150, 3156); (3159, 3159);
   (3163, 3164); (3166, 3167); (3172, 3173); (3184, 3190); (3213, 3213); (3217, 3217);
   (3241, 3241); (3252, 3252); (3258, 3259); (3269, 3269); (3273, 3273); (3278, 3284);
   (3287, 3292); (3295, 3295); (3300, 3301); (3312, 3312); (3315, 3327); (3341, 3341);
   (3345, 3345); (3397, 3397); (3401, 3401); (3408, 3411); (3428, 3429); (3456, 3456);
   (3460, 3460); (3479, 3481); (3506, 3506); (3516, 3516); (3518, 3519); (3527, 3529);
   (3531, 3534); (3541, 3541); (3543, 3543); (3552, 3557); (3568, 3569); (3573, 3584);
   (3643, 3646); (3676, 3712); (3715, 3715); (3717, 3717); (3723, 3723); (3748, 3748);
   (3750, 3750); (3774, 3775); (3781, 3781); (3783, 3783); (3790, 3791); (3802, 3803);
   (3808, 3839); (3912, 3912); (3949, 3952); (3992, 3992); (4029, 4029); (4045, 4045);
   (4059, 4095); (4294, 4294); (4296, 4300); (4302, 4303); (4681, 4681); (4686, 4687);
   (4695, 4695); (4697, 4697); (4702, 4703); (4745, 4745); (4750, 4751); (4785, 4785);
   (4790, 4791); (4799, 4799); (4801, 4801); (4806, 4807); (4823, 4823); (4881, 4881);
   (4886, 4887); (4955, 4956); (4989, 4991); (5018, 5023); (5110, 5111); (5118, 5119);
   (5760, 5760); (5789, 5791); (5881, 5887); (5910, 5918); (5943, 5951); (5972, 5983);
   (5997, 5997); (6001, 6001); (6004, 6015); (6110, 6111); (6122, 6127); (6138, 6143);
   (6158, 6158); (6170, 6175); (6265, 6271); (6315, 6319); (6390, 6399); (6431, 6431);
   (6444, 6447); (6460, 6463); (6465, 6467); (6510, 6511); (6517, 6527); (6572, 6575);
   (6602, 6607); (6619, 6621); (6684, 6685); (6751, 6751); (6781, 6782); (6794, 6799);
   (6810, 6815); (6830, 6831); (6863, 6911); (6989, 6991); (7039, 7039); (7156, 7163);
   (7224, 7226); (7242, 7244); (7305, 7311); (7355, 7356); (7368, 7375); (7419, 7423);
   (7958, 7959); (7966, 7967); (8006, 8007); (8014, 8015); (8024, 8024); (8026, 8026);
   (8028, 8028); (8030, 8030); (8062, 8063); (8117, 8117); (8133, 8133); (8148, 8149);
   (8156, 8156); (8176, 8177); (8181, 8181); (8191, 8207); (8232, 8239); (8287, 8303);
   (8306, 8307); (8335, 8335); (8349, 8351); (8385, 8399); (8433, 8447); (8588, 8591);
   (9255, 9279); (9291, 9311); (11124, 11125); (11158, 11158); (11508, 11512);
   (11558, 11558); (11560, 11564); (11566, 11567); (11624, 11630); (11633, 11646);
   (11671, 11679); (11687, 11687); (11695, 11695); (11703, 11703); (11711, 11711);
   (11719, 11719); (11727, 11727); (11735, 11735); (11743, 11743); (11870, 11903);
   (11930, 11930); (12020, 12031); (12246, 12271); (12284, 12288); (12352, 12352);
   (12439, 12440); (12544, 12548); (12592, 12592); (12687, 12687); (12772, 12783);
   (12831, 12831); (42125, 42127); (42183, 42191); (42540, 42559); (42744, 42751);
   (42955, 42959); (42962, 42962); (42964, 42964); (42970, 42993); (43053, 43055);
   (43066, 43071); (43128, 43135); (43206, 43213); (43226, 43231); (43348, 43358);
   (43389, 43391); (43470, 43470); (43482, 43485); (43519, 43519); (43575, 43583);
   (43598, 43599); (43610, 43611); (43715, 43738); (43767, 43776); (43783, 43784);
   (43791, 43792); (43799, 43807); (43815, 43815); (43823, 43823); (43884, 43887);
   (44014, 44015); (44026, 44031); (55204, 55215); (55239, 55242); (55292, 63743);
   (64110, 64111); (64218, 64255); (64263, 64274); (64280, 64284); (64311, 64311);
   (64317, 64317); (64319, 64319); (64322, 64322); (64325, 64325); (64451, 64466);
   (64912, 64913); (64968, 64974); (64976, 65007); (65050, 65055); (65107, 65107);
   (65127, 65127); (65132, 65135); (65141, 65141); (65277, 65280); (65471, 65473);
   (65480, 65481); (65488, 65489); (65496, 65497); (65501, 65503); (65511, 65511);
   (65519, 65531); (65534, 65535); (65548, 65548); (65575, 65575); (65595, 65595);
   (65598, 65598); (65614, 65615); (65630, 65663); (65787, 65791); (65795, 65798);
   (65844, 65846); (65935, 65935); (65949, 65951); (65953, 65999); (66046, 66175);
   (66205, 66207); (66257, 66271); (66300, 66303); (66340, 66348); (66379, 66383);
   (66427, 66431); (66462, 66462); (66500, 66503); (66518, 66559); (66718, 66719);
   (66730, 66735); (66772, 66775); (66812, 66815); (66856, 66863); (66916, 66926);
   (66939, 66939); (66955, 66955); (66963, 66963); (66966, 66966); (66978, 66978);
   (66994, 66994); (67002, 67002); (67005, 67071); (67383, 67391); (67414, 67423);
   (67432, 67455); (67462, 67462); (67505, 67505); (67515, 67583); (67590, 67591);
   (67593, 67593); (67638, 67638); (67641, 67643); (67645, 67646); (67670, 67670);
   (67743, 67750); (67760, 67807); (67827, 67827); (67830, 67834); (67868, 67870);
   (67898, 67902); (67904, 67967); (68024, 68027); (68048, 68049); (68100, 68100);
   (68103, 68107); (68116, 68116); (68120, 68120); (68150, 68151); (68155, 68158);
   (68169, 68175); (68185, 68191); (68256, 68287); (68327, 68330); (68343, 68351);
   (68406, 68408); (68438, 68439); (68467, 68471); (68498, 68504); (68509, 68520);
   (68528, 68607); (68681, 68735); (68787, 68799); (68851, 68857); (68904, 68911);
   (68922, 69215); (69247, 69247); (69290, 69290); (69294, 69295); (69298, 69375);
   (69416, 69423); (69466, 69487); (69514, 69551); (69580, 69599); (69623, 69631);
   (69710, 69713); (69750, 69758); (69821, 69821); (69827, 69839); (69865, 69871);
   (69882, 69887); (69941, 69941); (69960, 69967); (70007, 70015); (70112, 70112);
   (70133, 70143); (70162, 70162); (70207, 70271); (70279, 70279); (70281, 70281);
   (70286, 70286); (70302, 70302); (70314, 70319); (70379, 70383); (70394, 70399);
   (70404, 70404); (70413, 70414); (70417, 70418); (70441, 70441); (70449, 70449);
   (70452, 70452); (70458, 70458); (70469, 70470); (70473, 70474); (70478, 70479);
   (70481, 70486); (70488, 70492); (70500, 70501); (70509, 70511); (70517, 70655);
   (70748, 70748); (70754, 70783); (70856, 70863); (70874, 71039); (71094, 71095);
   (71134, 71167); (71237, 71247); (71258, 71263); (71277, 71295); (71354, 71359);
   (71370, 71423); (71451, 71452); (71468, 71471); (71495, 71679); (71740, 71839);
   (71923, 71934); (71943, 71944); (71946, 71947); (71956, 71956); (71959, 71959);
   (71990, 71990); (71993, 71994); (72007, 72015); (72026, 72095); (72104, 72105);
   (72152, 72153); (72165, 72191); (72264, 72271); (72355, 72367); (72441, 72703);
   (72713, 72713); (72759, 72759); (72774, 72783); (72813, 72815); (72848, 72849);
   (72872, 72872); (72887, 72959); (72967, 72967); (72970, 72970); (73015, 73017);
   (73019, 73019); (73022, 73022); (73032, 73039); (73050, 73055); (73062, 73062);
   (73065, 73065); (73103, 73103); (73106, 73106); (73113, 73119); (73130, 73439);
   (73465, 73647); (73649, 73663); (73714, 73726); (74650, 74751); (74863, 74863);
   (74869, 74879); (75076, 77711); (77811, 77823); (78895, 82943); (83527, 92159);
   (92729, 92735); (92767, 92767); (92778, 92781); (92863, 92863); (92874, 92879);
   (92910, 92911); (92918, 92927); (92998, 93007); (93018, 93018); (93026, 93026);
   (93048, 93052); (93072, 93759); (93851, 93951); (94027, 94030); (94088, 94094);
   (94112, 94175); (94181, 94191); (94194, 94207); (100344, 100351); (101590, 101631);
   (101641, 110575); (110580, 110580); (110588, 110588); (110591, 110591);
   (110883, 110927); (110931, 110947); (110952, 110959); (111356, 113663);
   (113771, 113775); (113789, 113791); (113801, 113807); (113818, 113819);
   (113824, 118527); (118574, 118575); (118599, 118607); (118724, 118783);
   (119030, 119039); (119079, 119080); (119155, 119162); (119275, 119295);
   (119366, 119519); (119540, 119551); (119639, 119647); (119673, 119807);
   (119893, 119893); (119965, 119965); (119968, 119969); (119971, 119972);
   (119975, 119976); (119981, 119981); (119994, 119994); (119996, 119996);
   (120004, 120004); (120070, 120070); (120075, 120076); (120085, 120085);
   (120093, 120093); (120122, 120122); (120127, 120127); (120133, 120133);
   (120135, 120137); (120145, 120145); (120486, 120487); (120780, 120781);
   (121484, 121498); (121504, 121504); (121520, 122623); (122655, 122879);
   (122887, 122887); (122905, 122906); (122914, 122914); (122917, 122917);
   (122923, 123135); (123181, 123183); (123198, 123199); (123210, 123213);
   (123216, 123535); (123567, 123583); (123642, 123646); (123648, 124895);
   (124903, 124903); (124908, 124908); (124911, 124911); (124927, 124927);
   (125125, 125126); (125143, 125183); (125260, 125263); (125274, 125277);
   (125280, 126064); (126133, 126208); (126270, 126463); (126468, 126468);
   (126496, 126496); (126499, 126499); (126501, 126502); (126504, 126504);
   (126515, 126515); (126520, 126520); (126522, 126522); (126524, 126529);
   (126531, 126534); (126536, 126536); (126538, 126538); (126540, 126540);
   (126544, 126544); (126547, 126547); (126549, 126550); (126552, 126552);
   (126554, 126554); (126556, 126556); (126558, 126558); (126560, 126560);
   (126563, 126563); (126565, 126566); (126571, 126571); (126579, 126579);
   (126584, 126584); (126589, 126589); (126591, 126591); (126602, 126602);
   (126620, 126624); (126628, 126628); (126634, 126634); (126652, 126703);
   (126706, 126975); (127020, 127023); (127124, 127135); (127151, 127152);
   (127168, 127168); (127184, 127184); (127222, 127231); (127406, 127461);
   (127491, 127503); (127548, 127551); (127561, 127567); (127570, 127583);
   (127590, 127743); (128728, 128732); (128749, 128751); (128765, 128767);
   (128884, 128895); (128985, 128991); (129004, 129007); (129009, 129023);
   (129036, 129039); (129096, 129103); (129114, 129119); (129160, 129167);
   (129198, 129199); (129202, 129279); (129620, 129631); (129646, 129647);
   (129653, 129655); (129661, 129663); (129671, 129679); (129709, 129711);
   (129723, 129727); (129734, 129743); (129754, 129759); (129768, 129775);
   (129783, 129791); (129939, 129939); (129995, 130031); (130042, 131071);
   (173792, 173823); (177977, 177983); (178206, 178207); (183970, 183983);
   (191457, 194559); (195102, 196607); (201547, 917759); (918000, 1114111)]%N.

(** [Py_UNICODE_ISPRINTABLE] on a code point from 128 on. *)
Definition is_printable (c : N) : bool :=
  negb (existsb (fun r : N * N => (r.1 <=? c)%N && (c <=? r.2)%N) unprintable_ranges)
  && (c <=? 1114111)%N.

(** [repr(s)] of a string: the quote is ['] unless the text holds a [']
    and no double quote; backslash, the quote, tab, newline and carriage
    return are escaped, other ASCII control characters become [\xNN];
    a code point from 128 on is kept when it is printable and escaped
    otherwise, in two, four or eight hexadecimal digits by its size. *)
Definition repr_char (quote c : N) : pystr :=
  if (c =? quote)%N || (c =? 92)%N then [92; c]%N
  else if (c =? 9)%N then py "\t"
  else if (c =? 10)%N then py "\n"
  else if (c =? 13)%N then py "\r"
  else if (c <? 32)%N || (c =? 127)%N then py "\x" ++ hex2 c
  else if (c <? 127)%N then [c]
  else if is_printable c then [c]
  else if (c <=? 255)%N then py "\x" ++ hex2 c
  else if (c <=? 65535)%N then py "\u" ++ hex4 c
  else py "\U" ++ hex8 c.

Definition repr_str (s : pystr) : pystr :=
  let quote :=
    if existsb (N.eqb 39) s && negb (existsb (N.eqb 34) s) then 34%N else 39%N in
  quote :: concat (map (repr_char quote) s) ++ [quote].

Definition py_repr (v : value) : pystr :=
  match v with
  | VStr s => repr_str s
  | _ => py_str v
  end.

(** [sep.join(parts)]. *)
Fixpoint str_join (sep : pystr) (parts : list pystr) : pystr :=
  match parts with
  | [] => []
  | [p] => p
  | p :: rest => p ++ sep ++ str_join sep rest
  end.

(** [str(l)] of a list, as an f-string prints it. *)
Definition repr_list (l : list value) : pystr :=
  py "[" ++ str_join (py ", ") (map py_repr l) ++ py "]".

(** A Python [set] of values: no two members are [==]; the member kept
    is the one added first. *)
Definition pyset : Type := list value.

Definition set_mem (v : value) (s : pyset) : bool := existsb (py_eqb v) s.

Definition set_add (v : value) (s : pyset) : pyset :=
  if set_mem v s then s else s ++ [v].

Definition set_of_list (l : list value) : pyset :=
  fold_left (fun s v => set_add v s) l [].

(** [a - b]. *)
Definition set_diff (a b : pyset) : pyset :=
  List.filter (fun v => negb (set_mem v b)) a.

(** [a < b] on values: numbers with numbers, strings with strings;
    anything else is a [TypeError]. *)
Definition py_ltb (a b : value) : outcome bool :=
  match as_num a, as_num b with
  | Some x, Some y => Return (x <? y)
  | _, _ =>
      match a, b with
      | VStr s, VStr t => Return (str_ltb s t)
      | _, _ => Raise TypeError
      end
  end.

(** [sorted(s)]: a stable insertion sort (an element moves behind those
    that are smaller, and stays ahead of its equals); it raises as soon
    as two members cannot be compared. *)
Fixpoint sorted_insert (v : value) (l : list value) : outcome (list value) :=
  match l with
  | [] => Return [v]
  | w :: l' =>
      match py_ltb w v with
      | Raise e => Raise e
      | Return false => Return (v :: w :: l')
      | Return true =>
          match sorted_insert v l' with
          | Raise e => Raise e
          | Return r => Return (w :: r)
          end
      end
  end.

Fixpoint sorted (l : list value) : outcome (list value) :=
  match l with
  | [] => Return []
  | v :: l' =>
      match sorted l' with
      | Raise e => Raise e
      | Return r => sorted_insert v r
      end
  end.

(** A row as [query_dict] builds it, and [row[key]]. *)
Definition dict_of_pairs (kvs : list (pystr * value)) : gmap pystr value :=
  fold_left (fun d kv => <[kv.1 := kv.2]> d) kvs ∅.

Definition getitem (d : gmap pystr value) (key : string) : outcome value :=
  match d !! py key with
  | Some v => Return v
  | None => Raise (KeyError (py key))
  end.

(** [key in d]. *)
Definition has_key (d : gmap pystr value) (key : string) : bool :=
  bool_decide (is_Some (d !! py key)).

(** Loops.  The body of a [for] either falls through to the next
    iteration or executes [return]; both carry the locals. *)
Inductive flow (S : Type) : Type :=
| Continue (s : S)
| Returned (s : S).
Arguments Continue {S} s.
Arguments Returned {S} s.

Definition locals_of {S} (f : flow S) : S :=
  match f with Continue s | Returned s => s end.

Fixpoint for_in {A S} (xs : list A) (body : A -> S -> M (flow S)) (s : S)
  : M (flow S) :=
  match xs with
  | [] => ret (Continue s)
  | x :: xs' =>
      r <- body x s ;;
      match r with
      | Continue s' => for_in xs' body s'
      | Returned s' => ret (Returned s')
      end
  end.

(** A loop whose body only emits lines. *)
Fixpoint for_each {A} (xs : list A) (body : A -> M unit) : M unit :=
  match xs with
  | [] => ret tt
  | x :: xs' => body x ;;; for_each xs' body
  end.

(** ** The data source *)

(** What a cursor holds after [execute]: the column names of
    [cursor.description] and the rows [fetchall] returns. *)
Record ResultSet : Type := {
  description : list pystr;
  fetchall : list (list value)
}.

(** The connection object: opening a cursor, executing a statement and
    committing may each fail.  A statement is identified by its text;
    the server answers one statement the same way throughout a run. *)
Record Connection : Type := {
  conn_cursor : outcome unit;
  conn_execute : pystr -> outcome ResultSet;
  conn_commit : outcome unit
}.

(** [cursor.fetchone()]. *)
Definition fetchone (rs : ResultSet) : option (list value) := head (fetchall rs).

(** [row[i]] on a fetched row. *)
Definition row_index (r : list value) (i : nat) : outcome value :=
  match r !! i with
  | Some v => Return v
  | None => Raise IndexError
  end.

(** [row[1] if row else None]: a row is false when the cursor had none
    (or when it has no column). *)
Definition second_if_row (row : option (list value)) : outcome value :=
  match row with
  | None | Some [] => Return VNone
  | Some r => row_index r 1
  end.

(** The host: [subprocess.getoutput(cmd)]. *)
Record Host : Type := {
  getoutput : pystr -> outcome pystr
}.

Definition obind {A B} (o : outcome A) (k : A -> outcome B) : outcome B :=
  match o with
  | Return a => k a
  | Raise e => Raise e
  end.

(** The newline character of a Python ["\n"]. *)
Definition nl : pystr := [10%N].

(** ["-" * n]. *)
Definition str_repeat (c : pystr) (n : nat) : pystr := concat (replicate n c).

(** ** class NumaChecker *)

Module NumaChecker.
Section Checker.

Variable conn : Connection.
Variable host : Host.

(** [__init__] announces the tool through [self.out]. *)
Definition init : M unit :=
  out (py "🔧 Infrastructure Tuning Toolkit - Diagnostic Tool").

(** [query_dict]: both [except] clauses re-raise; the [finally] clause
    closes the cursor, which is unbound when [conn.cursor()] raised. *)
Definition query_dict (sql : pystr) : outcome (list (gmap pystr value)) :=
  let cursor := conn_cursor conn in
  let body :=
    obind cursor (fun _ =>
    obind (conn_execute conn sql) (fun rs =>
    let columns := description rs in
    Return (map (fun row => dict_of_pairs (zip columns row)) (fetchall rs)))) in
  match cursor with
  | Raise _ => Raise (UnboundLocalError (py "cursor"))
  | Return _ => body
  end.

Definition scheduler_layout_query : pystr := py "
        SELECT scheduler_id, cpu_id, is_online, status
        FROM sys.dm_os_schedulers
        WHERE scheduler_id < 255
        ORDER BY scheduler_id
        ".

Definition get_scheduler_layout : outcome (list (gmap pystr value)) :=
  query_dict scheduler_layout_query.

Definition memory_nodes_query : pystr := py "
        SELECT memory_node_id,
           virtual_address_space_reserved_kb,
           virtual_address_space_committed_kb,
           locked_page_allocations_kb
        FROM sys.dm_os_memory_nodes
        
        WHERE memory_node_id != 64
        ".

Definition get_memory_nodes : outcome (list (gmap pystr value)) :=
  query_dict memory_nodes_query.

(** *** validate_numa_layout *)

(** The loop only rebinds [cpu] and [is_online]. *)
Definition layout_loop_body (row : gmap pystr value)
    (l : option value * option value) : M (flow (option value * option value)) :=
  cpu <- lift (getitem row "cpu_id") ;;
  is_online <- lift (getitem row "is_online") ;;
  ret (Continue (Some cpu, Some is_online)).

Definition validate_numa_layout : M unit :=
  schedulers <- lift get_scheduler_layout ;;
  let node_cpu_map : list (value * Z) := [] in
  let offline_schedulers : list value := [] in
  r <- for_in schedulers layout_loop_body (None, None) ;;
  let '(cpu, is_online) := locals_of r in
  (* the test below is at the indentation of the [for], after the loop *)
  is_online <- lift (local "is_online" is_online) ;;
  offline_schedulers <-
    (if py_eqb is_online (VInt 0)
     then cpu <- lift (local "cpu" cpu) ;; ret (offline_schedulers ++ [cpu])
     else ret offline_schedulers) ;;
  (* CPU count check *)
  let cpu_counts := set_of_list (map (fun nc => VInt nc.2) node_cpu_map) in
  (if decide (1 < length cpu_counts)%nat
   then
     out (py "⚠️ NUMA nodes have unbalanced CPU counts:") ;;;
     for_each node_cpu_map (fun nc =>
       out (py " - Node " ++ py_str nc.1 ++ py ": " ++ str_of_Z nc.2
            ++ py " schedulers"))
   else out (py "✅ NUMA CPU distribution appears balanced.")) ;;;
  (* Offline schedulers *)
  match offline_schedulers with
  | _ :: _ =>
      out (py "⚠️ Offline schedulers detected: " ++ repr_list offline_schedulers)
  | [] => out (py "✅ All schedulers are online.")
  end.

(** *** validate_memory_alignment *)

Record alignment_locals : Type := {
  scheduler_node_ids : pyset;
  memory_node_ids : option pyset
}.

(** [set(row['memory_node_id'] for row in memory_nodes)]. *)
Fixpoint memory_node_id_list (memory_nodes : list (gmap pystr value))
  : outcome (list value) :=
  match memory_nodes with
  | [] => Return []
  | row :: rest =>
      obind (getitem row "memory_node_id") (fun v =>
      obind (memory_node_id_list rest) (fun vs => Return (v :: vs)))
  end.

(** One iteration of the loop over the schedulers.  The [return] stands
    at the indentation of the loop body: the first iteration ends the
    check. *)
Definition alignment_loop_body (memory_nodes : list (gmap pystr value))
    (row : gmap pystr value) (l : alignment_locals) : M (flow alignment_locals) :=
  l1 <-
    (if has_key row "parent_node_id"
     then
       node <- lift (getitem row "parent_node_id") ;;
       let ids := set_add node (scheduler_node_ids l) in
       mem_ids <- lift (memory_node_id_list memory_nodes) ;;
       ret {| scheduler_node_ids := ids;
              memory_node_ids := Some (set_of_list mem_ids) |}
     else ret l) ;;
  (match scheduler_node_ids l1 with
   | [] => out (py "⚠️ NUMA layout cannot be fully validated (parent_node_id missing).")
   | _ :: _ => ret tt
   end) ;;;
  ret (Returned l1).

Definition alignment_loop (schedulers memory_nodes : list (gmap pystr value))
  : M (flow alignment_locals) :=
  for_in schedulers (alignment_loop_body memory_nodes)
    {| scheduler_node_ids := []; memory_node_ids := None |}.

Definition validate_memory_alignment : M unit :=
  schedulers <- lift get_scheduler_layout ;;
  memory_nodes <- lift get_memory_nodes ;;
  r <- alignment_loop schedulers memory_nodes ;;
  match r with
  | Returned _ => ret tt
  | Continue l =>
      let scheduler_node_ids := scheduler_node_ids l in
      memory_node_ids <- lift (local "memory_node_ids" (memory_node_ids l)) ;;
      let nodes_missing_memory := set_diff scheduler_node_ids memory_node_ids in
      let memory_without_cpus := set_diff memory_node_ids scheduler_node_ids in
      (match nodes_missing_memory with
       | _ :: _ => out (py "⚠️ NUMA nodes with schedulers but no memory assigned:")
       | [] => ret tt
       end) ;;;
      nodes <- lift (sorted nodes_missing_memory) ;;
      for_each nodes (fun node => out (py " - Node " ++ py_str node)) ;;;
      (* the [else] belongs to the [for], which has no [break] *)
      out (py "✅ All scheduler nodes have memory assigned.") ;;;
      (match memory_without_cpus with
       | _ :: _ => out (py "⚠️ Memory nodes present without schedulers:")
       | [] => ret tt
       end) ;;;
      nodes <- lift (sorted memory_without_cpus) ;;
      for_each nodes (fun node => out (py " - Node " ++ py_str node)) ;;;
      out (py "✅ All memory nodes align with scheduler nodes.")
  end.

(** *** recommend_maxdop *)

(** The body of the [try] block: every statement may raise. *)
Definition fetch_current_maxdop : outcome value :=
  obind (conn_cursor conn) (fun _ =>
  obind (conn_execute conn (py "SET IMPLICIT_TRANSACTIONS OFF;")) (fun _ =>
  obind (conn_execute conn (py "EXEC sp_configure 'show advanced options', 1;")) (fun _ =>
  obind (conn_execute conn (py "RECONFIGURE;")) (fun _ =>
  obind (conn_commit conn) (fun _ =>
  obind (conn_execute conn (py "EXEC sp_configure 'max degree of parallelism'")) (fun rs =>
  let row := fetchone rs in
  second_if_row row)))))).

(** [schedulers and 'parent_node_id' in schedulers[0]]. *)
Definition first_has_parent_node_id (schedulers : list (gmap pystr value)) : bool :=
  match schedulers with
  | [] => false
  | row0 :: _ => has_key row0 "parent_node_id"
  end.

(** [set(row['parent_node_id'] for row in schedulers if 'parent_node_id' in row)]. *)
Definition numa_nodes_of (schedulers : list (gmap pystr value)) : pyset :=
  set_of_list (omap (fun row : gmap pystr value => row !! py "parent_node_id") schedulers).

(** The recommendation and its reason, from the node count. *)
Definition recommendation (node_count : Z) : Z * pystr :=
  if node_count =? 1
  then (8, py "Single NUMA node - general best practice")
  else (node_count * 2,
        str_of_Z node_count ++ py " NUMA nodes detected - scaling maxDOP accordingly").

Definition recommend_maxdop : M unit :=
  current_value <-
    try_except (lift fetch_current_maxdop)
      (fun _ => out (py "❌ Unable to retrieve current maxDOP.") ;;; ret VNone) ;;
  (* Count NUMA nodes *)
  schedulers <- lift get_scheduler_layout ;;
  node_count <-
    (if first_has_parent_node_id schedulers
     then
       let numa_nodes := numa_nodes_of schedulers in
       ret (Z.of_nat (length numa_nodes))
     else
       out (py "⚠️ Falling back to 1 NUMA node (parent_node_id unavailable)") ;;;
       ret 1) ;;
  let '(recommended, reason) := recommendation node_count in
  out (py "🧠 Current maxDOP: " ++ py_str current_value) ;;;
  out (py "✅ Recommended maxDOP: " ++ str_of_Z recommended) ;;;
  out (py "📌 Reason: " ++ reason).

(** *** get_memory_config and validate_memory_config *)

(** [int(row[i] / 1024)]. *)
Definition kb_to_mb (row : list value) (i : nat) : outcome value :=
  obind (row_index row i) (fun v =>
  match as_num v with
  | Some kb => obind (int_of_true_divide_1024 kb) (fun mb => Return (VInt mb))
  | None => Raise TypeError
  end).

(** A step of the [try] block: when it raises, the dictionary is left
    as the assignments made so far have filled it. *)
Definition and_then {A} (o : outcome A) (memory_config : gmap pystr value)
    (k : A -> outcome unit * gmap pystr value) : outcome unit * gmap pystr value :=
  match o with
  | Return a => k a
  | Raise e => (Raise e, memory_config)
  end.

Definition sys_memory_query : pystr :=
  py "SELECT total_physical_memory_kb, available_physical_memory_kb FROM sys.dm_os_sys_memory".

Definition fill_memory_config : outcome unit * gmap pystr value :=
  let memory_config : gmap pystr value := ∅ in
  and_then (conn_cursor conn) memory_config (fun _ =>
  and_then (conn_execute conn (py "SET IMPLICIT_TRANSACTIONS OFF;")) memory_config (fun _ =>
  and_then (conn_execute conn (py "EXEC sp_configure 'show advanced options', 1;")) memory_config (fun _ =>
  and_then (conn_execute conn (py "RECONFIGURE;")) memory_config (fun _ =>
  and_then (conn_commit conn) memory_config (fun _ =>
  (* Pull min/max SQL memory settings *)
  and_then (conn_execute conn (py "EXEC sp_configure 'min server memory (MB)'")) memory_config (fun rs =>
  and_then (second_if_row (fetchone rs)) memory_config (fun v =>
  let memory_config := <[py "min_server_memory_mb" := v]> memory_config in
  and_then (conn_execute conn (py "EXEC sp_configure 'max server memory (MB)'")) memory_config (fun rs =>
  and_then (second_if_row (fetchone rs)) memory_config (fun v =>
  let memory_config := <[py "max_server_memory_mb" := v]> memory_config in
  (* Get physical RAM *)
  and_then (conn_execute conn sys_memory_query) memory_config (fun rs =>
  match fetchone rs with
  | None | Some [] => (Return tt, memory_config)
  | Some row =>
      and_then (kb_to_mb row 0) memory_config (fun total =>
      let memory_config := <[py "total_physical_memory_mb" := total]> memory_config in
      and_then (kb_to_mb row 1) memory_config (fun available =>
      let memory_config := <[py "available_physical_memory_mb" := available]> memory_config in
      (Return tt, memory_config)))
  end)))))))))).

Definition get_memory_config : M (gmap pystr value) :=
  match fill_memory_config with
  | (Return _, memory_config) => ret memory_config
  | (Raise _, memory_config) =>
      out (py "❌ Unable to retrieve memory configuration.") ;;;
      ret memory_config
  end.

(** [a > b]. *)
Definition py_gtb (a b : value) : outcome bool := py_ltb b a.

(** [min_mem < (max_mem * 0.25)]: the product is computed first, on
    the float of [max_mem] (a quarter of a float that denotes an integer
    is a float); the comparison of an [int] with a float is exact. *)
Definition lt_quarter (min_mem max_mem : value) : outcome bool :=
  match as_num max_mem with
  | None => Raise TypeError
  | Some mx =>
      obind (float_of_int mx) (fun f =>
      let quarter := (inject_Z f * (1 # 4))%Q in
      match as_num min_mem with
      | None => Raise TypeError
      | Some mn => Return (negb (Qle_bool quarter (inject_Z mn)))
      end)
  end.

Definition validate_memory_config : M unit :=
  mem <- get_memory_config ;;
  if decide (mem = ∅) then ret tt
  else
    out (nl ++ py "🔍 SQL Server Memory Configuration:") ;;;
    v <- lift (getitem mem "total_physical_memory_mb") ;;
    out (py " - Total Physical RAM: " ++ py_str v ++ py " MB") ;;;
    v <- lift (getitem mem "available_physical_memory_mb") ;;
    out (py " - Available RAM: " ++ py_str v ++ py " MB") ;;;
    v <- lift (getitem mem "min_server_memory_mb") ;;
    out (py " - SQL Min Memory: " ++ py_str v ++ py " MB") ;;;
    v <- lift (getitem mem "max_server_memory_mb") ;;
    out (py " - SQL Max Memory: " ++ py_str v ++ py " MB") ;;;
    total <- lift (getitem mem "total_physical_memory_mb") ;;
    min_mem <- lift (getitem mem "min_server_memory_mb") ;;
    max_mem <- lift (getitem mem "max_server_memory_mb") ;;
    exceeds <- lift (py_gtb max_mem total) ;;
    (if exceeds : bool
     then out (py "⚠️ SQL Max Memory exceeds physical RAM. Risk of OS starvation.")
     else out (py "✅ SQL Max Memory fits within physical RAM.")) ;;;
    low <- lift (lt_quarter min_mem max_mem) ;;
    (if low : bool
     then out (py "⚠️ SQL Min Memory is set very low compared to Max. Could delay memory ramp-up.")
     else out (py "✅ SQL Min/Max memory ratio looks reasonable.")).

(** *** check_affinity_config *)

(** [[row for row in rows if row[key] == v]]. *)
Fixpoint rows_where (key : string) (v : value) (rows : list (gmap pystr value))
  : outcome (list (gmap pystr value)) :=
  match rows with
  | [] => Return []
  | row :: rest =>
      obind (getitem row key) (fun w =>
      obind (rows_where key v rest) (fun keep =>
      Return (if py_eqb w v then row :: keep else keep)))
  end.

(** [set(r[key] for r in rows)]. *)
Fixpoint column_set_list (key : string) (rows : list (gmap pystr value))
  : outcome (list value) :=
  match rows with
  | [] => Return []
  | row :: rest =>
      obind (getitem row key) (fun v =>
      obind (column_set_list key rest) (fun vs => Return (v :: vs)))
  end.

(** [a != b] on sets. *)
Definition set_neqb (a b : pyset) : bool :=
  negb (forallb (fun v => set_mem v b) a && forallb (fun v => set_mem v a) b).

Definition check_affinity_config : M unit :=
  try_except
    (schedulers <- lift get_scheduler_layout ;;
     total_visible <- lift (rows_where "status" (VStr (py "VISIBLE ONLINE")) schedulers) ;;
     all_online <- lift (rows_where "is_online" (VInt 1) schedulers) ;;
     visible_ids <- lift (column_set_list "cpu_id" total_visible) ;;
     online_ids <- lift (column_set_list "cpu_id" all_online) ;;
     let total_visible_cpu_ids := set_of_list visible_ids in
     let total_online_cpu_ids := set_of_list online_ids in
     if set_neqb total_visible_cpu_ids total_online_cpu_ids
     then
       let diff := set_diff total_online_cpu_ids total_visible_cpu_ids in
       out (py "⚠️ Affinity mask is likely applied. Some CPUs are online but not visible to SQL Server:") ;;;
       missing <- lift (sorted diff) ;;
       out (py "   Missing CPUs: " ++ repr_list missing)
     else out (py "✅ No CPU affinity mask detected. SQL sees all online CPUs."))
    (fun _ => out (py "❌ Error checking affinity config.")).

(** *** detect_virtual_environment *)

(** The [if]/[elif] chain that assigns [detected]. *)
Definition detected_platform (output : pystr) : pystr :=
  if str_in (py "VMware") output then py "VMware"
  else if str_in (py "Hyper-V") output || str_in (py "Virtual Machine") output
  then py "Hyper-V"
  else if str_in (py "KVM") output || str_in (py "QEMU") output
  then py "KVM/QEMU"
  else if str_in (py "Microsoft Corporation Virtual") output
  then py "Azure (Hyper-V core)"
  else py "Bare Metal".

Definition detect_virtual_environment : M pystr :=
  try_except
    (output <- lift (getoutput host (py "systeminfo")) ;;
     let detected := detected_platform output in
     out (nl ++ py "🧭 Host Environment: " ++ detected) ;;;
     (if bool_decide (detected ≠ py "Bare Metal")
      then
        out (py "⚠️ Detected virtualized SQL Server environment.") ;;;
        out (py "📌 Ensure vNUMA is exposed and balanced properly in the hypervisor.") ;;;
        out (py "📌 Misaligned virtual sockets/cores can cause NUMA fragmentation.")
      else ret tt) ;;;
     ret detected)
    (fun _ => out (py "❌ Error detecting virtual platform.") ;;; ret (py "Unknown")).

(** *** get_system_specs *)

Definition system_specs_query : pystr := py "
        SELECT 
            cpu_count,
            hyperthread_ratio,
            physical_memory_kb / 1024 AS physical_memory_mb,
            sqlserver_start_time,
            virtual_machine_type_desc
        FROM sys.dm_os_sys_info
        ".

Definition get_system_specs : M unit :=
  try_except
    (data <- lift (query_dict system_specs_query) ;;
     match data with
     | [] => out (py "❌ Could not retrieve system specs.")
     | row :: _ =>
         out (nl ++ py "🖥️ Server CPU & Memory Specs:") ;;;
         v <- lift (getitem row "cpu_count") ;;
         out (py " - Logical CPUs: " ++ py_str v) ;;;
         v <- lift (getitem row "hyperthread_ratio") ;;
         out (py " - Hyperthread Ratio: " ++ py_str v) ;;;
         v <- lift (getitem row "physical_memory_mb") ;;
         out (py " - Physical Memory: " ++ py_str v ++ py " MB") ;;;
         v <- lift (getitem row "sqlserver_start_time") ;;
         out (py " - SQL Server Start Time: " ++ py_str v) ;;;
         v <- lift (getitem row "virtual_machine_type_desc") ;;
         out (py " - Virtual Machine Type: " ++ py_str v)
     end)
    (fun _ => out (py "❌ Error retrieving system hardware configuration.")).

(** *** run_all_diagnostics *)

(** The three checks below read the host through regular expressions,
    case mapping and driver row objects; the full run only sequences
    them, so they stand here as arbitrary computations. *)
Variable check_socket_layout : M unit.
Variable check_virtual_hardware : M unit.
Variable analyze_sql_workload : M unit.

Definition run_all_diagnostics : M unit :=
  out (nl ++ py "🔧 Running Full SQL Server + VM Diagnostics" ++ nl ++ str_repeat (py "-") 50) ;;;
  get_system_specs ;;;
  validate_numa_layout ;;;
  validate_memory_alignment ;;;
  recommend_maxdop ;;;
  validate_memory_config ;;;
  check_affinity_config ;;;
  get_system_specs ;;;
  check_socket_layout ;;;
  _ <- detect_virtual_environment ;;
  check_virtual_hardware ;;;
  analyze_sql_workload ;;;
  out (nl ++ py "✅ Diagnostics complete.").

End Checker.
End NumaChecker.

(** ** str.splitlines and the json module *)

Module PyLib.

(** The line boundaries of [str.splitlines]: LF, VT, FF, CR, FS, GS, RS,
    NEL, LINE SEPARATOR and PARAGRAPH SEPARATOR. *)
Definition is_linebreak (c : N) : bool :=
  existsb (N.eqb c) [10; 11; 12; 13; 28; 29; 30; 133; 8232; 8233]%N.

(** [s.splitlines()]: a CR followed by LF is one boundary; a text that
    ends at a boundary has no empty last line. *)
Fixpoint splitlines (s : pystr) : list pystr :=
  match s with
  | [] => []
  | c :: rest =>
      if is_linebreak c
      then
        match rest with
        | d :: rest' =>
            if (c =? 13)%N && (d =? 10)%N
            then [] :: splitlines rest'
            else [] :: splitlines rest
        | [] => [[]]
        end
      else
        match splitlines rest with
        | [] => [[c]]
        | line :: lines => (c :: line) :: lines
        end
  end.

(** The escape of one code point by [json.dump] with its default
    [ensure_ascii=True]: everything outside [' '..'~'] is escaped, code
    points above U+FFFF as a surrogate pair. *)
Definition json_escape_char (c : N) : pystr :=
  if (c =? 34)%N then [92; 34]%N
  else if (c =? 92)%N then [92; 92]%N
  else if (c =? 10)%N then [92; 110]%N
  else if (c =? 13)%N then [92; 114]%N
  else if (c =? 9)%N then [92; 116]%N
  else if (c =? 8)%N then [92; 98]%N
  else if (c =? 12)%N then [92; 102]%N
  else if (32 <=? c)%N && (c <=? 126)%N then [c]
  else if (c <? 65536)%N then [92; 117]%N ++ hex4 c
  else
    let v := (c - 65536)%N in
    let s1 := (55296 + v / 1024 mod 1024)%N in
    let s2 := (56320 + v mod 1024)%N in
    [92; 117]%N ++ hex4 s1 ++ [92; 117]%N ++ hex4 s2.

Definition json_string (s : pystr) : pystr :=
  34%N :: concat (map json_escape_char s) ++ [34%N].

(** [json.dump({"report": lines}, f, indent=2)]: the text written. *)
Definition json_dump_report (lines : list pystr) : pystr :=
  py "{" ++ nl ++ py "  " ++ json_string (py "report") ++ py ": "
  ++ match lines with
     | [] => py "[]"
     | _ :: _ =>
         py "[" ++ nl ++ py "    "
         ++ str_join (py "," ++ nl ++ py "    ") (map json_string lines)
         ++ nl ++ py "  ]"
     end
  ++ nl ++ py "}".

(** Reading the document back, as [json.load(f)["report"]] does for a
    document that is an object with the one key [report] bound to an
    array of strings; any other text is refused. *)
Definition is_ws (c : N) : bool := existsb (N.eqb c) [32; 9; 10; 13]%N.

Fixpoint skip_ws (s : pystr) : pystr :=
  match s with
  | c :: rest => if is_ws c then skip_ws rest else s
  | [] => []
  end.

Definition expect (c : N) (s : pystr) : option pystr :=
  match s with
  | x :: rest => if (x =? c)%N then Some rest else None
  | [] => None
  end.

Definition hex_val (c : N) : option N :=
  if (48 <=? c)%N && (c <=? 57)%N then Some (c - 48)%N
  else if (97 <=? c)%N && (c <=? 102)%N then Some (c - 87)%N
  else if (65 <=? c)%N && (c <=? 70)%N then Some (c - 55)%N
  else None.

Definition hex4_val (a b c d : N) : option N :=
  x ← hex_val a; y ← hex_val b; z ← hex_val c; w ← hex_val d;
  Some (x * 4096 + y * 256 + z * 16 + w)%N.

Definition simple_escape (e : N) : option N :=
  if (e =? 34)%N then Some 34%N
  else if (e =? 92)%N then Some 92%N
  else if (e =? 47)%N then Some 47%N
  else if (e =? 98)%N then Some 8%N
  else if (e =? 102)%N then Some 12%N
  else if (e =? 110)%N then Some 10%N
  else if (e =? 114)%N then Some 13%N
  else if (e =? 116)%N then Some 9%N
  else None.

Definition is_high_surrogate (u : N) : bool := (55296 <=? u)%N && (u <=? 56319)%N.
Definition is_low_surrogate (u : N) : bool := (56320 <=? u)%N && (u <=? 57343)%N.

(** The code point of a surrogate pair: [u] is the high half, the six
    characters are the text that follows it. *)
Definition surrogate_pair (u b e l1 l2 l3 l4 : N) : option N :=
  if (b =? 92)%N && (e =? 117)%N
  then
    match hex4_val l1 l2 l3 l4 with
    | Some u2 =>
        if is_low_surrogate u2
        then Some (65536 + (u - 55296) * 1024 + (u2 - 56320))%N
        else None
    | None => None
    end
  else None.

(** The characters of a string literal after its opening quote, up to
    the closing quote; a raw control character is refused.  A high
    surrogate escape followed by a low surrogate escape is one code
    point. *)
Fixpoint scan_string (s : pystr) : option (pystr * pystr) :=
  match s with
  | [] => None
  | c :: rest =>
      if (c =? 34)%N then Some ([], rest)
      else if (c <? 32)%N then None
      else if negb (c =? 92)%N
      then match scan_string rest with
           | Some (t, r) => Some (c :: t, r)
           | None => None
           end
      else
        match rest with
        | [] => None
        | e :: rest1 =>
            if negb (e =? 117)%N
            then match simple_escape e, scan_string rest1 with
                 | Some x, Some (t, r) => Some (x :: t, r)
                 | _, _ => None
                 end
            else
              match rest1 with
              | h1 :: h2 :: h3 :: h4 :: rest2 =>
                  match hex4_val h1 h2 h3 h4 with
                  | None => None
                  | Some u =>
                      let alone :=
                        match scan_string rest2 with
                        | Some (t, r) => Some (u :: t, r)
                        | None => None
                        end in
                      if is_high_surrogate u
                      then
                        match rest2 with
                        | b :: e2 :: l1 :: l2 :: l3 :: l4 :: rest3 =>
                            match surrogate_pair u b e2 l1 l2 l3 l4 with
                            | Some cp =>
                                match scan_string rest3 with
                                | Some (t, r) => Some (cp :: t, r)
                                | None => None
                                end
                            | None => alone
                            end
                        | _ => alone
                        end
                      else alone
                  end
              | _ => None
              end
        end
  end.

Definition parse_string (s : pystr) : option (pystr * pystr) :=
  expect 34 s ≫= scan_string.

(** The items of a non-empty array, from the first one to the closing
    bracket.  [fuel] bounds the number of items. *)
Fixpoint parse_items (fuel : nat) (s : pystr) : option (list pystr * pystr) :=
  match fuel with
  | O => None
  | S fuel' =>
      match parse_string s with
      | None => None
      | Some (item, r) =>
          match skip_ws r with
          | c :: r' =>
              if (c =? 93)%N then Some ([item], r')
              else if (c =? 44)%N
              then match parse_items fuel' (skip_ws r') with
                   | Some (items, r'') => Some (item :: items, r'')
                   | None => None
                   end
              else None
          | [] => None
          end
      end
  end.

Definition parse_array (s : pystr) : option (list pystr * pystr) :=
  match expect 91 s with
  | None => None
  | Some r =>
      match skip_ws r with
      | c :: r' =>
          if (c =? 93)%N then Some ([], r')
          else parse_items (length r) (skip_ws r)
      | [] => None
      end
  end.

Definition json_load_report (s : pystr) : option (list pystr) :=
  r ← expect 123 (skip_ws s);
  kr ← parse_string (skip_ws r);
  if bool_decide (kr.1 = py "report")
  then
    r ← expect 58 (skip_ws kr.2);
    lr ← parse_array (skip_ws r);
    r ← expect 125 (skip_ws lr.2);
    match skip_ws r with
    | [] => Some lr.1
    | _ :: _ => None
    end
  else None.

End PyLib.
Export PyLib.

(** ** class ReportLogger *)

Module ReportLogger.

(** What the logger acts on besides its buffer: the lines handed to
    [print] and the files written. *)
Record World : Type := {
  stdout : list pystr;
  files : gmap pystr pystr
}.

Definition print (line : pystr) (w : World) : World :=
  {| stdout := stdout w ++ [line]; files := files w |}.

Definition write_file (filename content : pystr) (w : World) : World :=
  {| stdout := stdout w; files := <[filename := content]> (files w) |}.

(** The object: [self.console] is [print], [self.buffer] a [StringIO]
    whose value is kept here. *)
Record t : Type := { buffer : pystr }.

Definition init : t := {| buffer := [] |}.

Definition write (msg : pystr) (st : t * World) : t * World :=
  let '(self, w) := st in
  let w := print msg w in
  ({| buffer := buffer self ++ msg ++ nl |}, w).

Definition export (filename : pystr) (st : t * World) : t * World :=
  let '(self, w) := st in
  let w := write_file filename (buffer self) w in
  (self, print (nl ++ py "📄 Markdown report saved to: " ++ filename) w).

Definition export_json (filename : pystr) (st : t * World) : t * World :=
  let '(self, w) := st in
  let lines := splitlines (buffer self) in
  let w := write_file filename (json_dump_report lines) w in
  (self, print (nl ++ py "📄 JSON report saved to: " ++ filename) w).

(** The two lists [print_summary] builds. *)
Definition warnings_of (lines : list pystr) : list pystr :=
  List.filter (fun line => str_in (py "⚠️") line || str_in (py "❌") line) lines.

Definition successes_of (lines : list pystr) : list pystr :=
  List.filter (fun line => str_in (py "✅") line) lines.

Definition print_summary (st : t * World) : t * World :=
  let '(self, w) := st in
  let lines := splitlines (buffer self) in
  let warnings := warnings_of lines in
  let successes := successes_of lines in
  let w := print (nl ++ py "📋 Summary:") w in
  let w := print (py " - ✅ Successes: " ++ str_of_Z (Z.of_nat (length successes))) w in
  let w := print (py " - ⚠️ Warnings: " ++ str_of_Z (Z.of_nat (length warnings))) w in
  match warnings with
  | [] => (self, w)
  | _ :: _ =>
      let w := print (py " - Highlighted Issues:") w in
      (self, fold_left (fun w line => print (py "   " ++ line) w) (take 5 warnings) w)
  end.

(** The checker writes through [output_func=logger.write]: every line a
    check emits is recorded in turn. *)
Definition record_all (msgs : list pystr) (st : t * World) : t * World :=
  fold_left (fun st msg => write msg st) msgs st.

End ReportLogger.

(** ** Vocabulary of the statements *)

(** The four columns of the scheduler records. *)
Definition scheduler_columns : list pystr :=
  [py "scheduler_id"; py "cpu_id"; py "is_online"; py "status"].

(** A result set as the driver delivers it: every fetched row has one
    value per described column. *)
Definition rectangular (rs : ResultSet) : Prop :=
  Forall (fun row : list value => length row = length (description rs)) (fetchall rs).

(** *** The select list of a statement

    The server names the columns of a result set after the select list
    of the statement: the statement is cut into words and commas, the
    items stand between [SELECT] and [FROM], and an item gives its last
    word (the column, or the alias after [AS]) without its qualifier. *)

Definition is_sql_space (c : N) : bool := existsb (N.eqb c) [32; 9; 10; 13]%N.

(** The words of a statement; a comma is a word of its own.  [word]
    holds the characters of the word being read, last first. *)
Fixpoint sql_words (word sql : pystr) : list pystr :=
  let close (rest : list pystr) : list pystr :=
    match word with [] => rest | _ :: _ => rev word :: rest end in
  match sql with
  | [] => close []
  | c :: sql' =>
      if is_sql_space c then close (sql_words [] sql')
      else if (c =? 44)%N then close ([44%N] :: sql_words [] sql')
      else sql_words (c :: word) sql'
  end.

Fixpoint words_after (keyword : pystr) (words : list pystr) : list pystr :=
  match words with
  | [] => []
  | w :: rest => if bool_decide (w = keyword) then rest else words_after keyword rest
  end.

Fixpoint words_before (keyword : pystr) (words : list pystr) : list pystr :=
  match words with
  | [] => []
  | w :: rest => if bool_decide (w = keyword) then [] else w :: words_before keyword rest
  end.

(** The items between the commas; [item] holds the words of the item
    being read, last first. *)
Fixpoint select_items (item : list pystr) (words : list pystr) : list (list pystr) :=
  match words with
  | [] => [rev item]
  | w :: rest =>
      if bool_decide (w = [44%N]) then rev item :: select_items [] rest
      else select_items (w :: item) rest
  end.

(** A name without its qualifier: what follows the last dot. *)
Fixpoint unqualified (name : pystr) : pystr :=
  match name with
  | [] => []
  | c :: rest =>
      if existsb (N.eqb 46) rest then unqualified rest
      else if (c =? 46)%N then rest else name
  end.

Definition column_name (item : list pystr) : option pystr :=
  match last item with
  | Some w => Some (unqualified w)
  | None => None
  end.

Definition select_list (sql : pystr) : list pystr :=
  omap column_name
    (select_items [] (words_before (py "FROM") (words_after (py "SELECT") (sql_words [] sql)))).

(** The server answers the scheduler query with the columns of its
    select list, one value per column in every row. *)
Definition honours_select_list (conn : Connection) : Prop :=
  forall rs, conn_execute conn NumaChecker.scheduler_layout_query = Return rs ->
    description rs = select_list NumaChecker.scheduler_layout_query /\ rectangular rs.


(** No two members of a set are equal as Python values. *)
Definition distinct_values (s : pyset) : Prop :=
  forall (i j : nat) (x y : value),
    s !! i = Some x -> s !! j = Some y -> py_eqb x y = true -> i = j.


(** ** Concrete data sources *)

Module Fixtures.

(** A server described by the answers it gives to the statements it
    knows; any other statement succeeds with an empty result. *)
Fixpoint answer_of (answers : list (pystr * outcome ResultSet)) (sql : pystr)
  : outcome ResultSet :=
  match answers with
  | [] => Return {| description := []; fetchall := [] |}
  | (q, a) :: rest => if bool_decide (q = sql) then a else answer_of rest sql
  end.

Definition server (answers : list (pystr * outcome ResultSet)) : Connection :=
  {| conn_cursor := Return tt;
     conn_execute := answer_of answers;
     conn_commit := Return tt |}.

Definition schedulers_answer (rows : list (list value)) : pystr * outcome ResultSet :=
  (NumaChecker.scheduler_layout_query,
   Return {| description := scheduler_columns; fetchall := rows |}).

Definition online_row (id : Z) (online : bool) : list value :=
  [VInt id; VInt id; VBool online; VStr (py "VISIBLE ONLINE")].

(** A server whose scheduler view has no row below id 255. *)
Definition no_scheduler_server : Connection := server [schedulers_answer []].

(** Two schedulers as the scheduler query returns them: CPU 0 offline,
    then CPU 1 online. *)
Definition first_offline_server : Connection :=
  server [schedulers_answer [online_row 0 false; online_row 1 true]].

(** A data source whose scheduler rows carry [parent_node_id]: CPUs 0
    and 1 on node 0, CPU 2 (offline) on node 1. *)
Definition node_row (id : Z) (online : bool) (node : Z) : list value :=
  online_row id online ++ [VInt node].

Definition numa_schedulers_answer (rows : list (list value))
  : pystr * outcome ResultSet :=
  (NumaChecker.scheduler_layout_query,
   Return {| description := scheduler_columns ++ [py "parent_node_id"];
             fetchall := rows |}).

Definition memory_node_columns : list pystr :=
  [py "memory_node_id"; py "virtual_address_space_reserved_kb";
   py "virtual_address_space_committed_kb"; py "locked_page_allocations_kb"].

Definition memory_nodes_answer (ids : list Z) : pystr * outcome ResultSet :=
  (NumaChecker.memory_nodes_query,
   Return {| description := memory_node_columns;
             fetchall := map (fun id => [VInt id; VInt 0; VInt 0; VInt 0]) ids |}).

Definition two_node_server : Connection :=
  server [numa_schedulers_answer
            [node_row 0 true 0; node_row 1 true 0; node_row 2 false 1];
          memory_nodes_answer [0; 1]].

(** Schedulers on node 0 only, memory on node 1 only. *)
Definition misaligned_server : Connection :=
  server [numa_schedulers_answer [node_row 0 true 0];
          memory_nodes_answer [1]].

(** A server that refuses the scheduler query (the login may not read
    the view) and answers the others. *)
Definition system_specs_answer : pystr * outcome ResultSet :=
  (NumaChecker.system_specs_query,
   Return {| description :=
               [py "cpu_count"; py "hyperthread_ratio"; py "physical_memory_mb";
                py "sqlserver_start_time"; py "virtual_machine_type_desc"];
             fetchall :=
               [[VInt 8; VInt 2; VInt 65536; VStr (py "2023-10-01 08:00:00");
                 VStr (py "NONE")]] |}).

Definition permission_denied : exn :=
  PyodbcError (py "VIEW SERVER STATE permission was denied").

Definition refused_scheduler_server : Connection :=
  server [system_specs_answer;
          (NumaChecker.scheduler_layout_query, Raise permission_denied)].

(** The answer of [sp_configure] for one option: at most one row, of
    which the check reads column 1. *)
Definition sp_configure_answer (statement : string) (name : string)
    (setting : option Z) : pystr * outcome ResultSet :=
  (py statement,
   Return {| description :=
               [py "name"; py "minimum"; py "maximum"; py "config_value";
                py "run_value"];
             fetchall :=
               match setting with
               | Some v => [[VStr (py name); VInt v; VInt 2147483647; VInt v; VInt v]]
               | None => []
               end |}).

Definition sys_memory_answer (total_kb available_kb : Z) : pystr * outcome ResultSet :=
  (NumaChecker.sys_memory_query,
   Return {| description :=
               [py "total_physical_memory_kb"; py "available_physical_memory_kb"];
             fetchall := [[VInt total_kb; VInt available_kb]] |}).

Definition memory_server (min_mb max_mb : option Z)
    (sys_memory : pystr * outcome ResultSet) : Connection :=
  server [sp_configure_answer "EXEC sp_configure 'min server memory (MB)'"
            "min server memory (MB)" min_mb;
          sp_configure_answer "EXEC sp_configure 'max server memory (MB)'"
            "max server memory (MB)" max_mb;
          sys_memory].

(** 64 GB of RAM, max server memory 70000 MB, min server memory 1000 MB. *)
Definition oversized_memory_server : Connection :=
  memory_server (Some 1000) (Some 70000) (sys_memory_answer 67108864 33554432).

(** The same machine when [sp_configure] returns no row for the minimum. *)
Definition no_min_memory_server : Connection :=
  memory_server None (Some 70000) (sys_memory_answer 67108864 33554432).

(** The same machine when the query on [sys.dm_os_sys_memory] is refused. *)
Definition refused_sys_memory_server : Connection :=
  memory_server (Some 1000) (Some 70000)
    (NumaChecker.sys_memory_query, Raise permission_denied).

(** A host whose [systeminfo] output names VMware and Hyper-V. *)
Definition vmware_host : Host :=
  {| getoutput := fun _ =>
       Return (py "System Manufacturer: VMware, Inc. Hyper-V Requirements: A hypervisor has been detected.") |}.

(** Three online schedulers, two on node 0 and one on node 1. *)
Definition unbalanced_server : Connection :=
  server [numa_schedulers_answer
            [node_row 0 true 0; node_row 1 true 0; node_row 2 true 1];
          memory_nodes_answer [0; 1]].

(** Two online schedulers, as the scheduler query returns them, on a
    server whose [sp_configure] shows 4 for [max degree of parallelism]. *)
Definition configured_server : Connection :=
  server [schedulers_answer [online_row 0 true; online_row 1 true];
          sp_configure_answer "EXEC sp_configure 'max degree of parallelism'"
            "max degree of parallelism" (Some 4)].

End Fixtures.

(** ** Lines named in the statements *)

Definition cannot_validate_line : pystr :=
  py "⚠️ NUMA layout cannot be fully validated (parent_node_id missing).".

Definition balanced_line : pystr :=
  py "✅ NUMA CPU distribution appears balanced.".

Definition all_online_line : pystr := py "✅ All schedulers are online.".

Definition offline_line (cpus : list value) : pystr :=
  py "⚠️ Offline schedulers detected: " ++ repr_list cpus.

Definition unable_maxdop_line : pystr := py "❌ Unable to retrieve current maxDOP.".

Definition fallback_line : pystr :=
  py "⚠️ Falling back to 1 NUMA node (parent_node_id unavailable)".

Definition current_maxdop_line (v : value) : pystr :=
  py "🧠 Current maxDOP: " ++ py_str v.

Definition recommended_maxdop_line (n : Z) : pystr :=
  py "✅ Recommended maxDOP: " ++ str_of_Z n.

Definition reason_line (reason : pystr) : pystr := py "📌 Reason: " ++ reason.

Definition single_node_reason : pystr := py "Single NUMA node - general best practice".






(** The current value as the check reads it, [None] when the read
    failed, and the line that reports such a failure. *)
Definition maxdop_read (conn : Connection) : value * list pystr :=
  match NumaChecker.fetch_current_maxdop conn with
  | Return v => (v, [])
  | Raise _ => (VNone, [unable_maxdop_line])
  end.

Definition run_header_line : pystr :=
  nl ++ py "🔧 Running Full SQL Server + VM Diagnostics" ++ nl ++ str_repeat (py "-") 50.

Definition unable_memory_line : pystr := py "❌ Unable to retrieve memory configuration.".

Definition memory_header_line : pystr := nl ++ py "🔍 SQL Server Memory Configuration:".

Definition memory_value_lines (total available min_mem max_mem : value) : list pystr :=
  [py " - Total Physical RAM: " ++ py_str total ++ py " MB";
   py " - Available RAM: " ++ py_str available ++ py " MB";
   py " - SQL Min Memory: " ++ py_str min_mem ++ py " MB";
   py " - SQL Max Memory: " ++ py_str max_mem ++ py " MB"].

Definition starvation_warn_line : pystr :=
  py "⚠️ SQL Max Memory exceeds physical RAM. Risk of OS starvation.".

Definition fits_ok_line : pystr := py "✅ SQL Max Memory fits within physical RAM.".

Definition ramp_up_warn_line : pystr :=
  py "⚠️ SQL Min Memory is set very low compared to Max. Could delay memory ramp-up.".

Definition ratio_ok_line : pystr := py "✅ SQL Min/Max memory ratio looks reasonable.".

Definition host_environment_line (detected : pystr) : pystr :=
  nl ++ py "🧭 Host Environment: " ++ detected.

Definition vnuma_advice_lines : list pystr :=
  [py "⚠️ Detected virtualized SQL Server environment.";
   py "📌 Ensure vNUMA is exposed and balanced properly in the hypervisor.";
   py "📌 Misaligned virtual sockets/cores can cause NUMA fragmentation."].

(** A Unicode scalar value: a code point that is not a surrogate. *)
Definition scalar (c : N) : Prop :=
  ((c < 55296)%N \/ (57343 < c)%N) /\ (c < 1114112)%N.

(** Text: a string of scalar values, which is what decoding yields. *)
Definition is_text (s : pystr) : Prop := Forall scalar s.

(** The same as a test. *)
Definition is_textb (s : pystr) : bool :=
  forallb (fun c => ((c <? 55296) || (57343 <? c)) && (c <? 1114112))%N s.

(** A message that holds no line boundary. *)
Definition single_line (s : pystr) : Prop := Forall (fun c => is_linebreak c = false) s.

(** The text of the report after the messages were written. *)
Definition text_log (msgs : list pystr) : pystr :=
  concat (map (fun msg => msg ++ nl) msgs).

(** The separator between two items of the array and the text that
    closes it, as [indent=2] lays them out. *)
Definition item_separator : pystr := [44; 10; 32; 32; 32; 32]%N.
Definition items_close : pystr := [10; 32; 32; 93]%N.

(** Nothing printed, nothing written. *)
Definition empty_world : ReportLogger.World :=
  {| ReportLogger.stdout := []; ReportLogger.files := ∅ |}.

(** What [print_summary] prints for a log with the given success and
    warning lines. *)
Definition summary_lines (successes warnings : list pystr) : list pystr :=
  [nl ++ py "📋 Summary:";
   py " - ✅ Successes: " ++ str_of_Z (Z.of_nat (length successes));
   py " - ⚠️ Warnings: " ++ str_of_Z (Z.of_nat (length warnings))]
  ++ match warnings with
     | [] => []
     | _ :: _ =>
         py " - Highlighted Issues:"
           :: map (fun line => py "   " ++ line) (take 5 warnings)
     end.

(** ** More lines and data sources *)

Definition specs_error_line : pystr :=
  py "❌ Error retrieving system hardware configuration.".

Definition no_specs_line : pystr := py "❌ Could not retrieve system specs.".

Definition specs_lines (cpus ratio memory started vm : value) : list pystr :=
  [nl ++ py "🖥️ Server CPU & Memory Specs:";
   py " - Logical CPUs: " ++ py_str cpus;
   py " - Hyperthread Ratio: " ++ py_str ratio;
   py " - Physical Memory: " ++ py_str memory ++ py " MB";
   py " - SQL Server Start Time: " ++ py_str started;
   py " - Virtual Machine Type: " ++ py_str vm].

Definition complete_line : pystr := nl ++ py "✅ Diagnostics complete.".

(** A connection that cannot open a cursor. *)
Definition broken_connection : Connection :=
  {| conn_cursor := Raise (PyodbcError (py "Connection is closed"));
     conn_execute := fun _ => Raise (PyodbcError (py "Connection is closed"));
     conn_commit := Raise (PyodbcError (py "Connection is closed")) |}.

Definition affinity_ok_line : pystr :=
  py "✅ No CPU affinity mask detected. SQL sees all online CPUs.".

Definition affinity_warn_line : pystr :=
  py "⚠️ Affinity mask is likely applied. Some CPUs are online but not visible to SQL Server:".

Definition missing_cpus_line (cpus : list value) : pystr :=
  py "   Missing CPUs: " ++ repr_list cpus.

(** A scheduler record is visible when its status is [VISIBLE ONLINE],
    online when its flag equals 1. *)
Definition is_visible (row : gmap pystr value) : bool :=
  match row !! py "status" with
  | Some status => py_eqb status (VStr (py "VISIBLE ONLINE"))
  | None => false
  end.

Definition is_online (row : gmap pystr value) : bool :=
  match row !! py "is_online" with
  | Some flag => py_eqb flag (VInt 1)
  | None => false
  end.

(** A scheduler record with the three columns the affinity check reads. *)
Definition affinity_record (row : gmap pystr value) : Prop :=
  is_Some (row !! py "status") /\ is_Some (row !! py "is_online")
  /\ is_Some (row !! py "cpu_id").

(** The dictionaries [get_memory_config] can hand over: the settings in
    the order the function stores them. *)
Definition memory_settings (stored : list (string * value)) : gmap pystr value :=
  fold_left (fun d kv => <[py kv.1 := kv.2]> d) stored ∅.

Definition memory_keys : list string :=
  ["min_server_memory_mb"; "max_server_memory_mb"; "total_physical_memory_mb";
   "available_physical_memory_mb"]%string.

(** A computation that only appends: what it returns and the lines it
    emits do not depend on the lines emitted before it, which it leaves
    in place. *)
Definition framed {A} (m : M A) : Prop :=
  forall log : list pystr, m log = ((m []).1, log ++ (m []).2).

(** ** check_virtual_hardware *)

Module HostChecks.
Section Hardware.

Variable host : Host.

(** [str.upper] maps a string by the case tables of Unicode; the check
    is written over the mapping. *)
Variable upper : pystr -> pystr.

Definition disk_command : pystr := py "wmic diskdrive get InterfaceType,Model".

Definition nic_command : pystr :=
  py "wmic nic where 'AdapterTypeId=0 and NetEnabled=true' get Name,Manufacturer,AdapterType".

Definition check_virtual_hardware : M unit :=
  out (nl ++ py "💽 VM Hardware Configuration Check:") ;;;
  try_except
    ((* --- Check Disk Controllers --- *)
     disk_output <- lift (getoutput host disk_command) ;;
     out (py "🔍 Disk Controllers:") ;;;
     (if str_in (py "SCSI") disk_output
      then out (py "✅ Disks are using SCSI interface.")
      else
        out (py "⚠️ Disks may not be using SCSI interface:") ;;;
        out disk_output) ;;;
     (* --- Check Network Adapters --- *)
     nic_output <- lift (getoutput host nic_command) ;;
     out (nl ++ py "🔍 Network Adapters:") ;;;
     (if str_in (py "VMXNET3") (upper nic_output)
      then out (py "✅ VMXNET3 network adapter detected.")
      else
        out (py "⚠️ VMXNET3 not detected. Current adapters:") ;;;
        out nic_output))
    (fun _ => out (py "❌ Error retrieving virtual hardware info.")).

End Hardware.
End HostChecks.

(** ** analyze_sql_workload *)

Module Workload.
Section Requests.

Variable conn : Connection.

(** The exception of a failed attribute access on a row.  The handler
    of the check catches every exception alike. *)
Variable AttributeError : pystr -> exn.

(** [row.name] on a driver row: the value of the column of that name
    (of the last such column, as in a dictionary of the columns). *)
Definition getattr (columns : list pystr) (row : list value) (name : string)
  : outcome value :=
  match dict_of_pairs (zip columns row) !! py name with
  | Some v => Return v
  | None => Raise (AttributeError (py name))
  end.

(** [v[:n]]: a string is cut, another value cannot be subscripted. *)
Definition slice_to (n : nat) (v : value) : outcome pystr :=
  match v with
  | VStr s => Return (take n s)
  | _ => Raise TypeError
  end.

Definition requests_query : pystr := py "
            SELECT 
                r.session_id,
                r.status,
                r.command,
                r.start_time,
                r.cpu_time,
                r.total_elapsed_time,
                t.text AS sql_text
            FROM sys.dm_exec_requests r
            CROSS APPLY sys.dm_exec_sql_text(r.sql_handle) t
            WHERE r.session_id > 50 -- Skip system sessions
            ORDER BY r.total_elapsed_time DESC
            ".

Definition memory_grants_query : pystr := py "
            SELECT session_id, grant_time, requested_memory_kb, granted_memory_kb
            FROM sys.dm_exec_query_memory_grants
            WHERE granted_memory_kb < requested_memory_kb
            ".

(** The body of the loop over the active requests. *)
Definition report_request (columns : list pystr) (row : list value) : M unit :=
  v <- lift (getattr columns row "session_id") ;;
  out (nl ++ py "🧵 Session " ++ py_str v) ;;;
  v <- lift (getattr columns row "status") ;;
  out (py " - Status: " ++ py_str v) ;;;
  v <- lift (getattr columns row "command") ;;
  out (py " - Command: " ++ py_str v) ;;;
  v <- lift (getattr columns row "cpu_time") ;;
  out (py " - CPU Time: " ++ py_str v ++ py " ms") ;;;
  v <- lift (getattr columns row "total_elapsed_time") ;;
  out (py " - Elapsed Time: " ++ py_str v ++ py " ms") ;;;
  v <- lift (getattr columns row "sql_text") ;;
  text <- lift (slice_to 150 v) ;;
  out (py " - SQL: " ++ text ++ py "...").

(** The body of the loop over the memory grants. *)
Definition report_grant (columns : list pystr) (row : list value) : M unit :=
  session <- lift (getattr columns row "session_id") ;;
  requested <- lift (getattr columns row "requested_memory_kb") ;;
  out (py " - Session " ++ py_str session ++ py " waiting for memory: "
       ++ py_str requested ++ py " KB requested").

Definition analyze_sql_workload (top_n : nat) : M unit :=
  try_except
    (lift (conn_cursor conn) ;;;
     out (nl ++ py "🔍 Active SQL Requests (top " ++ str_of_Z (Z.of_nat top_n) ++ py "):") ;;;
     rs <- lift (conn_execute conn requests_query) ;;
     let rows := take top_n (fetchall rs) in
     (match rows with
      | [] => out (py "✅ No active long-running queries.")
      | _ :: _ => for_each rows (report_request (description rs))
      end) ;;;
     out (nl ++ py "💾 Memory Grants (if any):") ;;;
     rs <- lift (conn_execute conn memory_grants_query) ;;
     let mem_rows := fetchall rs in
     match mem_rows with
     | [] => out (py "✅ No memory grant pressure detected.")
     | _ :: _ => for_each mem_rows (report_grant (description rs))
     end)
    (fun _ => out (py "❌ Error analyzing SQL workload.")).

End Requests.
End Workload.

(** ** db_connect.get_connection *)

Module DbConnect.

(** What a session at the terminal leaves behind: the lines printed and
    the files written, the prompts [input] has shown, the pauses of
    [time.sleep] and the number of calls to [pyodbc.connect]. *)
Record Session : Type := {
  world : ReportLogger.World;
  prompts : list pystr;
  naps : list nat;
  connects : nat
}.

(** What the session meets: the line the user types in answer to each
    prompt (the user answers every prompt), and how the driver answers
    each call to [pyodbc.connect].  What the function hands to the
    [logging] module is not part of the session. *)
Record Environment : Type := {
  typed : nat -> pystr;
  pyodbc_connect : nat -> pystr -> outcome Connection
}.

Definition print (line : pystr) (s : Session) : Session :=
  {| world := ReportLogger.print line (world s); prompts := prompts s;
     naps := naps s; connects := connects s |}.

Definition input (env : Environment) (prompt : pystr) (s : Session) : pystr * Session :=
  (typed env (length (prompts s)),
   {| world := world s; prompts := prompts s ++ [prompt];
      naps := naps s; connects := connects s |}).

Definition sleep (seconds : nat) (s : Session) : Session :=
  {| world := world s; prompts := prompts s;
     naps := naps s ++ [seconds]; connects := connects s |}.

Definition connect (env : Environment) (connection_string : pystr) (s : Session)
  : outcome Connection * Session :=
  (pyodbc_connect env (connects s) connection_string,
   {| world := world s; prompts := prompts s;
      naps := naps s; connects := S (connects s) |}).

(** [str.isspace] on one character. *)
Definition is_space (c : N) : bool :=
  (((9 <=? c) && (c <=? 13)) || ((28 <=? c) && (c <=? 32)) || (c =? 133) || (c =? 160)
   || (c =? 5760) || ((8192 <=? c) && (c <=? 8202)) || (c =? 8232) || (c =? 8233)
   || (c =? 8239) || (c =? 8287) || (c =? 12288))%N.

Fixpoint lstrip (s : pystr) : pystr :=
  match s with
  | c :: rest => if is_space c then lstrip rest else s
  | [] => []
  end.

Definition rstrip (s : pystr) : pystr := rev (lstrip (rev s)).

(** [s.strip()]. *)
Definition strip (s : pystr) : pystr := rstrip (lstrip s).

Definition driver : pystr := py "{ODBC Driver 17 for SQL Server}".

Definition connection_string (server database : pystr) : pystr :=
  (py "DRIVER=" ++ driver ++ py ";")
  ++ (py "SERVER=" ++ server ++ py ";")
  ++ (py "DATABASE=" ++ database ++ py ";")
  ++ py "Trusted_Connection=yes;".

Definition is_pyodbc_error (e : exn) : bool :=
  match e with PyodbcError _ => true | _ => false end.

(** [range(1, retries + 1)]. *)
Definition attempts (retries : Z) : list Z :=
  map (fun i : nat => Z.of_nat i) (seq 1 (Z.to_nat retries)).

Section Connection.

Variable env : Environment.
Variables (retries : Z) (delay : nat).

(** The loop over the attempts; when it runs out the function returns
    [None].  The pause is a whole number of seconds. *)
Fixpoint get_connection_loop (remaining : list Z) (s : Session)
  : outcome (option (Connection * pystr)) * Session :=
  match remaining with
  | [] => (Return None, s)
  | attempt :: rest =>
      let s := print (nl ++ py "🔐 SQL Server Connection Setup") s in
      let '(answer, s) :=
        input env (py "Enter SQL Server address (e.g., localhost or 10.0.0.1\SQLINSTANCE): ") s in
      let server := strip answer in
      let '(answer, s) := input env (py "Enter database name [default: master]: ") s in
      let database := match strip answer with [] => py "master" | name => name end in
      match connect env (connection_string server database) s with
      | (Return conn, s) => (Return (Some (conn, server)), s)
      | (Raise e, s) =>
          if is_pyodbc_error e
          then
            if attempt <? retries
            then
              let s := print (py "Retrying in " ++ str_of_Z (Z.of_nat delay) ++ py " seconds...") s in
              let s := sleep delay s in
              get_connection_loop rest s
            else (Raise e, s)
          else (Raise e, s)
      end
  end.

Definition get_connection (s : Session) : outcome (option (Connection * pystr)) * Session :=
  get_connection_loop (attempts retries) s.

End Connection.
End DbConnect.

(** ** main *)

Module Main.
Import DbConnect.

(** The namespace [parse_args] returns. *)
Record Args : Type := {
  full : bool;
  maxdop : bool;
  memory : bool;
  affinity : bool;
  workload : bool;
  hardware : bool;
  output : option pystr;
  dry_run : bool;
  verbose : bool;
  debug : bool
}.

(** A character of the class [A-Za-z0-9_\-]. *)
Definition is_safe_char (c : N) : bool :=
  (((65 <=? c) && (c <=? 90)) || ((97 <=? c) && (c <=? 122))
   || ((48 <=? c) && (c <=? 57)) || (c =? 95) || (c =? 45))%N.

(** [re.sub(r'[^A-Za-z0-9_\-]', '_', s)]. *)
Definition sanitize (s : pystr) : pystr :=
  map (fun c => if is_safe_char c then c else 95%N) s.

(** The logger as the output function of the checks: every line a
    computation emits goes through [logger.write]. *)
Definition logged {A} (m : M A) (st : ReportLogger.t * ReportLogger.World)
  : outcome A * (ReportLogger.t * ReportLogger.World) :=
  let '(o, lines) := m [] in (o, ReportLogger.record_all lines st).

Definition in_world (f : ReportLogger.World -> ReportLogger.World) (s : Session) : Session :=
  {| world := f (world s); prompts := prompts s; naps := naps s;
     connects := connects s |}.

Section Program.

Variable env : Environment.
Variable host : Host.
Variable upper : pystr -> pystr.
Variable AttributeError : pystr -> exn.

(** [check_socket_layout] reads the host through regular expressions
    over the Unicode digit classes; it stands here as any computation. *)
Variable check_socket_layout : M unit.

Variable args : Args.

(** The checks the flags select, in the order [main] runs them. *)
Definition flagged_checks (conn : Connection) : M unit :=
  (if full args
   then NumaChecker.run_all_diagnostics conn host check_socket_layout
          (HostChecks.check_virtual_hardware host upper)
          (Workload.analyze_sql_workload conn AttributeError 5)
   else ret tt) ;;;
  (if maxdop args then NumaChecker.recommend_maxdop conn else ret tt) ;;;
  (if memory args then NumaChecker.validate_memory_config conn else ret tt) ;;;
  (if affinity args then NumaChecker.check_affinity_config conn else ret tt) ;;;
  (if workload args then Workload.analyze_sql_workload conn AttributeError 5 else ret tt) ;;;
  (if hardware args then HostChecks.check_virtual_hardware host upper else ret tt).

(** What goes through the logger: the constructor of the checker
    announces the tool, then the selected checks run. *)
Definition selected_checks (conn : Connection) : M unit :=
  NumaChecker.init ;;;
  flagged_checks conn.

(** [args.output if args.output else server_name], sanitized. *)
Definition safe_name (server_name : pystr) : pystr :=
  match output args with
  | Some (c :: name) => sanitize (c :: name)
  | Some [] | None => sanitize server_name
  end.

(** The three closing statements of [main]. *)
Definition write_reports (server_name : pystr)
    (st : ReportLogger.t * ReportLogger.World) : ReportLogger.t * ReportLogger.World :=
  let st := ReportLogger.export
              (py "numa_diagnostics_" ++ safe_name server_name ++ py ".md") st in
  let st := ReportLogger.export_json
              (py "numa_diagnostics_" ++ safe_name server_name ++ py ".json") st in
  ReportLogger.print_summary st.

Definition main (s : Session) : outcome unit * Session :=
  if dry_run args
  then
    let server_name := py "dry_run" in
    let st := ReportLogger.write
                (py "🧪 Dry Run Mode: Skipping SQL Server connection and database diagnostics.")
                (ReportLogger.init, world s) in
    let st := write_reports server_name st in
    (Return tt, in_world (fun _ => st.2) s)
  else
    match get_connection env 3 5 s with
    | (Raise e, s) => (Raise e, s)
    | (Return None, s) => (Raise TypeError, s)   (* [None] cannot be unpacked *)
    | (Return (Some (conn, server_name)), s) =>
        match logged (selected_checks conn) (ReportLogger.init, world s) with
        | (Raise e, st) => (Raise e, in_world (fun _ => st.2) s)
        | (Return _, st) =>
            let st := write_reports server_name st in
            (Return tt, in_world (fun _ => st.2) s)
        end
    end.

End Program.
End Main.

(** ** Vocabulary of the host and workload checks *)

Definition hardware_header_line : pystr := nl ++ py "💽 VM Hardware Configuration Check:".

Definition hardware_error_line : pystr := py "❌ Error retrieving virtual hardware info.".

Definition disk_header_line : pystr := py "🔍 Disk Controllers:".

Definition scsi_ok_line : pystr := py "✅ Disks are using SCSI interface.".

(** What the check says of the disks: the ok line, or the warning
    followed by the output of the probe. *)
Definition disk_verdict (disk_output : pystr) : list pystr :=
  if str_in (py "SCSI") disk_output
  then [scsi_ok_line]
  else [py "⚠️ Disks may not be using SCSI interface:"; disk_output].

Definition nic_header_line : pystr := nl ++ py "🔍 Network Adapters:".

Definition vmxnet_ok_line : pystr := py "✅ VMXNET3 network adapter detected.".

Definition vmxnet_warn_line : pystr := py "⚠️ VMXNET3 not detected. Current adapters:".

(** The case mapping of ASCII: a to z become A to Z. *)
Definition ascii_upper (c : N) : N :=
  if ((97 <=? c) && (c <=? 122))%N then (c - 32)%N else c.

Definition is_ascii (s : pystr) : Prop := Forall (fun c => (c < 128)%N) s.

Definition is_asciib (s : pystr) : bool := forallb (fun c => (c <? 128)%N) s.

(** On ASCII text [str.upper] is the ASCII case mapping. *)
Definition upper_on_ascii (upper : pystr -> pystr) : Prop :=
  forall s : pystr, is_ascii s -> upper s = map ascii_upper s.

(** [spelled] is [word] up to the case of its letters. *)
Definition spelling_of (word spelled : pystr) : Prop := map ascii_upper spelled = word.

(** A host that answers every probe with the same text. *)
Definition echo_host (text : pystr) : Host := {| getoutput := fun _ => Return text |}.

(** A host whose probes fail. *)
Definition dead_host : Host := {| getoutput := fun _ => Raise (OSError (py "wmic not found")) |}.

Definition workload_error_line : pystr := py "❌ Error analyzing SQL workload.".

Definition requests_header_line (top_n : nat) : pystr :=
  nl ++ py "🔍 Active SQL Requests (top " ++ str_of_Z (Z.of_nat top_n) ++ py "):".

Definition no_requests_line : pystr := py "✅ No active long-running queries.".

Definition grants_header_line : pystr := nl ++ py "💾 Memory Grants (if any):".

Definition no_grants_line : pystr := py "✅ No memory grant pressure detected.".

(** The value a row has under a column name, if the result set has
    that column. *)
Definition attribute (columns : list pystr) (row : list value) (name : string)
  : option value :=
  dict_of_pairs (zip columns row) !! py name.

Definition shown (v : option value) : pystr :=
  match v with Some v => py_str v | None => [] end.

(** The statement text of a request, when the column holds a string. *)
Definition statement_text (columns : list pystr) (row : list value) : option pystr :=
  match attribute columns row "sql_text" with
  | Some (VStr text) => Some text
  | _ => None
  end.

(** The five lines that precede the statement of a request. *)
Definition request_head_lines (columns : list pystr) (row : list value) : list pystr :=
  [nl ++ py "🧵 Session " ++ shown (attribute columns row "session_id");
   py " - Status: " ++ shown (attribute columns row "status");
   py " - Command: " ++ shown (attribute columns row "command");
   py " - CPU Time: " ++ shown (attribute columns row "cpu_time") ++ py " ms";
   py " - Elapsed Time: " ++ shown (attribute columns row "total_elapsed_time") ++ py " ms"].

Definition statement_line (text : pystr) : pystr :=
  py " - SQL: " ++ take 150 text ++ py "...".

Definition request_lines (columns : list pystr) (row : list value) : list pystr :=
  request_head_lines columns row
  ++ [statement_line (default [] (statement_text columns row))].

(** A request row the report can print: the five columns are there. *)
Definition printable_request (columns : list pystr) (row : list value) : Prop :=
  is_Some (attribute columns row "session_id")
  /\ is_Some (attribute columns row "status")
  /\ is_Some (attribute columns row "command")
  /\ is_Some (attribute columns row "cpu_time")
  /\ is_Some (attribute columns row "total_elapsed_time").

(** ... and the statement is a string. *)
Definition complete_request (columns : list pystr) (row : list value) : Prop :=
  printable_request columns row /\ is_Some (statement_text columns row).

Definition requests_section (columns : list pystr) (rows : list (list value))
  : list pystr :=
  match rows with
  | [] => [no_requests_line]
  | _ :: _ => concat (map (request_lines columns) rows)
  end.

Definition grant_line (columns : list pystr) (row : list value) : pystr :=
  py " - Session " ++ shown (attribute columns row "session_id")
  ++ py " waiting for memory: " ++ shown (attribute columns row "requested_memory_kb")
  ++ py " KB requested".

Definition complete_grant (columns : list pystr) (row : list value) : Prop :=
  is_Some (attribute columns row "session_id")
  /\ is_Some (attribute columns row "requested_memory_kb").

Definition grants_section (columns : list pystr) (rows : list (list value))
  : list pystr :=
  match rows with
  | [] => [no_grants_line]
  | _ :: _ => map (grant_line columns) rows
  end.

(** The columns of the two statements of the workload check. *)
Definition request_columns : list pystr :=
  [py "session_id"; py "status"; py "command"; py "start_time"; py "cpu_time";
   py "total_elapsed_time"; py "sql_text"].

Definition grant_columns : list pystr :=
  [py "session_id"; py "grant_time"; py "requested_memory_kb"; py "granted_memory_kb"].

Definition request_row (session : Z) (statement : value) : list value :=
  [VInt session; VStr (py "running"); VStr (py "SELECT");
   VStr (py "2023-10-01 08:00:00"); VInt 120; VInt 4500; statement].

(** A server with two active requests and no pending memory grant. *)
Definition busy_server : Connection :=
  Fixtures.server
    [(Workload.requests_query,
      Return {| description := request_columns;
                fetchall := [request_row 61 (VStr (py "SELECT name FROM sys.databases"));
                             request_row 62 (VStr (py "WAITFOR DELAY '00:10'"))] |});
     (Workload.memory_grants_query,
      Return {| description := grant_columns; fetchall := [] |})].

(** The same server when the second request has no statement text. *)
Definition null_statement_server : Connection :=
  Fixtures.server
    [(Workload.requests_query,
      Return {| description := request_columns;
                fetchall := [request_row 61 (VStr (py "SELECT name FROM sys.databases"));
                             request_row 62 VNone] |});
     (Workload.memory_grants_query,
      Return {| description := grant_columns; fetchall := [] |})].

(** ** Vocabulary of the connection dialogue *)

Definition setup_line : pystr := nl ++ py "🔐 SQL Server Connection Setup".

Definition server_prompt : pystr :=
  py "Enter SQL Server address (e.g., localhost or 10.0.0.1\SQLINSTANCE): ".

Definition database_prompt : pystr := py "Enter database name [default: master]: ".

Definition retry_line (delay : nat) : pystr :=
  py "Retrying in " ++ str_of_Z (Z.of_nat delay) ++ py " seconds...".

(** What the user answers at attempt [i] (counted from 0) of a call
    that starts in session [s], and what the driver then says. *)
Definition server_at (env : DbConnect.Environment) (s : DbConnect.Session) (i : nat)
  : pystr :=
  DbConnect.strip (DbConnect.typed env (length (DbConnect.prompts s) + 2 * i)).

Definition database_at (env : DbConnect.Environment) (s : DbConnect.Session) (i : nat)
  : pystr :=
  match DbConnect.strip (DbConnect.typed env (length (DbConnect.prompts s) + 2 * i + 1)) with
  | [] => py "master"
  | name => name
  end.

Definition connect_at (env : DbConnect.Environment) (s : DbConnect.Session) (i : nat)
  : outcome Connection :=
  DbConnect.pyodbc_connect env (DbConnect.connects s + i)
    (DbConnect.connection_string (server_at env s i) (database_at env s i)).

(** The session after [k] failed attempts, each followed by a pause,
    and one more attempt. *)
Definition after_attempts (delay k : nat) (s : DbConnect.Session) : DbConnect.Session :=
  {| DbConnect.world :=
       {| ReportLogger.stdout :=
            ReportLogger.stdout (DbConnect.world s)
            ++ concat (replicate k [setup_line; retry_line delay]) ++ [setup_line];
          ReportLogger.files := ReportLogger.files (DbConnect.world s) |};
     DbConnect.prompts :=
       DbConnect.prompts s ++ concat (replicate (S k) [server_prompt; database_prompt]);
     DbConnect.naps := DbConnect.naps s ++ replicate k delay;
     DbConnect.connects := DbConnect.connects s + S k |}.

(** A session in which nothing has happened yet. *)
Definition fresh_session : DbConnect.Session :=
  {| DbConnect.world := empty_world; DbConnect.prompts := [];
     DbConnect.naps := []; DbConnect.connects := 0 |}.

Definition login_timeout : exn := PyodbcError (py "Login timeout expired").

(** A user who types the same address at every attempt and leaves the
    database name empty, and a server that comes up at the third
    attempt. *)
Definition patient_environment (conn : Connection) : DbConnect.Environment :=
  {| DbConnect.typed := fun n => if Nat.even n then py "  sql01  " else [];
     DbConnect.pyodbc_connect := fun n _ =>
       match n with
       | 0%nat | 1%nat => Raise login_timeout
       | _ => Return conn
       end |}.

(** ** Vocabulary of main *)

Definition tool_line : pystr := py "🔧 Infrastructure Tuning Toolkit - Diagnostic Tool".

Definition dry_run_line : pystr :=
  py "🧪 Dry Run Mode: Skipping SQL Server connection and database diagnostics.".

(** The names of the two report files. *)
Definition markdown_name (name : pystr) : pystr :=
  py "numa_diagnostics_" ++ name ++ py ".md".

Definition json_name (name : pystr) : pystr :=
  py "numa_diagnostics_" ++ name ++ py ".json".

Definition markdown_saved_line (filename : pystr) : pystr :=
  nl ++ py "📄 Markdown report saved to: " ++ filename.

Definition json_saved_line (filename : pystr) : pystr :=
  nl ++ py "📄 JSON report saved to: " ++ filename.

(** The characters that would lead a file name out of the working
    directory or split it: slash, backslash, colon, dot, NUL. *)
Definition path_characters : list N := [47; 92; 58; 46; 0]%N.

(** A user who types the same address at every attempt and leaves the
    database name empty, and a driver that hands over [conn] at once. *)
Definition ready_environment (conn : Connection) : DbConnect.Environment :=
  {| DbConnect.typed := fun n => if Nat.even n then py " sql01.corp\PROD " else [];
     DbConnect.pyodbc_connect := fun _ _ => Return conn |}.

Definition no_flags : Main.Args :=
  {| Main.full := false; Main.maxdop := false; Main.memory := false;
     Main.affinity := false; Main.workload := false; Main.hardware := false;
     Main.output := None; Main.dry_run := false; Main.verbose := false;
     Main.debug := false |}.

Definition affinity_flag : Main.Args :=
  {| Main.full := false; Main.maxdop := false; Main.memory := false;
     Main.affinity := true; Main.workload := false; Main.hardware := false;
     Main.output := None; Main.dry_run := false; Main.verbose := false;
     Main.debug := false |}.

Definition full_flag : Main.Args :=
  {| Main.full := true; Main.maxdop := false; Main.memory := false;
     Main.affinity := false; Main.workload := false; Main.hardware := false;
     Main.output := None; Main.dry_run := false; Main.verbose := false;
     Main.debug := false |}.

Definition dry_run_flag : Main.Args :=
  {| Main.full := true; Main.maxdop := false; Main.memory := false;
     Main.affinity := false; Main.workload := false; Main.hardware := false;
     Main.output := Some (py "../prod sql01"); Main.dry_run := true;
     Main.verbose := false; Main.debug := false |}.

(** A server on which every query of the full run is answered: two
    online schedulers, 64 GB of RAM, 16 GB to 48 GB for SQL Server. *)
Definition healthy_server : Connection :=
  Fixtures.server
    [Fixtures.schedulers_answer [Fixtures.online_row 0 true; Fixtures.online_row 1 true];
     Fixtures.system_specs_answer;
     Fixtures.sp_configure_answer "EXEC sp_configure 'min server memory (MB)'"
       "min server memory (MB)" (Some 16384);
     Fixtures.sp_configure_answer "EXEC sp_configure 'max server memory (MB)'"
       "max server memory (MB)" (Some 49152);
     Fixtures.sys_memory_answer 67108864 33554432].

(** The same user when the server never answers. *)
Definition unreachable_environment : DbConnect.Environment :=
  {| DbConnect.typed := fun n => if Nat.even n then py " sql01.corp\PROD " else [];
     DbConnect.pyodbc_connect := fun _ _ => Raise login_timeout |}.

(** * Properties *)

(** Literals stay folded while a check is unfolded. *)
Global Opaque py.

(** ** Strings *)

Example py_warning_marker : py "⚠️" = [9888; 65039]%N.
Proof. vm_compute. reflexivity. Qed.

Example str_of_Z_negative : str_of_Z (-42) = py "-42".
Proof. vm_compute. reflexivity. Qed.

Example repr_list_ints : repr_list [VInt 2; VInt 5] = py "[2, 5]".
Proof. vm_compute. reflexivity. Qed.

Example splitlines_crlf :
  splitlines (py "a" ++ [13; 10]%N ++ py "b" ++ nl ++ nl) = [py "a"; py "b"; []].
Proof. vm_compute. reflexivity. Qed.

Example sorted_values : sorted [VInt 3; VInt 1; VInt 2] = Return [VInt 1; VInt 2; VInt 3].
Proof. vm_compute. reflexivity. Qed.

Example sorted_mixed : sorted [VInt 3; VNone] = Raise TypeError.
Proof. vm_compute. reflexivity. Qed.

(** ** The monad *)

Section MonadFacts.
Context {A B C : Type}.

Lemma bind_assoc (m : M A) (f : A -> M B) (g : B -> M C) log :
  bind (bind m f) g log = bind m (fun a => bind (f a) g) log.
Proof. unfold bind. destruct (m log) as [[a|e] log']; reflexivity. Qed.

Lemma bind_lift_return (a : A) (k : A -> M B) log :
  bind (lift (Return a)) k log = k a log.
Proof. reflexivity. Qed.

Lemma bind_lift_raise (e : exn) (k : A -> M B) log :
  bind (lift (@Raise A e)) k log = (Raise e, log).
Proof. reflexivity. Qed.

Lemma bind_out (msg : pystr) (k : unit -> M B) log :
  bind (out msg) k log = k tt (log ++ [msg]).
Proof. reflexivity. Qed.

Lemma bind_ret (a : A) (k : A -> M B) log : bind (ret a) k log = k a log.
Proof. reflexivity. Qed.

Lemma bind_raise (e : exn) (k : A -> M B) log :
  bind (raise e) k log = (Raise e, log).
Proof. reflexivity. Qed.

Lemma bind_try_lift (o : outcome A) (handler : exn -> M A) (k : A -> M B) log :
  bind (try_except (lift o) handler) k log
  = match o with
    | Return a => k a log
    | Raise e => bind (handler e) k log
    end.
Proof. destruct o; reflexivity. Qed.

Lemma for_in_cons {S} (x : A) xs (body : A -> S -> M (flow S)) s :
  for_in (x :: xs) body s
  = bind (body x s) (fun r =>
      match r with
      | Continue s' => for_in xs body s'
      | Returned s' => ret (Returned s')
      end).
Proof. reflexivity. Qed.

End MonadFacts.

Lemma returned_value {A} (o : outcome A) : returned o = true -> { a | o = Return a }.
Proof. destruct o as [a|e]; [intros _; by exists a | discriminate]. Defined.

(** Normalising a check down to the calls it makes. *)
Ltac step_check :=
  repeat first
    [ rewrite bind_assoc
    | rewrite bind_lift_return
    | rewrite bind_lift_raise
    | rewrite bind_out
    | rewrite bind_ret
    | rewrite bind_raise ].

Ltac step_check_in H :=
  repeat first
    [ rewrite bind_assoc in H
    | rewrite bind_lift_return in H
    | rewrite bind_lift_raise in H
    | rewrite bind_out in H
    | rewrite bind_ret in H
    | rewrite bind_raise in H ].

(** Comparing the lines a check has emitted. *)
Ltac finish_check :=
  unfold out, ret; cbn [fst snd]; rewrite <- ?app_assoc; cbn [app]; reflexivity.

(** ** validate_memory_alignment *)

Section MemoryAlignment.
Import NumaChecker.

(** Whatever the loop is given, it stops in its first iteration, having
    emitted at most the one line that says the layout cannot be
    validated. *)
Lemma alignment_loop_first_iteration row rows memory_nodes log :
  exists o, exists extra,
    alignment_loop (row :: rows) memory_nodes log = (o, log ++ extra)
    /\ (extra = [] \/ extra = [cannot_validate_line])
    /\ (forall r, o = Return r -> exists l, r = Returned l).
Proof.
  unfold alignment_loop. rewrite for_in_cons. unfold alignment_loop_body.
  destruct (has_key row "parent_node_id") eqn:Hk.
  - destruct (getitem row "parent_node_id") as [node|e].
    2:{ exists (Raise e), []. rewrite app_nil_r. step_check. 
        split; [reflexivity|].
        split; [by left | discriminate]. }
    step_check.
    destruct (memory_node_id_list memory_nodes) as [ids|e].
    2:{ exists (Raise e), []. rewrite app_nil_r. step_check. split; [reflexivity|].
        split; [by left | discriminate]. }
    step_check. cbn [scheduler_node_ids].
    destruct (set_add node []) as [|x xs] eqn:Hs.
    + unfold set_add in Hs. simpl in Hs. discriminate.
    + step_check. eexists _, []. rewrite app_nil_r. split; [reflexivity|].
      split; [by left|]. intros r [= <-]. eauto.
  - step_check. cbn [scheduler_node_ids]. step_check.
    eexists _, [cannot_validate_line]. split; [reflexivity|].
    split; [by right|]. intros r [= <-]. eauto.
Qed.

(** The check as a whole never reports a set difference: it emits
    nothing, or that single line. *)
Lemma validate_memory_alignment_at_most_one_line conn log :
  exists o, exists extra,
    validate_memory_alignment conn log = (o, log ++ extra)
    /\ (extra = [] \/ extra = [cannot_validate_line]).
Proof.
  unfold validate_memory_alignment.
  destruct (get_scheduler_layout conn) as [schedulers|e].
  2:{ exists (Raise e), []. rewrite app_nil_r. step_check. split; [reflexivity | by left]. }
  step_check.
  destruct (get_memory_nodes conn) as [memory_nodes|e].
  2:{ exists (Raise e), []. rewrite app_nil_r. step_check. split; [reflexivity | by left]. }
  step_check.
  destruct schedulers as [|row rows].
  - exists (Raise (UnboundLocalError (py "memory_node_ids"))), [].
    rewrite app_nil_r. split; [reflexivity | by left].
  - destruct (alignment_loop_first_iteration row rows memory_nodes log)
      as (o & extra & Hrun & Hextra & Hret).
    unfold bind at 1. rewrite Hrun.
    destruct o as [r|e].
    + destruct (Hret r eq_refl) as [l ->].
      exists (Return tt), extra. split; [reflexivity | assumption].
    + exists (Raise e), extra. split; [reflexivity | assumption].
Qed.

(** C10. With an empty scheduler record set the check raises out of
    [validate_memory_alignment] without emitting a line; once the memory
    nodes are fetched, what it raises is the NameError for
    [memory_node_ids], read at the set difference before any assignment. *)
Theorem validate_memory_alignment_empty_schedulers_raises conn :
  get_scheduler_layout conn = Return [] ->
  (forall log, exists e, validate_memory_alignment conn log = (Raise e, log))
  /\ (forall memory_nodes log,
        get_memory_nodes conn = Return memory_nodes ->
        validate_memory_alignment conn log
          = (Raise (UnboundLocalError (py "memory_node_ids")), log)
        /\ is_NameError (UnboundLocalError (py "memory_node_ids")) = true).
Proof.
  intros Hs. split.
  - intros log. unfold validate_memory_alignment. rewrite Hs. step_check.
    destruct (get_memory_nodes conn) as [memory_nodes|e]; step_check; eexists; reflexivity.
  - intros memory_nodes log Hm. split; [|reflexivity].
    unfold validate_memory_alignment. rewrite Hs, Hm. step_check. reflexivity.
Qed.

Lemma validate_memory_alignment_empty_schedulers_raises_witness :
  get_scheduler_layout Fixtures.no_scheduler_server = Return []
  /\ run (validate_memory_alignment Fixtures.no_scheduler_server)
     = (Raise (UnboundLocalError (py "memory_node_ids")), []).
Proof.
  split; [vm_compute; reflexivity|].
  destruct (validate_memory_alignment_empty_schedulers_raises
              Fixtures.no_scheduler_server) as [_ H].
  - vm_compute; reflexivity.
  - apply (H [] []). vm_compute; reflexivity.
Defined.

(** C2, on the code.  Scheduler nodes {0, 1} and memory nodes {0, 1}: the
    check returns after its first row and emits no line at all, where
    two ok lines are due; with schedulers on node 0 and memory on node 1
    it emits nothing either, where two warn lines are due; and with no
    scheduler record, where the single warn line is due, it raises. *)
Theorem validate_memory_alignment_reports_no_difference :
  run (validate_memory_alignment Fixtures.two_node_server) = (Return tt, [])
  /\ run (validate_memory_alignment Fixtures.misaligned_server) = (Return tt, [])
  /\ run (validate_memory_alignment Fixtures.no_scheduler_server)
     = (Raise (UnboundLocalError (py "memory_node_ids")), []).
Proof. repeat split; vm_compute; reflexivity. Qed.

(** On records without [parent_node_id] the check does emit its single
    line and stop. *)
Example validate_memory_alignment_without_parent_node_id :
  run (validate_memory_alignment Fixtures.first_offline_server)
  = (Return tt, [cannot_validate_line]).
Proof. vm_compute. reflexivity. Qed.

End MemoryAlignment.

(** ** validate_numa_layout *)

Section NumaLayout.
Import NumaChecker.

(** The loop keeps the columns of the row it saw last. *)
Lemma layout_loop_keeps_last (rows : list (gmap pystr value))
    (last : gmap pystr value) (cpu is_online : value)
    (st : option value * option value) (log : list pystr) :
  Forall (fun row : gmap pystr value =>
            is_Some (row !! py "cpu_id") /\ is_Some (row !! py "is_online")) rows ->
  last !! py "cpu_id" = Some cpu ->
  last !! py "is_online" = Some is_online ->
  for_in (rows ++ [last]) layout_loop_body st log
  = (Return (Continue (Some cpu, Some is_online)), log).
Proof.
  intros Hrows Hc Ho. revert st.
  induction Hrows as [|row rows [[c Hrc] [o Hro]] _ IH]; intros st.
  - cbn [app]. rewrite for_in_cons. unfold layout_loop_body, getitem.
    rewrite Hc, Ho. step_check. reflexivity.
  - cbn [app]. rewrite for_in_cons. unfold layout_loop_body at 1, getitem.
    rewrite Hrc, Hro. step_check. apply IH.
Qed.

(** What the check does on every non-empty record set: it always
    reports balance, and judges the online flag of the last record
    only. *)
Lemma validate_numa_layout_judges_last_row (conn : Connection)
    (rows : list (gmap pystr value)) (last : gmap pystr value)
    (cpu is_online : value) (log : list pystr) :
  get_scheduler_layout conn = Return (rows ++ [last]) ->
  Forall (fun row : gmap pystr value =>
            is_Some (row !! py "cpu_id") /\ is_Some (row !! py "is_online")) rows ->
  last !! py "cpu_id" = Some cpu ->
  last !! py "is_online" = Some is_online ->
  validate_numa_layout conn log
  = (Return tt,
     log ++ [balanced_line]
         ++ [if py_eqb is_online (VInt 0) then offline_line [cpu] else all_online_line]).
Proof.
  intros Hs Hrows Hc Ho. unfold validate_numa_layout. rewrite Hs. step_check.
  unfold bind at 1.
  rewrite (layout_loop_keeps_last rows last cpu is_online _ log Hrows Hc Ho).
  cbn [locals_of local]. step_check.
  destruct (py_eqb is_online (VInt 0)); cbn [local]; step_check;
    cbn [set_of_list map fold_left length];
    (destruct (decide (1 < 0)%nat); [lia|]); step_check;
    change ([] ++ [cpu]) with [cpu]; unfold out;
    rewrite <- ?app_assoc; reflexivity.
Qed.

(** C3, on the code.  CPU 0 offline and CPU 1 online: the check says all
    schedulers are online; two online CPUs on node 0 and one on node 1:
    it says the distribution is balanced; and with no scheduler record,
    where two ok lines are due, it raises on reading [is_online]. *)
Theorem validate_numa_layout_misses_offline_and_imbalance :
  run (validate_numa_layout Fixtures.first_offline_server)
  = (Return tt, [balanced_line; all_online_line])
  /\ run (validate_numa_layout Fixtures.unbalanced_server)
     = (Return tt, [balanced_line; all_online_line])
  /\ run (validate_numa_layout Fixtures.no_scheduler_server)
     = (Raise (UnboundLocalError (py "is_online")), []).
Proof. repeat split; vm_compute; reflexivity. Qed.

(** The scenario of the specification has its offline scheduler last,
    the one place where the check sees it. *)
Example validate_numa_layout_offline_last :
  run (validate_numa_layout Fixtures.two_node_server)
  = (Return tt, [balanced_line; offline_line [VInt 2]]).
Proof. vm_compute. reflexivity. Qed.

End NumaLayout.

(** ** Rows and sets *)

Section Rows.

Lemma fold_insert_lookup (kvs : list (pystr * value)) (d : gmap pystr value) (k : pystr) :
  is_Some (fold_left (fun d kv => <[kv.1 := kv.2]> d) kvs d !! k)
  <-> k ∈ kvs.*1 \/ is_Some (d !! k).
Proof.
  revert d. induction kvs as [|[k' v'] kvs IH]; intros d; cbn [fold_left fmap list_fmap].
  - rewrite elem_of_nil. tauto.
  - rewrite IH, elem_of_cons. cbn [fst snd].
    destruct (decide (k' = k)) as [->|Hne].
    + rewrite lookup_insert_eq. split; [intros _; left; by left | intros _; right; eauto].
    + rewrite lookup_insert_ne by done. split; [tauto|].
      intros [[?|?]|?]; [congruence | tauto | tauto].
Qed.

(** A row built from a full tuple has exactly the described columns. *)
Lemma dict_of_pairs_columns (columns : list pystr) (row : list value) (k : pystr) :
  length row = length columns ->
  is_Some (dict_of_pairs (zip columns row) !! k) <-> k ∈ columns.
Proof.
  intros Hlen. unfold dict_of_pairs. rewrite fold_insert_lookup, lookup_empty.
  rewrite fst_zip by lia. split; [intros [?|[? ?]]; [done|discriminate] | by left].
Qed.

Lemma dict_of_pairs_dom (columns : list pystr) (row : list value) :
  length row = length columns ->
  dom (dict_of_pairs (zip columns row)) = list_to_set columns.
Proof.
  intros Hlen. apply set_eq. intros k.
  rewrite elem_of_dom, elem_of_list_to_set. by apply dict_of_pairs_columns.
Qed.

(** What [query_dict] returns when it returns. *)
Lemma query_dict_returns (conn : Connection) (sql : pystr)
    (rows : list (gmap pystr value)) :
  NumaChecker.query_dict conn sql = Return rows ->
  exists rs, conn_execute conn sql = Return rs
    /\ rows = map (fun row => dict_of_pairs (zip (description rs) row)) (fetchall rs).
Proof.
  unfold NumaChecker.query_dict.
  destruct (conn_cursor conn) as [[]|e]; [|discriminate]. cbn [obind].
  destruct (conn_execute conn sql) as [rs|e]; [|discriminate].
  intros [= <-]. eauto.
Qed.


(** [==] on values is an equivalence. *)
Lemma py_eqb_refl (v : value) : py_eqb v v = true.
Proof.
  destruct v as [|b|z|s]; cbn; [done | apply Z.eqb_refl | apply Z.eqb_refl |].
  by apply bool_decide_eq_true.
Qed.

Lemma set_mem_true (v : value) (s : pyset) :
  set_mem v s = true <-> exists w, w ∈ s /\ py_eqb v w = true.
Proof.
  unfold set_mem. rewrite existsb_exists. split; intros (w & Hw & He); exists w;
    (split; [by apply list_elem_of_In | done]).
Qed.

Lemma set_add_distinct (v : value) (s : pyset) :
  distinct_values s -> distinct_values (set_add v s).
Proof.
  intros Hs. unfold set_add. destruct (set_mem v s) eqn:Hm; [done|].
  intros i j x y Hi Hj Hxy.
  assert (Hnot : forall w, w ∈ s -> py_eqb v w = false).
  { intros w Hw. destruct (py_eqb v w) eqn:E; [|done].
    assert (set_mem v s = true) by (apply set_mem_true; eauto). congruence. }
  assert (Hsym : forall a b, py_eqb a b = py_eqb b a).
  { intros [|?|?|?] [|?|?|?]; cbn; try done; try apply Z.eqb_sym.
    apply bool_decide_ext. split; congruence. }
  apply lookup_snoc_Some in Hi as [[Hi1 Hi2]|[Hi1 Hi2]];
    apply lookup_snoc_Some in Hj as [[Hj1 Hj2]|[Hj1 Hj2]]; subst.
  - eauto.
  - rewrite Hsym, Hnot in Hxy; [done|]. eapply list_elem_of_lookup_2; eauto.
  - rewrite Hnot in Hxy; [done|]. eapply list_elem_of_lookup_2; eauto.
  - lia.
Qed.

Lemma fold_set_add_distinct (l : list value) (s : pyset) :
  distinct_values s -> distinct_values (fold_left (fun s v => set_add v s) l s).
Proof.
  revert s. induction l as [|v l IH]; intros s Hs; cbn; [done|].
  apply IH. by apply set_add_distinct.
Qed.

Lemma fold_set_add_members (l : list value) (s : pyset) (w : value) :
  w ∈ fold_left (fun s v => set_add v s) l s -> w ∈ s \/ w ∈ l.
Proof.
  revert s. induction l as [|v l IH]; intros s; cbn; [by left|].
  intros H. apply IH in H as [H|H]; [|right; by right].
  unfold set_add in H. destruct (set_mem v s); [by left|].
  apply elem_of_app in H as [H|H]; [by left|].
  apply list_elem_of_singleton in H as ->. right. by left.
Qed.

Lemma set_mem_add_mono (v u : value) (s : pyset) :
  set_mem v s = true -> set_mem v (set_add u s) = true.
Proof.
  intros H. unfold set_add. destruct (set_mem u s); [done|].
  unfold set_mem in *. rewrite existsb_app, H. reflexivity.
Qed.

Lemma set_mem_add_same (u : value) (s : pyset) : set_mem u (set_add u s) = true.
Proof.
  unfold set_add. destruct (set_mem u s) eqn:Hm; [done|].
  unfold set_mem. rewrite existsb_app. cbn. rewrite py_eqb_refl.
  by rewrite orb_true_r.
Qed.

Lemma fold_set_add_covers (l : list value) (s : pyset) (v : value) :
  set_mem v s = true \/ v ∈ l ->
  set_mem v (fold_left (fun s v => set_add v s) l s) = true.
Proof.
  revert s. induction l as [|u l IH]; intros s; cbn.
  - intros [H|H]; [done | by apply elem_of_nil in H].
  - intros [H|H]; apply IH.
    + left. by apply set_mem_add_mono.
    + apply elem_of_cons in H as [->|H]; [left; apply set_mem_add_same | by right].
Qed.

(** [set_of_list]: the distinct values of a list. *)
Lemma set_of_list_spec (l : list value) :
  distinct_values (set_of_list l)
  /\ (forall w, w ∈ set_of_list l -> w ∈ l)
  /\ (forall v, v ∈ l -> set_mem v (set_of_list l) = true).
Proof.
  unfold set_of_list. split; [|split].
  - apply fold_set_add_distinct. intros i j x y Hi. by destruct i.
  - intros w H. apply fold_set_add_members in H as [H|H]; [by apply elem_of_nil in H | done].
  - intros v H. apply fold_set_add_covers. by right.
Qed.

End Rows.

(** ** recommend_maxdop *)

Section MaxDop.
Import NumaChecker.

(** The check, once the schedulers are fetched. *)
Lemma recommend_maxdop_run (conn : Connection) (rows : list (gmap pystr value))
    (log : list pystr) :
  get_scheduler_layout conn = Return rows ->
  let node_count :=
    if first_has_parent_node_id rows
    then Z.of_nat (length (numa_nodes_of rows)) else 1 in
  recommend_maxdop conn log
  = (Return tt,
     log ++ (maxdop_read conn).2
         ++ (if first_has_parent_node_id rows then [] else [fallback_line])
         ++ [current_maxdop_line (maxdop_read conn).1;
             recommended_maxdop_line (recommendation node_count).1;
             reason_line (recommendation node_count).2]).
Proof.
  intros Hs. cbv zeta. unfold recommend_maxdop, maxdop_read. rewrite Hs.
  rewrite bind_try_lift.
  destruct (fetch_current_maxdop conn) as [v|e]; cbn [fst snd].
  - step_check. destruct (first_has_parent_node_id rows); step_check;
      destruct (recommendation _) as [recommended reason]; step_check;
      finish_check.
  - step_check. destruct (first_has_parent_node_id rows); step_check;
      destruct (recommendation _) as [recommended reason]; step_check;
      finish_check.
Qed.










(** The fallback on a server that does not expose [parent_node_id]. *)
Example recommend_maxdop_fallback :
  run (recommend_maxdop Fixtures.first_offline_server)
  = (Return tt,
     [fallback_line; current_maxdop_line VNone; recommended_maxdop_line 8;
      reason_line single_node_reason]).
Proof. vm_compute. reflexivity. Qed.

End MaxDop.

(** ** The scheduler records never carry parent_node_id *)

Section ParentNodeId.
Import NumaChecker.

Lemma parent_node_id_not_selected : py "parent_node_id" ∉ scheduler_columns.
Proof.
  unfold scheduler_columns. rewrite !not_elem_of_cons.
  repeat split; try (intros H; vm_compute in H; discriminate H).
  apply not_elem_of_nil.
Qed.

Lemma has_key_false (row : gmap pystr value) (key : string) :
  row !! py key = None -> has_key row key = false.
Proof.
  intros H. unfold has_key. apply bool_decide_eq_false. rewrite H.
  by intros [? ?].
Qed.

(** The select list of the scheduler query, read from its text. *)
Lemma select_list_scheduler_query :
  select_list scheduler_layout_query = scheduler_columns.
Proof. vm_compute. reflexivity. Qed.

(** C5. The statement of [get_scheduler_layout] selects [scheduler_id],
    [cpu_id], [is_online] and [status], and not [parent_node_id].  On a
    server that answers it with the columns of its select list: every
    record has exactly these four keys, and no [parent_node_id]; every
    run of [recommend_maxdop] that returns has emitted the fallback line
    and recommended 8; and the set [scheduler_node_ids] that
    [validate_memory_alignment] builds is empty when its loop ends. *)
Theorem scheduler_rows_never_expose_parent_node_id (conn : Connection) :
  honours_select_list conn ->
  (py "parent_node_id" ∉ select_list scheduler_layout_query)
  /\ (forall rows : list (gmap pystr value),
        get_scheduler_layout conn = Return rows ->
        Forall (fun row : gmap pystr value =>
                  dom row = list_to_set scheduler_columns
                  /\ row !! py "parent_node_id" = None) rows)
  /\ (forall log log' : list pystr,
        recommend_maxdop conn log = (Return tt, log') ->
        exists (current : value) (notes : list pystr),
          log' = log ++ notes
                     ++ [fallback_line; current_maxdop_line current;
                         recommended_maxdop_line 8; reason_line single_node_reason]
          /\ (notes = [] \/ notes = [unable_maxdop_line]))
  /\ (forall (rows memory_nodes : list (gmap pystr value)) (log : list pystr),
        get_scheduler_layout conn = Return rows ->
        exists r log',
          alignment_loop rows memory_nodes log = (Return r, log')
          /\ scheduler_node_ids (locals_of r) = []).
Proof.
  intros Hsel.
  assert (Hrows : forall rows : list (gmap pystr value),
             get_scheduler_layout conn = Return rows ->
             Forall (fun row : gmap pystr value =>
                       dom row = list_to_set scheduler_columns
                       /\ row !! py "parent_node_id" = None) rows).
  { intros rows Hs. destruct (query_dict_returns _ _ _ Hs) as (rs & Hrs & ->).
    destruct (Hsel rs Hrs) as [Hdesc Hrect]. unfold rectangular in Hrect.
    rewrite select_list_scheduler_query in Hdesc.
    rewrite Hdesc in *. apply Forall_fmap. eapply Forall_impl; [exact Hrect|].
    intros row Hlen. cbv beta in *. split; [by apply dict_of_pairs_dom|].
    apply eq_None_not_Some. rewrite dict_of_pairs_columns by done.
    apply parent_node_id_not_selected. }
  split.
  { rewrite select_list_scheduler_query. apply parent_node_id_not_selected. }
  split; [exact Hrows|]. split.
  - intros log log' Hrun.
    destruct (get_scheduler_layout conn) as [rows|e] eqn:Hs.
    + rewrite (recommend_maxdop_run conn rows log Hs) in Hrun. cbv zeta in Hrun.
      assert (first_has_parent_node_id rows = false) as Hfirst.
      { specialize (Hrows rows eq_refl). destruct Hrows as [|row rows [_ Hnone] _];
          [reflexivity | by apply has_key_false]. }
      rewrite Hfirst in Hrun. injection Hrun as <-.
      exists (maxdop_read conn).1, (maxdop_read conn).2. split; [reflexivity|].
      unfold maxdop_read. destruct (fetch_current_maxdop conn); [by left|by right].
    + unfold recommend_maxdop in Hrun. rewrite Hs, bind_try_lift in Hrun.
      destruct (fetch_current_maxdop conn); step_check_in Hrun; discriminate Hrun.
  - intros rows memory_nodes log Hs. specialize (Hrows rows Hs).
    unfold alignment_loop. destruct Hrows as [|row rows [_ Hnone] _].
    + eexists _, _. split; reflexivity.
    + rewrite for_in_cons. unfold alignment_loop_body.
      rewrite (has_key_false row _ Hnone). step_check. cbn [scheduler_node_ids].
      step_check. eexists _, _. split; reflexivity.
Qed.

Lemma scheduler_rows_never_expose_parent_node_id_witness :
  honours_select_list Fixtures.configured_server
  /\ run (recommend_maxdop Fixtures.configured_server)
     = (Return tt,
        [fallback_line; current_maxdop_line (VInt 4); recommended_maxdop_line 8;
         reason_line single_node_reason])
  /\ exists (current : value) (notes : list pystr),
       [fallback_line; current_maxdop_line (VInt 4); recommended_maxdop_line 8;
        reason_line single_node_reason]
       = [] ++ notes ++ [fallback_line; current_maxdop_line current;
                         recommended_maxdop_line 8; reason_line single_node_reason]
       /\ (notes = [] \/ notes = [unable_maxdop_line]).
Proof.
  assert (H : honours_select_list Fixtures.configured_server).
  { intros rs Hrs. vm_compute in Hrs. inversion Hrs.
    split; [vm_compute; reflexivity | repeat constructor]. }
  assert (Hrun : run (recommend_maxdop Fixtures.configured_server)
                 = (Return tt,
                    [fallback_line; current_maxdop_line (VInt 4);
                     recommended_maxdop_line 8; reason_line single_node_reason]))
    by (vm_compute; reflexivity).
  split; [exact H|]. split; [exact Hrun|].
  exact (proj1 (proj2 (proj2 (scheduler_rows_never_expose_parent_node_id _ H)))
           [] _ Hrun).
Defined.

End ParentNodeId.

(** ** validate_memory_config *)

Section MemoryConfig.
Import NumaChecker.

(** An integer of at most 53 bits is a float. *)
Lemma round53_small (a : Z) : 0 <= a < 2 ^ 53 -> round53 a = a.
Proof.
  intros Ha. unfold round53.
  assert (Z.log2 a < 53).
  { destruct (Z.eq_dec a 0) as [->|]; [reflexivity|].
    apply Z.log2_lt_pow2; lia. }
  destruct (Z.leb_spec (Z.log2 a - 52) 0); [reflexivity|lia].
Qed.

Lemma float_of_int_small (n : Z) : Z.abs n < 2 ^ 53 -> float_of_int n = Return n.
Proof.
  intros Hn. unfold float_of_int. rewrite round53_small by lia.
  assert (2 ^ 53 < 2 ^ 1024) by (apply Z.pow_lt_mono_r; lia).
  destruct (Z.leb_spec (2 ^ 1024) (Z.abs n)); [lia|]. f_equal. lia.
Qed.

(** The second rule compares four times the minimum with the float of
    the maximum. *)
Lemma lt_quarter_numbers (mn mx : value) (qmn qmx f : Z) :
  as_num mn = Some qmn -> as_num mx = Some qmx -> float_of_int qmx = Return f ->
  lt_quarter mn mx = Return (4 * qmn <? f).
Proof.
  intros Hmn Hmx Hf. unfold lt_quarter. rewrite Hmx, Hf. cbn [obind]. rewrite Hmn.
  f_equal. unfold Qle_bool, Qmult, inject_Z. cbn [Qnum Qden].
  rewrite Z.ltb_antisym. f_equal.
  change (Z.pos (1 * 4)) with 4. rewrite !Z.mul_1_r. f_equal. lia.
Qed.

Lemma lt_quarter_ints (mn mx : Z) :
  Z.abs mx < 2 ^ 53 ->
  lt_quarter (VInt mn) (VInt mx) = Return (4 * mn <? mx).
Proof.
  intros Hmx. apply (lt_quarter_numbers (VInt mn) (VInt mx) mn mx mx);
    [reflexivity|reflexivity|].
  by apply float_of_int_small.
Qed.

(** With the four settings fetched as integers the two rules are judged
    one after the other, each on its own: the first on the integers, the
    second on the minimum and the quarter of the maximum as a float [f]
    (the maximum itself when it has at most 53 bits). *)
Lemma validate_memory_config_rules (conn : Connection) (mem : gmap pystr value)
    (o : outcome unit) (total available mn mx f : Z) (log : list pystr) :
  float_of_int mx = Return f ->
  fill_memory_config conn = (o, mem) ->
  mem !! py "total_physical_memory_mb" = Some (VInt total) ->
  mem !! py "available_physical_memory_mb" = Some (VInt available) ->
  mem !! py "min_server_memory_mb" = Some (VInt mn) ->
  mem !! py "max_server_memory_mb" = Some (VInt mx) ->
  validate_memory_config conn log
  = (Return tt,
     log ++ (if returned o then [] else [unable_memory_line])
         ++ [memory_header_line]
         ++ memory_value_lines (VInt total) (VInt available) (VInt mn) (VInt mx)
         ++ [if total <? mx then starvation_warn_line else fits_ok_line;
             if 4 * mn <? f then ramp_up_warn_line else ratio_ok_line])
  /\ (Z.abs mx < 2 ^ 53 -> f = mx).
Proof.
  intros Hf Hfill Ht Ha Hmn Hmx. split.
  2:{ intros Hsmall. rewrite (float_of_int_small mx Hsmall) in Hf. by injection Hf as <-. }
  assert (mem <> ∅) as Hne.
  { intros ->. by rewrite lookup_empty in Ht. }
  unfold validate_memory_config, get_memory_config. rewrite Hfill.
  destruct o as [[]|e]; cbn [returned]; step_check;
    (destruct (decide (mem = ∅)); [done|]); step_check;
    unfold getitem; rewrite Ht, Ha, Hmn, Hmx; step_check;
    unfold py_gtb, py_ltb; cbn [as_num]; step_check;
    rewrite (lt_quarter_numbers (VInt mn) (VInt mx) mn mx f eq_refl eq_refl Hf);
    destruct (total <? mx); step_check; destruct (4 * mn <? f); step_check;
    unfold memory_value_lines, memory_header_line; finish_check.
Qed.

(** The scenario of the specification: both warnings, independently. *)
Example validate_memory_config_oversized :
  run (validate_memory_config Fixtures.oversized_memory_server)
  = (Return tt,
     [memory_header_line]
       ++ memory_value_lines (VInt 65536) (VInt 32768) (VInt 1000) (VInt 70000)
       ++ [starvation_warn_line; ramp_up_warn_line]).
Proof. vm_compute. reflexivity. Qed.

(** C6, on the code.  When [sp_configure] returns no row for the minimum,
    the check emits no error line, prints the settings, judges the first
    rule and raises a [TypeError] at the second; when the query for the
    physical memory is refused, it emits the error line, then the
    header, and raises a [KeyError]. *)
Theorem validate_memory_config_partial_fetch :
  run (validate_memory_config Fixtures.no_min_memory_server)
  = (Raise TypeError,
     [memory_header_line]
       ++ memory_value_lines (VInt 65536) (VInt 32768) VNone (VInt 70000)
       ++ [starvation_warn_line])
  /\ run (validate_memory_config Fixtures.refused_sys_memory_server)
     = (Raise (KeyError (py "total_physical_memory_mb")),
        [unable_memory_line; memory_header_line]).
Proof. split; vm_compute; reflexivity. Qed.

End MemoryConfig.

(** ** run_all_diagnostics *)

Section FullRun.
Import NumaChecker.

(** A check wrapped in [try]/[except] whose handler emits a line always
    returns. *)
Lemma try_except_out_returns (m : M unit) (msg : pystr) (log : list pystr) :
  exists log', try_except m (fun _ => out msg) log = (Return tt, log').
Proof.
  unfold try_except. destruct (m log) as [[[]|e] log']; eexists; reflexivity.
Qed.

Lemma get_system_specs_returns (conn : Connection) (log : list pystr) :
  exists log', get_system_specs conn log = (Return tt, log').
Proof. apply try_except_out_returns. Qed.

Lemma check_affinity_config_returns (conn : Connection) (log : list pystr) :
  exists log', check_affinity_config conn log = (Return tt, log').
Proof. apply try_except_out_returns. Qed.

(** The affinity check on CPU 0 offline and CPU 1 online, both visible. *)
Example check_affinity_config_first_offline :
  run (check_affinity_config Fixtures.first_offline_server)
  = (Return tt,
     [py "⚠️ Affinity mask is likely applied. Some CPUs are online but not visible to SQL Server:";
      py "   Missing CPUs: []"]).
Proof. vm_compute. reflexivity. Qed.

(** The same check when the scheduler query is refused: one error line. *)
Example check_affinity_config_refused :
  run (check_affinity_config Fixtures.refused_scheduler_server)
  = (Return tt, [py "❌ Error checking affinity config."]).
Proof. vm_compute. reflexivity. Qed.

(** The checks that call [get_scheduler_layout] outside any [try] let
    its failure through. *)
Lemma validate_numa_layout_propagates (conn : Connection) (e : exn) (log : list pystr) :
  get_scheduler_layout conn = Raise e ->
  validate_numa_layout conn log = (Raise e, log).
Proof. intros H. unfold validate_numa_layout. rewrite H. reflexivity. Qed.

(** Whenever the scheduler query fails, the full run stops in its second
    check and raises the failure to its caller. *)
Lemma run_all_diagnostics_propagates (conn : Connection) (host : Host)
    (check_socket_layout check_virtual_hardware analyze_sql_workload : M unit)
    (e : exn) (log : list pystr) :
  get_scheduler_layout conn = Raise e ->
  exists log',
    run_all_diagnostics conn host check_socket_layout check_virtual_hardware
      analyze_sql_workload log = (Raise e, log').
Proof.
  intros H. unfold run_all_diagnostics. rewrite bind_out. cbv beta.
  match goal with
  | |- context [bind (get_system_specs conn) _ ?l] =>
      destruct (get_system_specs_returns conn l) as [log1 H1]
  end.
  unfold bind at 1. rewrite H1.
  unfold bind at 1. rewrite (validate_numa_layout_propagates conn e log1 H).
  eexists. reflexivity.
Qed.

(** C1, on the code.  When the server refuses the scheduler query, the
    run emits its header and the system specs, then raises the driver's
    error out of [run_all_diagnostics]: no error line is emitted for the
    failed check and none of the nine later checks runs. *)
Theorem run_all_diagnostics_aborts_on_refused_query (host : Host)
    (check_socket_layout check_virtual_hardware analyze_sql_workload : M unit) :
  run (run_all_diagnostics Fixtures.refused_scheduler_server host
         check_socket_layout check_virtual_hardware analyze_sql_workload)
  = (Raise Fixtures.permission_denied,
     [run_header_line;
      nl ++ py "🖥️ Server CPU & Memory Specs:";
      py " - Logical CPUs: 8";
      py " - Hyperthread Ratio: 2";
      py " - Physical Memory: 65536 MB";
      py " - SQL Server Start Time: 2023-10-01 08:00:00";
      py " - Virtual Machine Type: NONE"]).
Proof. vm_compute. reflexivity. Qed.

End FullRun.

(** ** detect_virtual_environment *)

Section Virtualization.
Import NumaChecker.

Lemma prefix_of_spec (p s : pystr) :
  prefix_of p s = true <-> exists suf, s = p ++ suf.
Proof.
  revert s. induction p as [|a p IH]; intros s; cbn.
  - split; [intros _; by exists s | done].
  - destruct s as [|b s].
    + split; [done | intros [suf H]; discriminate H].
    + rewrite andb_true_iff, N.eqb_eq, IH. split.
      * intros [-> [suf ->]]. by exists suf.
      * intros [suf [= -> ->]]. eauto.
Qed.

(** The test [needle in hay] holds exactly when the needle occurs in
    the text. *)
Lemma str_in_spec (needle hay : pystr) :
  str_in needle hay = true <-> occurs_in needle hay.
Proof.
  unfold occurs_in. induction hay as [|c hay IH].
  - cbn [str_in]. rewrite orb_false_r, prefix_of_spec. split.
    + intros [suf H]. by exists [], suf.
    + intros (pre & suf & H). destruct pre; [by exists suf|discriminate H].
  - cbn [str_in]. rewrite orb_true_iff, prefix_of_spec, IH. split.
    + intros [[suf H]|(pre & suf & H)].
      * by exists [], suf.
      * exists (c :: pre), suf. by rewrite H.
    + intros (pre & suf & H). destruct pre as [|c' pre].
      * left. by exists suf.
      * right. injection H as -> ->. eauto.
Qed.

Lemma str_in_false (needle hay : pystr) :
  str_in needle hay = false <-> ~ occurs_in needle hay.
Proof. rewrite <- str_in_spec. by destruct (str_in needle hay). Qed.

(** C9. When the probe returns a text, the platform is decided by the
    first of the ordered tests that the text passes: VMware, then
    Hyper-V or Virtual Machine, then KVM or QEMU, then the Azure
    phrasing; a text that passes none is Bare Metal.  The check returns
    that platform and names it in its first line. *)
Theorem detect_virtual_environment_first_match (host : Host) (text : pystr)
    (log : list pystr) :
  getoutput host (py "systeminfo") = Return text ->
  let detected := detected_platform text in
  detect_virtual_environment host log
  = (Return detected,
     log ++ [host_environment_line detected]
         ++ (if bool_decide (detected = py "Bare Metal") then [] else vnuma_advice_lines))
  /\ (occurs_in (py "VMware") text -> detected = py "VMware")
  /\ (~ occurs_in (py "VMware") text ->
      occurs_in (py "Hyper-V") text \/ occurs_in (py "Virtual Machine") text ->
      detected = py "Hyper-V")
  /\ (~ occurs_in (py "VMware") text ->
      ~ occurs_in (py "Hyper-V") text -> ~ occurs_in (py "Virtual Machine") text ->
      occurs_in (py "KVM") text \/ occurs_in (py "QEMU") text ->
      detected = py "KVM/QEMU")
  /\ (~ occurs_in (py "VMware") text ->
      ~ occurs_in (py "Hyper-V") text -> ~ occurs_in (py "Virtual Machine") text ->
      ~ occurs_in (py "KVM") text -> ~ occurs_in (py "QEMU") text ->
      occurs_in (py "Microsoft Corporation Virtual") text ->
      detected = py "Azure (Hyper-V core)")
  /\ (~ occurs_in (py "VMware") text ->
      ~ occurs_in (py "Hyper-V") text -> ~ occurs_in (py "Virtual Machine") text ->
      ~ occurs_in (py "KVM") text -> ~ occurs_in (py "QEMU") text ->
      ~ occurs_in (py "Microsoft Corporation Virtual") text ->
      detected = py "Bare Metal").
Proof.
  intros Hprobe detected. split.
  - unfold detect_virtual_environment, try_except. rewrite Hprobe. step_check.
    fold detected. destruct (decide (detected = py "Bare Metal")) as [Heq|Hne].
    + rewrite (bool_decide_eq_false_2 (detected <> _)) by (intros ?; done).
      rewrite (bool_decide_eq_true_2 _ Heq). step_check. finish_check.
    + rewrite (bool_decide_eq_true_2 _ Hne), (bool_decide_eq_false_2 _ Hne).
      step_check. unfold vnuma_advice_lines. finish_check.
  - subst detected. unfold detected_platform.
    repeat split; intros;
      repeat match goal with
             | H : occurs_in _ _ |- _ => apply str_in_spec in H; rewrite ?H
             | H : ~ occurs_in _ _ |- _ => apply str_in_false in H; rewrite ?H
             | H : _ \/ _ |- _ => destruct H
             end;
      rewrite ?orb_true_r; reflexivity.
Qed.

Lemma detect_virtual_environment_first_match_witness :
  occurs_in (py "VMware")
    (py "System Manufacturer: VMware, Inc. Hyper-V Requirements: A hypervisor has been detected.")
  /\ occurs_in (py "Hyper-V")
    (py "System Manufacturer: VMware, Inc. Hyper-V Requirements: A hypervisor has been detected.")
  /\ exists lines,
       run (detect_virtual_environment Fixtures.vmware_host)
       = (Return (py "VMware"), lines).
Proof.
  assert (Hv : occurs_in (py "VMware")
    (py "System Manufacturer: VMware, Inc. Hyper-V Requirements: A hypervisor has been detected."))
    by (apply str_in_spec; vm_compute; reflexivity).
  split; [exact Hv|]. split; [apply str_in_spec; vm_compute; reflexivity|].
  destruct (detect_virtual_environment_first_match Fixtures.vmware_host _ [] eq_refl)
    as (Hrun & Hvm & _).
  unfold run. rewrite Hrun, (Hvm Hv). eexists. reflexivity.
Defined.

End Virtualization.

(** ** ReportLogger.print_summary *)

Section Summary.
Import ReportLogger.

#[local] Instance occurs_in_dec (needle hay : pystr) : Decision (occurs_in needle hay).
Proof.
  destruct (str_in needle hay) eqn:H.
  - left. by apply str_in_spec.
  - right. by apply str_in_false.
Defined.

Lemma bool_filter_decide {A} (f : A -> bool) (P : A -> Prop) `{!forall x, Decision (P x)}
    (l : list A) :
  (forall x, f x = true <-> P x) -> List.filter f l = filter P l.
Proof.
  intros Hf. induction l as [|x l IH]; [reflexivity|]. cbn [List.filter].
  rewrite filter_cons. destruct (decide (P x)) as [HP|HP].
  - apply Hf in HP. rewrite HP. by f_equal.
  - destruct (f x) eqn:E; [by apply Hf in E|]. exact IH.
Qed.

Lemma fold_print_stdout {A} (f : A -> pystr) (l : list A) (w : World) :
  fold_left (fun w x => print (f x) w) l w
  = {| stdout := stdout w ++ map f l; files := files w |}.
Proof.
  revert w. induction l as [|x l IH]; intros w; cbn [fold_left map].
  - rewrite app_nil_r. by destruct w.
  - rewrite IH. unfold print. cbn [stdout files]. by rewrite <- app_assoc.
Qed.

Lemma print_summary_run (self : t) (w : World) :
  print_summary (self, w)
  = (self,
     {| stdout := stdout w
                  ++ summary_lines (successes_of (splitlines (buffer self)))
                       (warnings_of (splitlines (buffer self)));
        files := files w |}).
Proof.
  unfold print_summary, summary_lines.
  destruct (warnings_of (splitlines (buffer self))) as [|x warnings] eqn:Hw.
  - unfold print. cbn [stdout files]. f_equal. f_equal.
    rewrite <- !app_assoc. reflexivity.
  - rewrite fold_print_stdout. unfold print. cbn [stdout files]. f_equal. f_equal.
    rewrite <- !app_assoc. reflexivity.
Qed.

(** C8. [print_summary] leaves the logger as it was and writes no file;
    run twice it prints the same summary twice, so the same counts; a
    text export after it writes what it would have written before.  The
    successes are the lines that contain the success marker, the
    warnings the lines that contain either failure marker, each counted
    on its own, in log order: a line with both kinds of marker is in
    both lists; the highlighted issues are the first five warnings. *)
Theorem print_summary_idempotent_nonmutating (self : t) (w : World) :
  let lines := splitlines (buffer self) in
  let successes := filter (fun line => occurs_in (py "✅") line) lines in
  let warnings :=
    filter (fun line => occurs_in (py "⚠️") line \/ occurs_in (py "❌") line) lines in
  let st1 := print_summary (self, w) in
  let st2 := print_summary st1 in
  st1.1 = self /\ st2.1 = self
  /\ files st1.2 = files w /\ files st2.2 = files w
  /\ stdout st1.2 = stdout w ++ summary_lines successes warnings
  /\ stdout st2.2 = stdout st1.2 ++ summary_lines successes warnings
  /\ (forall filename : pystr,
        files (export filename st2).2 !! filename = Some (buffer self)
        /\ files (export filename (self, w)).2 !! filename = Some (buffer self))
  /\ (forall line, line ∈ lines ->
        occurs_in (py "✅") line -> occurs_in (py "❌") line ->
        line ∈ successes /\ line ∈ warnings)
  /\ (forall i, i ∈ take 5 warnings -> (py "   " ++ i) ∈ stdout st1.2).
Proof.
  intros lines successes warnings st1 st2.
  assert (Hs : successes_of lines = successes).
  { apply bool_filter_decide. intros line. apply str_in_spec. }
  assert (Hw : warnings_of lines = warnings).
  { apply bool_filter_decide. intros line.
    rewrite orb_true_iff, !str_in_spec. reflexivity. }
  assert (H1 : st1 = (self, {| stdout := stdout w ++ summary_lines successes warnings;
                               files := files w |})).
  { subst st1. rewrite print_summary_run. fold lines. by rewrite Hs, Hw. }
  assert (H2 : st2 = (self, {| stdout := stdout st1.2 ++ summary_lines successes warnings;
                               files := files w |})).
  { subst st2. rewrite H1. rewrite print_summary_run. fold lines. by rewrite Hs, Hw. }
  rewrite H2. rewrite H1. cbn [fst snd stdout files].
  repeat split; try reflexivity.
  - unfold export, write_file, print. cbn [fst snd files]. apply lookup_insert_eq.
  - unfold export, write_file, print. cbn [fst snd files]. apply lookup_insert_eq.
  - apply list_elem_of_filter. by split.
  - apply list_elem_of_filter. split; [by right | done].
  - intros i Hi. apply elem_of_app. right. unfold summary_lines.
    apply elem_of_app. right.
    destruct warnings as [|x warnings']; [by apply elem_of_nil in Hi|].
    right. apply list_elem_of_fmap. eauto.
Qed.

(** A line may count twice: one line, one success and one warning. *)
Example print_summary_counts_overlap :
  let st := write (py "✅ Socket count is fine ❌ but the edition caps it")
              (init, {| stdout := []; files := ∅ |}) in
  stdout (print_summary st).2
  = [py "✅ Socket count is fine ❌ but the edition caps it";
     nl ++ py "📋 Summary:";
     py " - ✅ Successes: 1";
     py " - ⚠️ Warnings: 1";
     py " - Highlighted Issues:";
     py "   ✅ Socket count is fine ❌ but the edition caps it"].
Proof. vm_compute. reflexivity. Qed.

End Summary.

(** ** ReportLogger.export_json *)

Section StructuredExport.
Import ReportLogger.

(** Arithmetic with quotients and remainders by constants. *)
Ltac div_lia := zify; Z.to_euclidean_division_equations; lia.

Lemma hex_val_hex_digit (d : N) : (d < 16)%N -> hex_val (hex_digit d) = Some d.
Proof.
  intros Hd. unfold hex_digit, hex_val.
  destruct (N.ltb_spec d 10).
  - replace ((48 <=? 48 + d)%N && (48 + d <=? 57)%N) with true
      by (symmetry; apply andb_true_iff; split; apply N.leb_le; lia).
    f_equal. lia.
  - replace ((48 <=? 87 + d)%N && (87 + d <=? 57)%N) with false
      by (symmetry; apply andb_false_iff; right; apply N.leb_gt; lia).
    replace ((97 <=? 87 + d)%N && (87 + d <=? 102)%N) with true
      by (symmetry; apply andb_true_iff; split; apply N.leb_le; lia).
    f_equal. lia.
Qed.

Lemma hex4_val_hex4 (c : N) :
  (c < 65536)%N ->
  hex4_val (hex_digit (c / 4096 mod 16)) (hex_digit (c / 256 mod 16))
           (hex_digit (c / 16 mod 16)) (hex_digit (c mod 16)) = Some c.
Proof.
  intros Hc. unfold hex4_val.
  rewrite !hex_val_hex_digit by (apply N.mod_upper_bound; lia).
  cbn [mbind option_bind]. f_equal.
  replace (c / 256)%N with (c / 16 / 16)%N by (rewrite N.Div0.div_div; reflexivity).
  replace (c / 4096)%N with (c / 16 / 16 / 16)%N by (rewrite !N.Div0.div_div; reflexivity).
  div_lia.
Qed.

(** The scanner, one kind of character at a time. *)
Lemma scan_string_quote (rest : pystr) : scan_string (34%N :: rest) = Some ([], rest).
Proof. reflexivity. Qed.

Lemma scan_string_plain (c : N) (rest : pystr) :
  (32 <= c)%N -> c <> 34%N -> c <> 92%N ->
  scan_string (c :: rest)
  = match scan_string rest with
    | Some (t, r) => Some (c :: t, r)
    | None => None
    end.
Proof.
  intros H32 H34 H92. cbn [scan_string].
  rewrite (proj2 (N.eqb_neq c 34) H34), (proj2 (N.ltb_ge c 32) H32),
    (proj2 (N.eqb_neq c 92) H92). reflexivity.
Qed.

Lemma scan_string_simple (e x : N) (rest : pystr) :
  e <> 117%N -> simple_escape e = Some x ->
  scan_string (92%N :: e :: rest)
  = match scan_string rest with
    | Some (t, r) => Some (x :: t, r)
    | None => None
    end.
Proof.
  intros H117 Hx. cbn [scan_string].
  change ((92 =? 34)%N) with false. change ((92 <? 32)%N) with false.
  change ((92 =? 92)%N) with true. cbn [negb].
  rewrite (proj2 (N.eqb_neq e 117) H117), Hx. cbn [negb]. reflexivity.
Qed.

Lemma scan_string_unicode (h1 h2 h3 h4 u : N) (rest : pystr) :
  hex4_val h1 h2 h3 h4 = Some u -> is_high_surrogate u = false ->
  scan_string (92%N :: 117%N :: h1 :: h2 :: h3 :: h4 :: rest)
  = match scan_string rest with
    | Some (t, r) => Some (u :: t, r)
    | None => None
    end.
Proof.
  intros Hu Hhigh. cbn [scan_string].
  change ((92 =? 34)%N) with false. change ((92 <? 32)%N) with false.
  change ((92 =? 92)%N) with true. change ((117 =? 117)%N) with true. cbn [negb].
  rewrite Hu, Hhigh. reflexivity.
Qed.

Lemma scan_string_pair (h1 h2 h3 h4 l1 l2 l3 l4 u cp : N) (rest : pystr) :
  hex4_val h1 h2 h3 h4 = Some u -> is_high_surrogate u = true ->
  surrogate_pair u 92 117 l1 l2 l3 l4 = Some cp ->
  scan_string (92%N :: 117%N :: h1 :: h2 :: h3 :: h4
               :: 92%N :: 117%N :: l1 :: l2 :: l3 :: l4 :: rest)
  = match scan_string rest with
    | Some (t, r) => Some (cp :: t, r)
    | None => None
    end.
Proof.
  intros Hu Hhigh Hpair. 
  set (tail := (92%N :: 117%N :: l1 :: l2 :: l3 :: l4 :: rest)).
  cbn [scan_string].
  change ((92 =? 34)%N) with false. change ((92 <? 32)%N) with false.
  change ((92 =? 92)%N) with true. change ((117 =? 117)%N) with true. cbn [negb].
  rewrite Hu, Hhigh. subst tail. cbv iota. rewrite Hpair. reflexivity. 
Qed.

Lemma andb_leb_true (a b c : N) : (a <= b)%N -> (b <= c)%N -> (a <=? b)%N && (b <=? c)%N = true.
Proof. intros. apply andb_true_iff. split; by apply N.leb_le. Qed.

Lemma andb_leb_false (a b c : N) : (b < a)%N \/ (c < b)%N -> (a <=? b)%N && (b <=? c)%N = false.
Proof. intros [H|H]; apply andb_false_iff; [left|right]; by apply N.leb_gt. Qed.

(** Reading back the escape of one scalar value yields that value. *)
Lemma scan_escape (c : N) (rest : pystr) :
  scalar c ->
  scan_string (json_escape_char c ++ rest)
  = match scan_string rest with
    | Some (t, r) => Some (c :: t, r)
    | None => None
    end.
Proof.
  intros [Hsur Hmax]. unfold json_escape_char.
  destruct (N.eqb_spec c 34) as [->|H34]; [by apply scan_string_simple|].
  destruct (N.eqb_spec c 92) as [->|H92]; [by apply scan_string_simple|].
  destruct (N.eqb_spec c 10) as [->|H10]; [by apply scan_string_simple|].
  destruct (N.eqb_spec c 13) as [->|H13]; [by apply scan_string_simple|].
  destruct (N.eqb_spec c 9) as [->|H9]; [by apply scan_string_simple|].
  destruct (N.eqb_spec c 8) as [->|H8]; [by apply scan_string_simple|].
  destruct (N.eqb_spec c 12) as [->|H12]; [by apply scan_string_simple|].
  destruct (N.leb_spec 32 c) as [H32|H32]; cbn [andb].
  - destruct (N.leb_spec c 126) as [H126|H126].
    + by apply scan_string_plain.
    + destruct (N.ltb_spec c 65536) as [Hbmp|Hastral].
      * unfold hex4. cbn [app]. apply scan_string_unicode.
        -- by apply hex4_val_hex4.
        -- apply andb_leb_false. lia.
      * unfold hex4. cbn [app].
        set (v := (c - 65536)%N).
        set (s1 := (55296 + v / 1024 mod 1024)%N).
        set (s2 := (56320 + v mod 1024)%N).
        assert (s1 < 65536)%N by (subst s1; div_lia).
        assert (s2 < 65536)%N by (subst s2; div_lia).
        apply (scan_string_pair _ _ _ _ _ _ _ _ s1 c).
        -- by apply hex4_val_hex4.
        -- apply andb_leb_true; subst s1; div_lia.
        -- unfold surrogate_pair. cbn [N.eqb Pos.eqb andb].
           rewrite hex4_val_hex4 by done.
           unfold is_low_surrogate. rewrite andb_leb_true by (subst s2; div_lia).
           f_equal. subst s1 s2 v. div_lia.
  - destruct (N.ltb_spec c 65536) as [Hbmp|Hastral]; [|lia].
    unfold hex4. cbn [app]. apply scan_string_unicode.
    + by apply hex4_val_hex4.
    + apply andb_leb_false. lia.
Qed.

Lemma scan_json_string (s rest : pystr) :
  is_text s ->
  scan_string (concat (map json_escape_char s) ++ 34%N :: rest) = Some (s, rest).
Proof.
  intros Hs. induction Hs as [|c s Hc _ IH]; [reflexivity|].
  cbn [map concat]. rewrite <- app_assoc, scan_escape by done. by rewrite IH.
Qed.

Lemma parse_json_string (s rest : pystr) :
  is_text s -> parse_string (json_string s ++ rest) = Some (s, rest).
Proof.
  intros Hs. unfold parse_string, json_string. cbn [app expect N.eqb Pos.eqb].
  cbn [mbind option_bind]. rewrite <- app_assoc. by apply scan_json_string.
Qed.

(** Literals, as the code points they decode to. *)
Ltac read_literals :=
  repeat match goal with
         | |- context [py ?s] =>
             let v := eval vm_compute in (py s) in
             replace (py s) with v by (vm_compute; reflexivity)
         end.

Lemma is_text_report : is_text (py "report").
Proof.
  read_literals. unfold is_text. repeat constructor; unfold scalar; lia.
Qed.

Lemma skip_ws_items (sep : pystr) (l : pystr) (lines : list pystr) (rest : pystr) :
  skip_ws (str_join sep (map json_string (l :: lines)) ++ rest)
  = str_join sep (map json_string (l :: lines)) ++ rest.
Proof. destruct lines; reflexivity. Qed.

Lemma parse_items_join (lines : list pystr) (l rest : pystr) (fuel : nat) :
  Forall is_text (l :: lines) ->
  (length (l :: lines) <= fuel)%nat ->
  parse_items fuel
    (str_join item_separator (map json_string (l :: lines)) ++ items_close ++ rest)
  = Some (l :: lines, rest).
Proof.
  revert l fuel. induction lines as [|l2 lines IH]; intros l fuel Htext Hfuel.
  - destruct fuel as [|fuel]; [cbn in Hfuel; lia|].
    cbn [map str_join parse_items]. rewrite parse_json_string by (by inversion Htext).
    reflexivity.
  - destruct fuel as [|fuel]; [cbn in Hfuel; lia|].
    inversion Htext as [|? ? Hl Hrest]; subst.
    change (str_join item_separator (map json_string (l :: l2 :: lines)))
      with (json_string l ++ item_separator
            ++ str_join item_separator (map json_string (l2 :: lines))).
    rewrite <- !app_assoc. cbn [parse_items].
    rewrite parse_json_string by done.
    unfold item_separator at 1.
    cbn [app skip_ws is_ws existsb N.eqb Pos.eqb orb].
    rewrite skip_ws_items, IH; [reflexivity | done | cbn in *; lia].
Qed.

Lemma str_join_length (sep : pystr) (parts : list pystr) :
  Forall (fun p : pystr => (1 <= length p)%nat) parts ->
  (length parts <= length (str_join sep parts))%nat.
Proof.
  induction 1 as [|p parts Hp _ IH]; [cbn; lia|].
  destruct parts as [|q parts]; [cbn in *; lia|].
  change (str_join sep (p :: q :: parts)) with (p ++ sep ++ str_join sep (q :: parts)).
  rewrite !length_app. cbn [length] in *. lia.
Qed.

Lemma json_dump_report_cons (l : pystr) (lines : list pystr) :
  json_dump_report (l :: lines)
  = [123; 10; 32; 32]%N ++ json_string (py "report") ++ [58; 32; 91; 10; 32; 32; 32; 32]%N
    ++ str_join item_separator (map json_string (l :: lines))
    ++ items_close ++ [10; 125]%N.
Proof.
  unfold json_dump_report, item_separator, items_close, nl.
  replace (py "{") with [123%N] by (vm_compute; reflexivity).
  replace (py "  ") with [32%N; 32%N] by (vm_compute; reflexivity).
  replace (py ": ") with [58%N; 32%N] by (vm_compute; reflexivity).
  replace (py "[") with [91%N] by (vm_compute; reflexivity).
  replace (py "    ") with [32%N; 32%N; 32%N; 32%N] by (vm_compute; reflexivity).
  replace (py ",") with [44%N] by (vm_compute; reflexivity).
  replace (py "  ]") with [32%N; 32%N; 93%N] by (vm_compute; reflexivity).
  replace (py "}") with [125%N] by (vm_compute; reflexivity).
  rewrite <- !app_assoc. reflexivity.
Qed.

(** Reading back the document written for a list of text lines yields
    those lines. *)
(** One step of the reader over explicit characters. *)
Ltac lex_step :=
  cbn [app skip_ws is_ws existsb N.eqb Pos.eqb orb expect mbind option_bind fst snd].

Lemma json_load_dump_report (lines : list pystr) :
  Forall is_text lines -> json_load_report (json_dump_report lines) = Some lines.
Proof.
  intros Htext. destruct lines as [|l lines]; [vm_compute; reflexivity|].
  rewrite json_dump_report_cons. unfold json_load_report. lex_step.
  change (skip_ws (json_string (py "report") ++ ?x)) with (json_string (py "report") ++ x).
  rewrite parse_json_string by apply is_text_report. lex_step.
  rewrite bool_decide_eq_true_2 by reflexivity. lex_step.
  unfold parse_array. lex_step.
  rewrite skip_ws_items.
  destruct (str_join item_separator (map json_string (l :: lines))
            ++ items_close ++ [10%N; 125%N]) as [|c text] eqn:Hitems.
  { destruct lines; discriminate Hitems. }
  assert (Hc : c = 34%N) by (destruct lines; by injection Hitems).
  subst c. cbn [N.eqb Pos.eqb]. rewrite <- Hitems.
  rewrite parse_items_join.
  - reflexivity.
  - exact Htext.
  - cbn [length]. rewrite !length_app.
    pose proof (str_join_length item_separator (map json_string (l :: lines))) as Hlen.
    rewrite length_map in Hlen. cbn [length] in Hlen.
    assert (Forall (fun p : pystr => (1 <= length p)%nat) (map json_string (l :: lines))).
    { apply Forall_fmap, Forall_forall. intros p _. unfold json_string. cbn. lia. }
    specialize (Hlen H). lia.
Qed.

Lemma buffer_record_all (msgs : list pystr) (self : t) (w : World) :
  buffer (record_all msgs (self, w)).1 = buffer self ++ text_log msgs.
Proof.
  revert self w. induction msgs as [|msg msgs IH]; intros self w.
  - cbn. by rewrite app_nil_r.
  - unfold record_all in *. cbn [fold_left write]. rewrite IH.
    unfold text_log. cbn [buffer map concat]. by rewrite <- !app_assoc.
Qed.

(** A message without a line boundary, written with its newline, is one
    line of the text. *)
Lemma splitlines_single_line (msg rest : pystr) :
  single_line msg -> splitlines (msg ++ nl ++ rest) = msg :: splitlines rest.
Proof.
  intros Hmsg. induction Hmsg as [|c msg Hc _ IH].
  - destruct rest; reflexivity.
  - cbn [app splitlines]. rewrite Hc. cbn [app] in IH. by rewrite IH.
Qed.

Lemma splitlines_text_log (msgs : list pystr) :
  Forall single_line msgs -> splitlines (text_log msgs) = msgs.
Proof.
  induction 1 as [|msg msgs Hmsg _ IH]; [reflexivity|].
  unfold text_log in *. cbn [map concat]. rewrite <- app_assoc.
  rewrite splitlines_single_line by done. by rewrite IH.
Qed.

(** The lines of a text are made of its characters. *)
Lemma splitlines_chars (P : N -> Prop) (s : pystr) :
  Forall P s -> Forall (Forall P) (splitlines s).
Proof.
  remember (length s) as n eqn:Hn. revert s Hn.
  induction n as [n IH] using lt_wf_ind. intros s -> Hs.
  destruct s as [|c rest]; [constructor|].
  inversion Hs as [|? ? Hc Hrest]; subst. cbn [splitlines].
  destruct (is_linebreak c).
  - destruct rest as [|d rest']; [repeat constructor|].
    inversion Hrest; subst.
    destruct ((c =? 13)%N && (d =? 10)%N); constructor; try constructor;
      (eapply IH; [|reflexivity|]; [cbn; lia | done]).
  - assert (Hlines : Forall (Forall P) (splitlines rest))
      by (eapply IH; [|reflexivity|]; [cbn; lia | done]).
    destruct (splitlines rest) as [|line lines]; [repeat constructor; done|].
    inversion Hlines; subst. constructor; [by constructor | done].
Qed.

Lemma text_log_is_text (msgs : list pystr) :
  Forall is_text msgs -> is_text (text_log msgs).
Proof.
  unfold is_text, text_log. induction 1 as [|msg msgs Hmsg _ IH]; [constructor|].
  cbn [map concat]. rewrite !Forall_app. repeat split; [done | | done].
  unfold nl. repeat constructor; unfold scalar; lia.
Qed.

(** C7, as the code has it.  For messages that are text, the structured
    export writes the document [{"report": [line, ...]}] of the lines of
    the text report, and reading it back yields those lines in order;
    when no message holds a line boundary, these are the recorded
    messages themselves, in order and with their exact text. *)
Theorem export_json_round_trip (msgs : list pystr) (w : World) (filename : pystr) :
  Forall is_text msgs ->
  let st := export_json filename (record_all msgs (init, w)) in
  files st.2 !! filename = Some (json_dump_report (splitlines (text_log msgs)))
  /\ files st.2 !! filename ≫= json_load_report = Some (splitlines (text_log msgs))
  /\ (Forall single_line msgs ->
      files st.2 !! filename ≫= json_load_report = Some msgs).
Proof.
  intros Htext st.
  assert (Hfile : files st.2 !! filename
                  = Some (json_dump_report (splitlines (text_log msgs)))).
  { subst st. unfold export_json.
    destruct (record_all msgs (init, w)) as [self w'] eqn:Hrec.
    cbn [snd files print write_file]. rewrite lookup_insert_eq.
    pose proof (buffer_record_all msgs init w) as Hbuf. rewrite Hrec in Hbuf.
    cbn [fst init buffer app] in Hbuf. by rewrite Hbuf. }
  assert (Hload : files st.2 !! filename ≫= json_load_report
                  = Some (splitlines (text_log msgs))).
  { rewrite Hfile. cbn [mbind option_bind]. apply json_load_dump_report.
    apply splitlines_chars. by apply text_log_is_text. }
  repeat split; [exact Hfile | exact Hload |].
  intros Hsingle. rewrite Hload. by rewrite splitlines_text_log.
Qed.

Lemma is_textb_true (s : pystr) : is_textb s = true -> is_text s.
Proof.
  unfold is_textb, is_text. rewrite forallb_forall, Forall_forall.
  intros H c Hc. apply list_elem_of_In, H in Hc.
  apply andb_true_iff in Hc as [Hsur Hmax]. apply orb_true_iff in Hsur.
  unfold scalar. rewrite <- !N.ltb_lt. tauto.
Qed.

Lemma single_line_true (s : pystr) :
  forallb (fun c => negb (is_linebreak c)) s = true -> single_line s.
Proof.
  unfold single_line. rewrite forallb_forall, Forall_forall.
  intros H c Hc. apply list_elem_of_In, H in Hc. by apply negb_true_iff.
Qed.

Lemma export_json_round_trip_witness :
  let msgs := [balanced_line; offline_line [VInt 2]] in
  let st := export_json (py "numa_diagnostics.json") (record_all msgs (init, empty_world)) in
  files st.2 !! py "numa_diagnostics.json" ≫= json_load_report = Some msgs.
Proof.
  intros msgs st.
  refine (proj2 (proj2 (export_json_round_trip msgs empty_world
                          (py "numa_diagnostics.json") _)) _).
  - subst msgs.
    repeat first
      [ apply Forall_nil_2
      | apply Forall_cons_2; [apply is_textb_true; vm_compute; reflexivity|] ].
  - subst msgs.
    repeat first
      [ apply Forall_nil_2
      | apply Forall_cons_2; [apply single_line_true; vm_compute; reflexivity|] ].
Defined.

(** C7, as stated, fails on a message that holds a newline: the checker
    writes the header of the memory section with a leading newline, and
    the export holds it as two lines, an empty one and the header. *)
Lemma export_json_splits_multiline_message :
  let msgs := [memory_header_line] in
  let st := export_json (py "numa_diagnostics.json") (record_all msgs (init, empty_world)) in
  files st.2 !! py "numa_diagnostics.json" ≫= json_load_report
  = Some [[]; py "🔍 SQL Server Memory Configuration:"]
  /\ files st.2 !! py "numa_diagnostics.json" ≫= json_load_report <> Some msgs.
Proof. vm_compute. split; [reflexivity | discriminate]. Qed.

End StructuredExport.

(** * Further properties *)

(** ** query_dict *)

Section QueryDict.
Import NumaChecker.

Lemma fold_insert_fresh (kvs : list (pystr * value)) (d : gmap pystr value) (k : pystr) :
  k ∉ kvs.*1 ->
  fold_left (fun d kv => <[kv.1 := kv.2]> d) kvs d !! k = d !! k.
Proof.
  revert d. induction kvs as [|[k' v'] kvs IH]; intros d Hk; [reflexivity|].
  cbn [fold_left fst snd]. cbn [fmap list_fmap fst] in Hk.
  apply not_elem_of_cons in Hk as [Hne Hk]. rewrite IH by done.
  by rewrite lookup_insert_ne.
Qed.

(** With distinct column names, the record of a row gives for the column
    at position [j] the value at position [j]. *)
Lemma dict_of_pairs_lookup (columns : list pystr) (row : list value)
    (j : nat) (k : pystr) (v : value) :
  NoDup columns -> columns !! j = Some k -> row !! j = Some v ->
  dict_of_pairs (zip columns row) !! k = Some v.
Proof.
  unfold dict_of_pairs. generalize (∅ : gmap pystr value).
  intros d Hnd. revert row j d.
  induction Hnd as [|k0 columns Hk0 Hnd IH]; intros row j d Hk Hv.
  - by destruct j.
  - destruct row as [|v0 row]; [by destruct j|].
    cbn [zip zip_with fold_left fst snd]. destruct j as [|j].
    + injection Hk as ->. injection Hv as ->.
      rewrite fold_insert_fresh; [by rewrite lookup_insert_eq|].
      intros Hin. apply Hk0.
      apply list_elem_of_fmap in Hin as ([k1 v1] & -> & Hin). cbn.
      apply list_elem_of_lookup in Hin as [i Hi].
      apply lookup_zip_with_Some in Hi as (a & b & [= -> ->] & Ha & _).
      by eapply list_elem_of_lookup_2.
    + by eapply IH.
Qed.

(** X1. When the cursor opens and the statement succeeds with distinct
    column names, [query_dict] returns one record per fetched row, in
    order, and the record of row [i] holds under each column name the
    value the row has at that column's position. *)
Theorem query_dict_records (conn : Connection) (sql : pystr) (rs : ResultSet) :
  conn_cursor conn = Return tt ->
  conn_execute conn sql = Return rs ->
  NoDup (description rs) ->
  exists rows : list (gmap pystr value),
    query_dict conn sql = Return rows
    /\ length rows = length (fetchall rs)
    /\ forall (i j : nat) (r : list value) (k : pystr) (v : value),
         fetchall rs !! i = Some r ->
         description rs !! j = Some k -> r !! j = Some v ->
         exists row : gmap pystr value, rows !! i = Some row /\ row !! k = Some v.
Proof.
  intros Hc He Hnd. unfold query_dict. rewrite Hc, He. cbn [obind].
  eexists. split; [reflexivity|]. split; [by rewrite length_map|].
  intros i j r k v Hi Hk Hv. eexists. rewrite list_lookup_fmap, Hi. cbn.
  split; [reflexivity|]. by eapply dict_of_pairs_lookup.
Qed.

Lemma query_dict_records_witness :
  exists rows : list (gmap pystr value),
    query_dict Fixtures.first_offline_server scheduler_layout_query = Return rows
    /\ length rows = 2%nat
    /\ exists row : gmap pystr value,
         rows !! 1%nat = Some row /\ row !! py "is_online" = Some (VBool true).
Proof.
  destruct (query_dict_records Fixtures.first_offline_server scheduler_layout_query
              {| description := scheduler_columns;
                 fetchall := [Fixtures.online_row 0 false; Fixtures.online_row 1 true] |})
    as (rows & Hq & Hlen & Hrow).
  - reflexivity.
  - vm_compute. reflexivity.
  - cbn [description]. unfold scheduler_columns.
    repeat (apply NoDup_cons_2;
            [rewrite ?not_elem_of_cons; repeat split;
             try (intros H; vm_compute in H; discriminate H); apply not_elem_of_nil|]).
    apply NoDup_nil_2.
  - exists rows. split; [exact Hq|]. split; [exact Hlen|].
    apply (Hrow 1%nat 2%nat (Fixtures.online_row 1 true) (py "is_online") (VBool true));
      reflexivity.
Defined.

End QueryDict.

(** ** A connection that cannot open a cursor *)

Section BrokenCursor.
Import NumaChecker.

(** X2. When [conn.cursor()] raises, the [finally] clause of
    [query_dict] raises in its turn: every query fails with the
    NameError for [cursor], whatever the driver had raised.
    [get_system_specs] turns it into its error line; the full run then
    stops in [validate_numa_layout] with that NameError, having emitted
    its header and that one line. *)
Theorem cursor_failure_is_masked (conn : Connection) (host : Host)
    (check_socket_layout check_virtual_hardware analyze_sql_workload : M unit)
    (e : exn) (log : list pystr) :
  conn_cursor conn = Raise e ->
  (forall sql, query_dict conn sql = Raise (UnboundLocalError (py "cursor")))
  /\ get_system_specs conn log = (Return tt, log ++ [specs_error_line])
  /\ run_all_diagnostics conn host check_socket_layout check_virtual_hardware
       analyze_sql_workload log
     = (Raise (UnboundLocalError (py "cursor")),
        log ++ [run_header_line; specs_error_line]).
Proof.
  intros Hc.
  assert (Hq : forall sql, query_dict conn sql = Raise (UnboundLocalError (py "cursor"))).
  { intros sql. unfold query_dict. by rewrite Hc. }
  assert (Hspecs : forall l, get_system_specs conn l = (Return tt, l ++ [specs_error_line])).
  { intros l. unfold get_system_specs, try_except. rewrite Hq. reflexivity. }
  split; [exact Hq|]. split; [apply Hspecs|].
  unfold run_all_diagnostics. rewrite bind_out. cbv beta.
  unfold bind at 1. rewrite Hspecs.
  unfold bind at 1. unfold validate_numa_layout at 1, get_scheduler_layout.
  rewrite Hq. rewrite bind_lift_raise. rewrite <- app_assoc. reflexivity.
Qed.

Lemma cursor_failure_is_masked_witness :
  run (run_all_diagnostics broken_connection Fixtures.vmware_host
         (ret tt) (ret tt) (ret tt))
  = (Raise (UnboundLocalError (py "cursor")), [run_header_line; specs_error_line]).
Proof.
  exact (proj2 (proj2 (cursor_failure_is_masked broken_connection Fixtures.vmware_host
                         (ret tt) (ret tt) (ret tt) _ [] eq_refl))).
Defined.

End BrokenCursor.

(** ** get_system_specs *)

Section SystemSpecs.
Import NumaChecker.

(** X3. [get_system_specs] always returns and always reports: its error
    line alone when the query fails, the "could not retrieve" line alone
    when the query returns no row, the header and the five settings of
    the first row when that row has the five columns; when a column is
    missing, the lines emitted so far are followed by the error line.
    It emits between one and seven lines. *)
Theorem get_system_specs_always_reports (conn : Connection) (log : list pystr) :
  exists lines : list pystr,
    get_system_specs conn log = (Return tt, log ++ lines)
    /\ (1 <= length lines <= 7)%nat
    /\ (forall e, query_dict conn system_specs_query = Raise e ->
          lines = [specs_error_line])
    /\ (query_dict conn system_specs_query = Return [] -> lines = [no_specs_line])
    /\ (forall (row : gmap pystr value) rest cpus ratio memory started vm,
          query_dict conn system_specs_query = Return (row :: rest) ->
          row !! py "cpu_count" = Some cpus ->
          row !! py "hyperthread_ratio" = Some ratio ->
          row !! py "physical_memory_mb" = Some memory ->
          row !! py "sqlserver_start_time" = Some started ->
          row !! py "virtual_machine_type_desc" = Some vm ->
          lines = specs_lines cpus ratio memory started vm)
    /\ (forall (row : gmap pystr value) rest,
          query_dict conn system_specs_query = Return (row :: rest) ->
          row !! py "cpu_count" = None \/ row !! py "hyperthread_ratio" = None
          \/ row !! py "physical_memory_mb" = None
          \/ row !! py "sqlserver_start_time" = None
          \/ row !! py "virtual_machine_type_desc" = None ->
          last lines = Some specs_error_line).
Proof.
  unfold get_system_specs, try_except.
  destruct (query_dict conn system_specs_query) as [[|row rest]|e] eqn:Hq.
  - step_check. exists [no_specs_line].
    split; [reflexivity|]. split; [cbn [length]; lia|].
    split; [intros; congruence|]. split; [reflexivity|].
    split; intros; congruence.
  - step_check. unfold getitem.
    destruct (row !! py "cpu_count") as [cpus|] eqn:H1; step_check.
    2:{ unfold out. eexists [_; _]. rewrite <- ?app_assoc. split; [reflexivity|].
        split; [cbn [length]; lia|]. split; [intros; congruence|].
        split; [intros; congruence|]. split; [|reflexivity].
        intros ? ? ? ? ? ? ? [= <- <-] H. congruence. }
    destruct (row !! py "hyperthread_ratio") as [ratio|] eqn:H2; step_check.
    2:{ unfold out. eexists [_; _; _]. rewrite <- ?app_assoc. split; [reflexivity|].
        split; [cbn [length]; lia|]. split; [intros; congruence|].
        split; [intros; congruence|]. split; [|reflexivity].
        intros ? ? ? ? ? ? ? [= <- <-] _ H. congruence. }
    destruct (row !! py "physical_memory_mb") as [memory|] eqn:H3; step_check.
    2:{ unfold out. eexists [_; _; _; _]. rewrite <- ?app_assoc. split; [reflexivity|].
        split; [cbn [length]; lia|]. split; [intros; congruence|].
        split; [intros; congruence|]. split; [|reflexivity].
        intros ? ? ? ? ? ? ? [= <- <-] _ _ H. congruence. }
    destruct (row !! py "sqlserver_start_time") as [started|] eqn:H4; step_check.
    2:{ unfold out. eexists [_; _; _; _; _]. rewrite <- ?app_assoc. split; [reflexivity|].
        split; [cbn [length]; lia|]. split; [intros; congruence|].
        split; [intros; congruence|]. split; [|reflexivity].
        intros ? ? ? ? ? ? ? [= <- <-] _ _ _ H. congruence. }
    destruct (row !! py "virtual_machine_type_desc") as [vm|] eqn:H5; step_check.
    2:{ unfold out. eexists [_; _; _; _; _; _]. rewrite <- ?app_assoc. split; [reflexivity|].
        split; [cbn [length]; lia|]. split; [intros; congruence|].
        split; [intros; congruence|]. split; [|reflexivity].
        intros ? ? ? ? ? ? ? [= <- <-] _ _ _ _ H. congruence. }
    exists (specs_lines cpus ratio memory started vm). unfold out, specs_lines.
    rewrite <- !app_assoc. split; [reflexivity|].
    split; [cbn [length]; lia|]. split; [intros; congruence|].
    split; [intros; congruence|]. split.
    + intros ? ? c r m s v [= <- <-] E1 E2 E3 E4 E5.
      rewrite H1 in E1. rewrite H2 in E2. rewrite H3 in E3. rewrite H4 in E4.
      rewrite H5 in E5.
      injection E1 as <-. injection E2 as <-. injection E3 as <-.
      injection E4 as <-. injection E5 as <-. reflexivity.
    + intros ? ? [= <- <-] [H|[H|[H|[H|H]]]];
        first [rewrite H1 in H | rewrite H2 in H | rewrite H3 in H
              | rewrite H4 in H | rewrite H5 in H]; discriminate H.
  - step_check. exists [specs_error_line].
    split; [reflexivity|]. split; [cbn [length]; lia|].
    split; [reflexivity|]. split; [intros; congruence|].
    split; intros; congruence.
Qed.

End SystemSpecs.

(** ** detect_virtual_environment, when the probe fails *)

Section ProbeFailure.
Import NumaChecker.

Lemma detected_platform_known (text : pystr) :
  detected_platform text <> py "Unknown".
Proof.
  unfold detected_platform.
  repeat match goal with
         | |- context [if ?b then _ else _] => destruct b
         end;
    intros H; vm_compute in H; discriminate H.
Qed.

(** X4. [detect_virtual_environment] always returns.  It returns
    "Unknown" exactly when the probe raised, and then its only line is
    the error line; otherwise it returns one of the five platform names
    and its first line names the platform. *)
Theorem detect_virtual_environment_unknown_iff_probe_failed (host : Host)
    (log : list pystr) :
  exists (detected : pystr) (lines : list pystr),
    detect_virtual_environment host log = (Return detected, log ++ lines)
    /\ (detected = py "Unknown" <-> returned (getoutput host (py "systeminfo")) = false)
    /\ (detected = py "Unknown" -> lines = [py "❌ Error detecting virtual platform."])
    /\ (detected <> py "Unknown" -> head lines = Some (host_environment_line detected)).
Proof.
  unfold detect_virtual_environment, try_except.
  destruct (getoutput host (py "systeminfo")) as [text|e] eqn:Hprobe.
  - step_check. pose proof (detected_platform_known text) as Hknown.
    set (detected := detected_platform text) in *.
    destruct (bool_decide (detected <> py "Bare Metal")); step_check;
      eexists detected, _;
      (split; [unfold out, ret; rewrite <- ?app_assoc; reflexivity|]);
      cbn [returned];
      (split; [split; [intros H; by apply Hknown in H | discriminate]|]);
      (split; [intros H; by apply Hknown in H | intros _; reflexivity]).
  - step_check. exists (py "Unknown"), [py "❌ Error detecting virtual platform."].
    cbn [returned]. split; [reflexivity|]. split; [split; reflexivity|].
    split; [reflexivity|]. intros H. by destruct H.
Qed.

End ProbeFailure.

(** ** check_affinity_config *)

Section Affinity.
Import NumaChecker.

Lemma py_eqb_sym (a b : value) : py_eqb a b = py_eqb b a.
Proof.
  destruct a as [|?|?|?], b as [|?|?|?]; cbn; try done; try apply Z.eqb_sym.
  apply bool_decide_ext. split; congruence.
Qed.

Lemma py_eqb_trans (a b c : value) :
  py_eqb a b = true -> py_eqb b c = true -> py_eqb a c = true.
Proof.
  destruct a as [|?|?|?], b as [|?|?|?]; cbn; try discriminate;
    destruct c as [|?|?|?]; cbn; try discriminate; try done;
    rewrite ?Z.eqb_eq, ?bool_decide_eq_true; congruence.
Qed.

(** Membership in the set of a list, up to [==]. *)
Lemma set_mem_set_of_list (v : value) (l : list value) :
  set_mem v (set_of_list l) = true <-> exists w, w ∈ l /\ py_eqb v w = true.
Proof.
  destruct (set_of_list_spec l) as (_ & Hsub & Hcov). split.
  - intros (w & Hw & Hvw)%set_mem_true. eauto.
  - intros (w & Hw & Hvw). apply Hcov, set_mem_true in Hw as (x & Hx & Hwx).
    apply set_mem_true. exists x. split; [done|]. by eapply py_eqb_trans.
Qed.

Lemma rows_where_filter (key : string) (v : value) (rows : list (gmap pystr value)) :
  Forall (fun row : gmap pystr value => is_Some (row !! py key)) rows ->
  rows_where key v rows
  = Return (List.filter (fun row : gmap pystr value =>
                           match row !! py key with
                           | Some w => py_eqb w v
                           | None => false
                           end) rows).
Proof.
  induction 1 as [|row rows [w Hw] _ IH]; [reflexivity|].
  cbn [rows_where List.filter]. unfold getitem. rewrite Hw, IH. cbn [obind].
  by destruct (py_eqb w v).
Qed.

Lemma column_set_list_values (key : string) (rows : list (gmap pystr value)) :
  Forall (fun row : gmap pystr value => is_Some (row !! py key)) rows ->
  column_set_list key rows
  = Return (omap (fun row : gmap pystr value => row !! py key) rows).
Proof.
  induction 1 as [|row rows [w Hw] _ IH]; [reflexivity|].
  cbn [column_set_list omap list_omap]. unfold getitem. rewrite Hw, IH. reflexivity.
Qed.

Lemma filter_none {A : Type} (f : A -> bool) (l : list A) :
  (forall x : A, In x l -> f x = false) -> List.filter f l = [].
Proof.
  induction l as [|a l IH]; [reflexivity|]. intros H. cbn [List.filter].
  rewrite (H a) by (left; reflexivity). apply IH. intros x Hx. apply H. by right.
Qed.

Lemma set_neqb_same (s : pyset) : set_neqb s s = false.
Proof.
  unfold set_neqb.
  assert (forallb (fun v => set_mem v s) s = true) as ->; [|reflexivity].
  apply forallb_forall. intros v Hv. apply set_mem_true. exists v.
  split; [by apply list_elem_of_In | apply py_eqb_refl].
Qed.

(** The check on well-formed records, in terms of the visible and the
    online CPU ids. *)
Lemma check_affinity_config_run (conn : Connection) (rows : list (gmap pystr value))
    (log : list pystr) :
  get_scheduler_layout conn = Return rows ->
  Forall affinity_record rows ->
  let visible := set_of_list (omap (fun row : gmap pystr value => row !! py "cpu_id")
                                   (List.filter is_visible rows)) in
  let online := set_of_list (omap (fun row : gmap pystr value => row !! py "cpu_id")
                                  (List.filter is_online rows)) in
  check_affinity_config conn log
  = if set_neqb visible online
    then match sorted (set_diff online visible) with
         | Return missing =>
             (Return tt, log ++ [affinity_warn_line; missing_cpus_line missing])
         | Raise _ =>
             (Return tt, log ++ [affinity_warn_line; py "❌ Error checking affinity config."])
         end
    else (Return tt, log ++ [affinity_ok_line]).
Proof.
  intros Hs Hrows visible online. unfold check_affinity_config, try_except.
  rewrite Hs. step_check.
  rewrite (rows_where_filter "status") by (eapply Forall_impl; [exact Hrows|]; by intros ? (? & ? & ?)).
  step_check.
  rewrite (rows_where_filter "is_online") by (eapply Forall_impl; [exact Hrows|]; by intros ? (? & ? & ?)).
  step_check.
  fold is_visible. fold is_online.
  assert (Hcpu : forall f, Forall (fun row : gmap pystr value => is_Some (row !! py "cpu_id"))
                             (List.filter f rows)).
  { intros f. apply Forall_forall. intros row Hrow.
    apply list_elem_of_In, filter_In in Hrow as [Hrow _]. apply list_elem_of_In in Hrow.
    rewrite Forall_forall in Hrows. by destruct (Hrows row Hrow) as (_ & _ & ?). }
  rewrite !column_set_list_values by apply Hcpu. step_check.
  fold visible. fold online.
  destruct (set_neqb visible online); step_check; [|reflexivity].
  destruct (sorted (set_diff online visible)); step_check;
    unfold out; rewrite <- ?app_assoc; reflexivity.
Qed.

(** X5. When every scheduler record is visible exactly when it is
    online, the affinity check emits its single ok line. *)
Theorem check_affinity_config_agreeing_records (conn : Connection)
    (rows : list (gmap pystr value)) (log : list pystr) :
  get_scheduler_layout conn = Return rows ->
  Forall affinity_record rows ->
  Forall (fun row => is_visible row = is_online row) rows ->
  check_affinity_config conn log = (Return tt, log ++ [affinity_ok_line]).
Proof.
  intros Hs Hrows Hagree.
  rewrite (check_affinity_config_run conn rows log Hs Hrows). cbv zeta.
  assert (List.filter is_visible rows = List.filter is_online rows) as ->.
  { clear Hs Hrows. induction Hagree as [|row rows Hrow _ IH]; [reflexivity|].
    cbn [List.filter]. by rewrite Hrow, IH. }
  by rewrite set_neqb_same.
Qed.

(** X6. When every record is visible and some CPU is offline (its id
    that of no online record), the check reports an affinity mask and
    lists no missing CPU: the difference it prints is taken from the
    online side only. *)
Theorem check_affinity_config_offline_visible_cpu (conn : Connection)
    (rows : list (gmap pystr value)) (offline : gmap pystr value) (cpu : value)
    (log : list pystr) :
  get_scheduler_layout conn = Return rows ->
  Forall affinity_record rows ->
  Forall (fun row => is_visible row = true) rows ->
  offline ∈ rows -> offline !! py "cpu_id" = Some cpu ->
  (forall (row : gmap pystr value) (c : value),
     row ∈ rows -> is_online row = true -> row !! py "cpu_id" = Some c ->
     py_eqb cpu c = false) ->
  check_affinity_config conn log
  = (Return tt, log ++ [affinity_warn_line; missing_cpus_line []]).
Proof.
  intros Hs Hrows Hvis Hoff Hcpu Hfresh.
  rewrite (check_affinity_config_run conn rows log Hs Hrows). cbv zeta.
  assert (List.filter is_visible rows = rows) as ->.
  { clear -Hvis. induction Hvis as [|row rows Hrow _ IH]; [reflexivity|].
    cbn [List.filter]. by rewrite Hrow, IH. }
  set (ids := fun l : list (gmap pystr value) =>
                omap (fun row : gmap pystr value => row !! py "cpu_id") l).
  assert (Hids : forall l c, c ∈ ids l <->
                   exists row : gmap pystr value, row ∈ l /\ row !! py "cpu_id" = Some c).
  { intros l c. unfold ids. rewrite list_elem_of_omap. reflexivity. }
  assert (Hneq : set_neqb (set_of_list (ids rows))
                   (set_of_list (ids (List.filter is_online rows))) = true).
  { unfold set_neqb. apply negb_true_iff, andb_false_iff. left.
    apply not_true_iff_false. intros Hall. rewrite forallb_forall in Hall.
    destruct (set_of_list_spec (ids rows)) as (_ & _ & Hcov).
    assert (Hin : cpu ∈ ids rows) by (apply Hids; eauto).
    apply Hcov, set_mem_true in Hin as (x & Hx & Hcx).
    apply list_elem_of_In, Hall, set_mem_set_of_list in Hx as (w & Hw & Hxw).
    apply Hids in Hw as (row & Hrow & Hc).
    apply list_elem_of_In, filter_In in Hrow as [Hrow Hon]. apply list_elem_of_In in Hrow.
    pose proof (Hfresh row w Hrow Hon Hc) as Hf.
    by rewrite (py_eqb_trans cpu x w Hcx Hxw) in Hf. }
  unfold ids in Hneq, Hids. cbv beta in Hneq, Hids. clear ids. rewrite Hneq.
  set (ids := fun l : list (gmap pystr value) =>
                omap (fun row : gmap pystr value => row !! py "cpu_id") l) in Hids.
  change (omap (fun row : gmap pystr value => row !! py "cpu_id") ?l) with (ids l).
  assert (set_diff (set_of_list (ids (List.filter is_online rows)))
            (set_of_list (ids rows)) = []) as ->; [|reflexivity].
  unfold set_diff. apply filter_none.
  intros v Hv. rewrite negb_false_iff.
  apply set_mem_set_of_list. exists v. split; [|apply py_eqb_refl].
  apply list_elem_of_In in Hv.
  destruct (set_of_list_spec (ids (List.filter is_online rows))) as (_ & Hsub & _).
  apply Hsub, Hids in Hv as (row & Hrow & Hc).
  apply list_elem_of_In, filter_In in Hrow as [Hrow _]. apply list_elem_of_In in Hrow.
  apply Hids. eauto.
Qed.

Lemma check_affinity_config_agreeing_records_witness :
  run (check_affinity_config Fixtures.unbalanced_server)
  = (Return tt, [affinity_ok_line]).
Proof.
  destruct (returned_value (get_scheduler_layout Fixtures.unbalanced_server))
    as [rows Hs]; [vm_compute; reflexivity|].
  destruct (query_dict_returns _ _ _ Hs) as (rs & Hrs & Hrows).
  vm_compute in Hrs. inversion Hrs; subst rs; clear Hrs.
  cbn [description fetchall map] in Hrows. rewrite Hrows in Hs.
  unfold run.
  apply (check_affinity_config_agreeing_records _ _ [] Hs).
  - repeat (apply Forall_cons_2 || apply Forall_nil_2);
      (split; [|split]); vm_compute; eauto.
  - repeat (apply Forall_cons_2 || apply Forall_nil_2); vm_compute; reflexivity.
Defined.

Lemma check_affinity_config_offline_visible_cpu_witness :
  run (check_affinity_config Fixtures.first_offline_server)
  = (Return tt, [affinity_warn_line; missing_cpus_line []]).
Proof.
  destruct (returned_value (get_scheduler_layout Fixtures.first_offline_server))
    as [rows Hs]; [vm_compute; reflexivity|].
  destruct (query_dict_returns _ _ _ Hs) as (rs & Hrs & Hrows).
  vm_compute in Hrs. inversion Hrs; subst rs; clear Hrs.
  cbn [description fetchall map] in Hrows. rewrite Hrows in Hs.
  unfold run.
  eapply (check_affinity_config_offline_visible_cpu _ _ _ (VInt 0) [] Hs).
  - repeat (apply Forall_cons_2 || apply Forall_nil_2);
      (split; [|split]); vm_compute; eauto.
  - repeat (apply Forall_cons_2 || apply Forall_nil_2); vm_compute; reflexivity.
  - apply list_elem_of_here.
  - vm_compute. reflexivity.
  - intros row c Hrow Hon Hc.
    apply elem_of_cons in Hrow as [->|Hrow].
    + vm_compute in Hon. discriminate Hon.
    + apply elem_of_cons in Hrow as [->|Hrow]; [|by apply elem_of_nil in Hrow].
      vm_compute in Hc. inversion Hc. reflexivity.
Defined.

End Affinity.

(** ** validate_numa_layout, on every data source *)

Section LayoutVerdicts.
Import NumaChecker.

(** The loop emits nothing; when it ends, [cpu] and [is_online] are both
    bound, or the record set was empty and both are still unbound. *)
Lemma layout_loop_silent (rows : list (gmap pystr value))
    (st : option value * option value) (log : list pystr) :
  (exists e, for_in rows layout_loop_body st log = (Raise e, log))
  \/ (rows = [] /\ for_in rows layout_loop_body st log = (Return (Continue st), log))
  \/ (exists cpu is_online : value,
        rows <> []
        /\ for_in rows layout_loop_body st log
           = (Return (Continue (Some cpu, Some is_online)), log)).
Proof.
  revert st. induction rows as [|row rows IH]; intros st.
  - right. left. split; reflexivity.
  - rewrite for_in_cons. unfold layout_loop_body at 1 3 5, getitem.
    destruct (row !! py "cpu_id") as [c|]; step_check; [|left; eauto].
    destruct (row !! py "is_online") as [o|]; step_check; [|left; eauto].
    destruct (IH (Some c, Some o)) as [[e He]|[[-> He]|(c' & o' & _ & He)]].
    + left. eauto.
    + right. right. exists c, o. split; [discriminate|exact He].
    + right. right. exists c', o'. split; [discriminate|exact He].
Qed.

(** X7. Whatever the data source, [validate_numa_layout] has three
    outcomes only: it raises without a line (the fetch failed, a record
    lacks a column, or there is no record and [is_online] is unbound),
    or it reports balance followed by "all online", or balance followed
    by one offline CPU.  It never reports an imbalance and never names
    more than one offline CPU. *)
Theorem validate_numa_layout_three_outcomes (conn : Connection) (log : list pystr) :
  ((exists e, validate_numa_layout conn log = (Raise e, log))
   \/ validate_numa_layout conn log = (Return tt, log ++ [balanced_line; all_online_line])
   \/ (exists cpu : value,
         validate_numa_layout conn log
         = (Return tt, log ++ [balanced_line; offline_line [cpu]])))
  /\ (get_scheduler_layout conn = Return [] ->
      validate_numa_layout conn log = (Raise (UnboundLocalError (py "is_online")), log))
  /\ (forall e, get_scheduler_layout conn = Raise e ->
      validate_numa_layout conn log = (Raise e, log)).
Proof.
  unfold validate_numa_layout.
  destruct (get_scheduler_layout conn) as [rows|e]; step_check.
  2:{ split; [left; eauto|]. split; [discriminate|]. by intros ? [= ->]. }
  split; [|split; [|discriminate]].
  - remember (bind (for_in rows layout_loop_body (None, None)) _ log) as result eqn:Hr.
    unfold bind at 1 in Hr.
    destruct (layout_loop_silent rows (None, None) log)
      as [[e He]|[[-> He]|(cpu & is_online & _ & He)]]; rewrite He in Hr.
    + left. eauto.
    + left. cbn [locals_of local] in Hr. step_check_in Hr. eauto.
    + right. cbn [locals_of local] in Hr. step_check_in Hr.
      destruct (py_eqb is_online (VInt 0)); cbn [local] in Hr; step_check_in Hr;
        cbn [set_of_list map fold_left length] in Hr;
        (destruct (decide (1 < 0)%nat); [lia|]); step_check_in Hr;
        change ([] ++ [cpu]) with [cpu] in Hr; unfold out in Hr;
        rewrite <- ?app_assoc in Hr.
      * right. exists cpu. exact Hr.
      * left. exact Hr.
  - intros [= ->]. reflexivity.
Qed.

End LayoutVerdicts.

(** ** get_memory_config and validate_memory_config, on every data source *)

Section MemoryFetch.
Import NumaChecker.

(** The fetch stores min, max, total and available in that order: what
    it leaves is a prefix of the four settings, complete only when no
    step raised; total and available are integers. *)
Lemma fill_memory_config_prefix (conn : Connection) :
  exists (o : outcome unit) (stored : list (string * value)),
    fill_memory_config conn = (o, memory_settings stored)
    /\ stored.*1 = take (length stored) memory_keys
    /\ (length stored = 4%nat -> o = Return tt)
    /\ (o = Return tt -> (2 <= length stored)%nat /\ length stored <> 3%nat)
    /\ (forall (i : nat) (v : value),
          (2 <= i)%nat -> stored.*2 !! i = Some v -> exists z : Z, v = VInt z).
Proof.
  unfold fill_memory_config.
  repeat match goal with
         | |- context [and_then ?o _ _] =>
             let H := fresh "H" in destruct o eqn:H; cbn [and_then]
         | |- context [fetchone ?rs] =>
             let H := fresh "H" in destruct (fetchone rs) as [[|? ?]|] eqn:H
         end.
  all: unfold kb_to_mb, row_index in *.
  all: repeat match goal with
         | H : obind ?o _ = _ |- _ =>
             let E := fresh "E" in destruct o eqn:E; cbn [obind] in H; try discriminate H
         | H : match as_num ?v with _ => _ end = _ |- _ =>
             let E := fresh "E" in destruct (as_num v) eqn:E; try discriminate H
         | H : Return _ = Return _ |- _ => injection H as <-
         end.
  all: match goal with
       | |- context [(_, <[_ := ?d]> (<[_ := ?c]> (<[_ := ?b]> (<[_ := ?a]> ∅))))] =>
           eexists; exists [("min_server_memory_mb", a); ("max_server_memory_mb", b);
                            ("total_physical_memory_mb", c);
                            ("available_physical_memory_mb", d)]%string
       | |- context [(_, <[_ := ?c]> (<[_ := ?b]> (<[_ := ?a]> ∅)))] =>
           eexists; exists [("min_server_memory_mb", a); ("max_server_memory_mb", b);
                            ("total_physical_memory_mb", c)]%string
       | |- context [(_, <[_ := ?b]> (<[_ := ?a]> ∅))] =>
           eexists; exists [("min_server_memory_mb", a); ("max_server_memory_mb", b)]%string
       | |- context [(_, <[_ := ?a]> ∅)] =>
           eexists; exists [("min_server_memory_mb", a)]%string
       | |- _ => eexists; exists []
       end.
  all: split; [reflexivity|]; split; [reflexivity|]; cbn [length].
  all: split; [intros; first [reflexivity | lia]|].
  all: split; [intros; first [discriminate | lia]|].
  all: intros [|[|[|[|?]]]] ? Hi Hv; cbn in Hv; try lia; try discriminate Hv;
         injection Hv as <-; eauto.
Qed.

(** X8. [get_memory_config] never raises.  It stores min, max, total
    and available in that order, so the dictionary it returns holds a
    prefix of the four settings; the dictionary is complete only when
    no step failed, a fetch without failure leaves two settings (the
    memory view had no row) or four, total and available are integers,
    and the error line is emitted exactly when a step failed. *)
Theorem get_memory_config_stores_a_prefix (conn : Connection) (log : list pystr) :
  exists (stored : list (string * value)) (failed : bool),
    get_memory_config conn log
    = (Return (memory_settings stored),
       log ++ (if failed then [unable_memory_line] else []))
    /\ failed = negb (returned (fill_memory_config conn).1)
    /\ stored.*1 = take (length stored) memory_keys
    /\ (length stored = 4%nat -> failed = false)
    /\ (failed = false -> length stored = 2%nat \/ length stored = 4%nat)
    /\ (forall (i : nat) (v : value),
          (2 <= i)%nat -> stored.*2 !! i = Some v -> exists z : Z, v = VInt z).
Proof.
  destruct (fill_memory_config_prefix conn) as (o & stored & Hfill & Hkeys & Hfull & Hok & Hint).
  exists stored, (negb (returned o)).
  unfold get_memory_config. rewrite Hfill. cbn [fst].
  assert (Hlen : (length stored <= 4)%nat).
  { rewrite <- (length_fmap fst), Hkeys, length_take. cbn [length memory_keys]. lia. }
  destruct o as [[]|e]; cbn [returned negb]; step_check.
  - unfold ret. rewrite app_nil_r. repeat split; try done.
    intros _. destruct (Hok eq_refl). lia.
  - repeat split; try done.
    intros H4. by specialize (Hfull H4).
Qed.

(** The quarter of the maximum is taken in floating point: from 2^53
    on, the maximum is rounded before it is compared. *)
Example lt_quarter_rounds_the_maximum :
  lt_quarter (VInt (2 ^ 53)) (VInt (2 ^ 55 + 4)) = Return false
  /\ (4 * 2 ^ 53 <? 2 ^ 55 + 4) = true
  /\ lt_quarter (VInt 0) (VInt (2 ^ 1024)) = Raise OverflowError.
Proof. split; [|split]; vm_compute; reflexivity. Qed.

Ltac py_neq := let H := fresh in intros H; vm_compute in H; discriminate H.

(** Looking a setting up in a dictionary built by successive stores. *)
Ltac settings_lookup :=
  repeat match goal with
         | |- <[py ?a := ?v]> ?m !! py ?b = _ =>
             first [ constr_eq a b; exact (lookup_insert_eq m (py a) v)
                   | rewrite (lookup_insert_ne m (py a) (py b) v) by py_neq ]
         | |- ∅ !! ?k = _ => exact (lookup_empty k)
         end.

Lemma memory_settings_lookup (stored : list (string * value)) (i : nat) (k : string) :
  stored.*1 = take (length stored) memory_keys ->
  memory_keys !! i = Some k ->
  memory_settings stored !! py k = stored.*2 !! i.
Proof.
  intros Hkeys Hk.
  destruct stored as [|[k1 v1] [|[k2 v2] [|[k3 v3] [|[k4 v4] [|? ?]]]]];
    cbn [fmap list_fmap fst length take memory_keys] in Hkeys; try discriminate Hkeys.
  - destruct i as [|[|[|[|i]]]]; cbn in Hk; try discriminate Hk; injection Hk as <-;
      unfold memory_settings; cbn [fold_left fst snd fmap list_fmap lookup list_lookup];
      settings_lookup.
  - injection Hkeys as ->.
    destruct i as [|[|[|[|i]]]]; cbn in Hk; try discriminate Hk; injection Hk as <-;
      unfold memory_settings; cbn [fold_left fst snd fmap list_fmap lookup list_lookup];
      settings_lookup.
  - injection Hkeys as -> ->.
    destruct i as [|[|[|[|i]]]]; cbn in Hk; try discriminate Hk; injection Hk as <-;
      unfold memory_settings; cbn [fold_left fst snd fmap list_fmap lookup list_lookup];
      settings_lookup.
  - injection Hkeys as -> -> ->.
    destruct i as [|[|[|[|i]]]]; cbn in Hk; try discriminate Hk; injection Hk as <-;
      unfold memory_settings; cbn [fold_left fst snd fmap list_fmap lookup list_lookup];
      settings_lookup.
  - injection Hkeys as -> -> -> ->.
    destruct i as [|[|[|[|i]]]]; cbn in Hk; try discriminate Hk; injection Hk as <-;
      unfold memory_settings; cbn [fold_left fst snd fmap list_fmap lookup list_lookup];
      settings_lookup.
Qed.

(** X9. [validate_memory_config] completes on nothing or on everything:
    when it returns, either the fetch left an empty dictionary and the
    only line is that of the failed fetch, or the fetch went through
    with the four settings, minimum and maximum are numbers, the
    maximum converts to a float, and the report holds the header, the
    four settings and the two verdicts.  The first verdict compares the
    integers; the second compares the minimum with the quarter of the
    maximum as a float, which is the maximum itself below 2^53 and its
    rounding to 53 bits from there on.  Every partly filled dictionary
    makes it raise. *)
Theorem validate_memory_config_nothing_or_everything (conn : Connection)
    (log log' : list pystr) :
  validate_memory_config conn log = (Return tt, log') ->
  ((fill_memory_config conn).2 = ∅ /\ log' = log ++ [unable_memory_line])
  \/ exists (mn mx : value) (total available qmn qmx f : Z),
       fill_memory_config conn
       = (Return tt,
          memory_settings [("min_server_memory_mb", mn); ("max_server_memory_mb", mx);
                           ("total_physical_memory_mb", VInt total);
                           ("available_physical_memory_mb", VInt available)]%string)
       /\ as_num mn = Some qmn /\ as_num mx = Some qmx
       /\ float_of_int qmx = Return f
       /\ f = Z.sgn qmx * round53 (Z.abs qmx)
       /\ (Z.abs qmx < 2 ^ 53 -> f = qmx)
       /\ log' = log ++ [memory_header_line]
                     ++ memory_value_lines (VInt total) (VInt available) mn mx
                     ++ [if total <? qmx then starvation_warn_line else fits_ok_line;
                         if 4 * qmn <? f then ramp_up_warn_line else ratio_ok_line].
Proof.
  destruct (fill_memory_config_prefix conn)
    as (o & stored & Hfill & Hkeys & Hfull & Hok & Hint).
  pose proof (fun i k => memory_settings_lookup stored i k Hkeys) as Hlook.
  rewrite Hfill. cbn [snd].
  unfold validate_memory_config, get_memory_config. rewrite Hfill.
  remember (memory_settings stored) as mem eqn:Hmem.
  intros H.
  destruct (decide (mem = ∅)) as [Hempty|Hne].
  - left. split; [exact Hempty|].
    destruct o as [[]|e].
    + destruct (Hok eq_refl) as [H2 _].
      pose proof (Hlook 0%nat "min_server_memory_mb"%string eq_refl) as L.
      rewrite Hempty, lookup_empty in L.
      destruct stored; cbn in H2, L; [lia|discriminate L].
    + step_check_in H. case_decide; [|done]. unfold ret in H. by injection H as <-.
  - right.
    destruct o as [[]|e]; step_check_in H; (case_decide; [done|]);
      step_check_in H; unfold getitem in H.
    all: destruct (mem !! py "total_physical_memory_mb") as [t|] eqn:Ht;
      step_check_in H; [|discriminate H].
    all: destruct (mem !! py "available_physical_memory_mb") as [a|] eqn:Ha;
      step_check_in H; [|discriminate H].
    all: destruct (mem !! py "min_server_memory_mb") as [mn|] eqn:Hmn;
      step_check_in H; [|discriminate H].
    all: destruct (mem !! py "max_server_memory_mb") as [mx|] eqn:Hmx;
      step_check_in H; [|discriminate H].
    all: rewrite (Hlook 3%nat "available_physical_memory_mb"%string eq_refl) in Ha.
    all: rewrite (Hlook 2%nat "total_physical_memory_mb"%string eq_refl) in Ht.
    all: rewrite (Hlook 1%nat "max_server_memory_mb"%string eq_refl) in Hmx.
    all: rewrite (Hlook 0%nat "min_server_memory_mb"%string eq_refl) in Hmn.
    all: destruct stored as [|[k1 v1] [|[k2 v2] [|[k3 v3] [|[k4 v4] [|? ?]]]]];
      cbn [fmap list_fmap fst snd length take memory_keys lookup list_lookup]
        in Hkeys, Ha, Ht, Hmx, Hmn;
      try discriminate Ha; try discriminate Hkeys.
    all: injection Hkeys as -> -> -> ->.
    all: injection Ha as ->; injection Ht as ->; injection Hmx as ->; injection Hmn as ->.
    all: pose proof (Hfull eq_refl) as Ho; try discriminate Ho.
    destruct (Hint 2%nat t) as [total ->]; [lia|reflexivity|].
    destruct (Hint 3%nat a) as [available ->]; [lia|reflexivity|].
    unfold py_gtb, py_ltb in H. cbn [as_num] in H.
    destruct (as_num mx) as [qmx|] eqn:Hqmx.
    2:{ destruct mx; cbn in Hqmx; try discriminate Hqmx; step_check_in H; discriminate H. }
    step_check_in H.
    destruct (float_of_int qmx) as [f|e] eqn:Hf.
    2:{ unfold lt_quarter in H. rewrite Hqmx, Hf in H. cbn [obind] in H.
        destruct (total <? qmx); step_check_in H; discriminate H. }
    destruct (as_num mn) as [qmn|] eqn:Hqmn.
    2:{ unfold lt_quarter in H. rewrite Hqmx, Hf in H. cbn [obind] in H.
        cbv zeta in H. rewrite Hqmn in H.
        destruct (total <? qmx); step_check_in H; discriminate H. }
    rewrite (lt_quarter_numbers mn mx qmn qmx f Hqmn Hqmx Hf) in H.
    exists mn, mx, total, available, qmn, qmx, f.
    split; [by rewrite Hmem|]. split; [exact Hqmn|]. split; [exact Hqmx|].
    split; [exact Hf|].
    split.
    { unfold float_of_int in Hf.
      destruct (2 ^ 1024 <=? round53 (Z.abs qmx)); [discriminate Hf|].
      by injection Hf as <-. }
    split.
    { intros Hsmall. rewrite (float_of_int_small qmx Hsmall) in Hf. by injection Hf as <-. }
    destruct (total <? qmx); step_check_in H; destruct (4 * qmn <? f);
      step_check_in H; unfold out in H; injection H as <-;
      unfold memory_value_lines, memory_header_line; rewrite <- ?app_assoc; reflexivity.
Qed.

Lemma validate_memory_config_nothing_or_everything_witness :
  exists (mn mx : value) (total available qmn qmx f : Z),
    fill_memory_config Fixtures.oversized_memory_server
    = (Return tt,
       memory_settings [("min_server_memory_mb", mn); ("max_server_memory_mb", mx);
                        ("total_physical_memory_mb", VInt total);
                        ("available_physical_memory_mb", VInt available)]%string)
    /\ as_num mn = Some qmn /\ as_num mx = Some qmx
    /\ float_of_int qmx = Return f.
Proof.
  destruct (validate_memory_config_nothing_or_everything
              Fixtures.oversized_memory_server [] _ validate_memory_config_oversized)
    as [[_ H]|(mn & mx & total & available & qmn & qmx & f & Hfill & Hmn & Hmx & Hf & _)].
  - vm_compute in H. discriminate H.
  - exists mn, mx, total, available, qmn, qmx, f. auto.
Defined.

End MemoryFetch.

(** ** The checks only append to the report *)

Section Frame.
Import NumaChecker.

Lemma framed_ret {A} (a : A) : framed (ret a).
Proof. intros log. unfold ret. cbn. by rewrite app_nil_r. Qed.

Lemma framed_raise {A} (e : exn) : framed (@raise A e).
Proof. intros log. unfold raise. cbn. by rewrite app_nil_r. Qed.

Lemma framed_lift {A} (o : outcome A) : framed (lift o).
Proof. intros log. unfold lift. cbn. by rewrite app_nil_r. Qed.

Lemma framed_out (msg : pystr) : framed (out msg).
Proof. intros log. reflexivity. Qed.

Lemma framed_bind {A B} (m : M A) (k : A -> M B) :
  framed m -> (forall a, framed (k a)) -> framed (bind m k).
Proof.
  intros Hm Hk log. unfold bind. rewrite (Hm log).
  destruct (m []) as [[a|e] l0]; cbn [fst snd]; [|reflexivity].
  rewrite (Hk a (log ++ l0)), (Hk a l0). cbn [fst snd]. by rewrite app_assoc.
Qed.

Lemma framed_try_except {A} (m : M A) (handler : exn -> M A) :
  framed m -> (forall e, framed (handler e)) -> framed (try_except m handler).
Proof.
  intros Hm Hh log. unfold try_except. rewrite (Hm log).
  destruct (m []) as [[a|e] l0]; cbn [fst snd]; [reflexivity|].
  rewrite (Hh e (log ++ l0)), (Hh e l0). cbn [fst snd]. by rewrite app_assoc.
Qed.

Lemma framed_for_in {A S} (xs : list A) (body : A -> S -> M (flow S)) (s : S) :
  (forall x s', framed (body x s')) -> framed (for_in xs body s).
Proof.
  intros Hbody. revert s. induction xs as [|x xs IH]; intros s; cbn [for_in].
  - apply framed_ret.
  - apply framed_bind; [apply Hbody|]. intros [s'|s']; [apply IH|apply framed_ret].
Qed.

Lemma framed_for_each {A} (xs : list A) (body : A -> M unit) :
  (forall x, framed (body x)) -> framed (for_each xs body).
Proof.
  intros Hbody. induction xs as [|x xs IH]; cbn [for_each].
  - apply framed_ret.
  - apply framed_bind; [apply Hbody|]. intros _. apply IH.
Qed.

(** A framed computation is determined by its run from the empty report. *)
Lemma framed_run {A} (m : M A) (log : list pystr) (o : outcome A) (lines : list pystr) :
  framed m -> run m = (o, lines) -> m log = (o, log ++ lines).
Proof. intros Hm Hrun. rewrite (Hm log). unfold run in Hrun. by rewrite Hrun. Qed.

End Frame.

Ltac frame :=
  repeat match goal with
         | H : framed ?m |- framed ?m => exact H
         | |- framed (ret _) => apply framed_ret
         | |- framed (raise _) => apply framed_raise
         | |- framed (lift _) => apply framed_lift
         | |- framed (out _) => apply framed_out
         | |- framed (bind _ _) => apply framed_bind; [|intros ?]
         | |- framed (try_except _ _) => apply framed_try_except; [|intros ?]
         | |- framed (for_in _ _ _) => apply framed_for_in; intros ? ?
         | |- framed (for_each _ _) => apply framed_for_each; intros ?
         | |- framed (if ?b then _ else _) => destruct b
         | |- framed (match ?x with _ => _ end) => destruct x
         end.

Section FramedChecks.
Import NumaChecker.

Lemma framed_get_system_specs (conn : Connection) : framed (get_system_specs conn).
Proof. unfold get_system_specs. frame. Qed.

Lemma framed_validate_numa_layout (conn : Connection) :
  framed (validate_numa_layout conn).
Proof. unfold validate_numa_layout, layout_loop_body. cbv zeta. frame. Qed.

Lemma framed_validate_memory_alignment (conn : Connection) :
  framed (validate_memory_alignment conn).
Proof.
  unfold validate_memory_alignment, alignment_loop, alignment_loop_body. cbv zeta. frame.
Qed.

Lemma framed_recommend_maxdop (conn : Connection) : framed (recommend_maxdop conn).
Proof. unfold recommend_maxdop. cbv zeta. frame. Qed.

Lemma framed_get_memory_config (conn : Connection) : framed (get_memory_config conn).
Proof. unfold get_memory_config. frame. Qed.

Lemma framed_validate_memory_config (conn : Connection) :
  framed (validate_memory_config conn).
Proof.
  unfold validate_memory_config.
  apply framed_bind; [apply framed_get_memory_config|]. intros mem. frame.
Qed.

Lemma framed_check_affinity_config (conn : Connection) :
  framed (check_affinity_config conn).
Proof. unfold check_affinity_config. cbv zeta. frame. Qed.

Lemma framed_detect_virtual_environment (host : Host) :
  framed (detect_virtual_environment host).
Proof. unfold detect_virtual_environment. cbv zeta. frame. Qed.

Lemma framed_run_all_diagnostics (conn : Connection) (host : Host)
    (check_socket_layout check_virtual_hardware analyze_sql_workload : M unit) :
  framed check_socket_layout -> framed check_virtual_hardware ->
  framed analyze_sql_workload ->
  framed (run_all_diagnostics conn host check_socket_layout check_virtual_hardware
            analyze_sql_workload).
Proof.
  intros H1 H2 H3. unfold run_all_diagnostics.
  repeat match goal with
         | H : framed ?m |- framed ?m => exact H
         | |- framed (out _) => apply framed_out
         | |- framed (bind _ _) => apply framed_bind; [|intros ?]
         | |- framed (get_system_specs _) => apply framed_get_system_specs
         | |- framed (validate_numa_layout _) => apply framed_validate_numa_layout
         | |- framed (validate_memory_alignment _) =>
             apply framed_validate_memory_alignment
         | |- framed (recommend_maxdop _) => apply framed_recommend_maxdop
         | |- framed (validate_memory_config _) => apply framed_validate_memory_config
         | |- framed (check_affinity_config _) => apply framed_check_affinity_config
         | |- framed (detect_virtual_environment _) =>
             apply framed_detect_virtual_environment
         end.
Qed.

End FramedChecks.

(** ** check_virtual_hardware *)

Section Hardware.
Import HostChecks.

Lemma framed_check_virtual_hardware (host : Host) (upper : pystr -> pystr) :
  framed (check_virtual_hardware host upper).
Proof. unfold check_virtual_hardware. frame. Qed.

(** The check, section by section. *)
Lemma check_virtual_hardware_sections_aux (host : Host) (upper : pystr -> pystr)
    (log : list pystr) :
  exists lines : list pystr,
    check_virtual_hardware host upper log
    = (Return tt, log ++ hardware_header_line :: lines)
    /\ (1 <= length lines <= 6)%nat
    /\ (forall e, getoutput host disk_command = Raise e ->
          lines = [hardware_error_line])
    /\ (forall disk e,
          getoutput host disk_command = Return disk ->
          getoutput host nic_command = Raise e ->
          lines = [disk_header_line] ++ disk_verdict disk ++ [hardware_error_line])
    /\ (forall disk nic,
          getoutput host disk_command = Return disk ->
          getoutput host nic_command = Return nic ->
          lines = [disk_header_line] ++ disk_verdict disk ++ [nic_header_line]
                  ++ (if str_in (py "VMXNET3") (upper nic)
                      then [vmxnet_ok_line] else [vmxnet_warn_line; nic])).
Proof.
  unfold check_virtual_hardware, try_except. step_check.
  destruct (getoutput host disk_command) as [disk|e] eqn:Hdisk; step_check.
  2:{ exists [hardware_error_line]. unfold out. rewrite <- app_assoc.
      split; [reflexivity|]. split; [cbn [length]; lia|].
      split; [reflexivity|]. split; intros; discriminate. }
  assert (Hlen : (1 <= length (disk_verdict disk) <= 2)%nat).
  { unfold disk_verdict. destruct (str_in (py "SCSI") disk); cbn [length]; lia. }
  destruct (getoutput host nic_command) as [nic|e] eqn:Hnic.
  - exists ([disk_header_line] ++ disk_verdict disk ++ [nic_header_line]
            ++ (if str_in (py "VMXNET3") (upper nic)
                then [vmxnet_ok_line] else [vmxnet_warn_line; nic])).
    split.
    { unfold disk_verdict.
      destruct (str_in (py "SCSI") disk); step_check;
        destruct (str_in (py "VMXNET3") (upper nic)); step_check;
        unfold out; rewrite <- ?app_assoc; reflexivity. }
    split.
    { rewrite !length_app. cbn [length].
      destruct (str_in (py "VMXNET3") (upper nic)); cbn [length]; lia. }
    split; [intros; discriminate|]. split; [intros; discriminate|].
    intros ? ? [= <-] [= <-]. reflexivity.
  - exists ([disk_header_line] ++ disk_verdict disk ++ [hardware_error_line]).
    split.
    { unfold disk_verdict.
      destruct (str_in (py "SCSI") disk); step_check;
        unfold out; rewrite <- ?app_assoc; reflexivity. }
    split; [rewrite !length_app; cbn [length]; lia|].
    split; [intros; discriminate|]. split; [|intros; discriminate].
    intros ? ? [= <-] _. reflexivity.
Qed.

(** X10. [check_virtual_hardware] never raises and always starts with
    its header.  A failed disk probe leaves the error line alone; a
    failed adapter probe leaves the disk section followed by the error
    line; otherwise both sections are reported.  The output of a probe
    is echoed only when its marker is missing. *)
Theorem check_virtual_hardware_sections (host : Host) (upper : pystr -> pystr)
    (log : list pystr) :
  exists lines : list pystr,
    check_virtual_hardware host upper log
    = (Return tt, log ++ hardware_header_line :: lines)
    /\ (1 <= length lines <= 6)%nat
    /\ (forall e, getoutput host disk_command = Raise e ->
          lines = [hardware_error_line])
    /\ (forall disk e,
          getoutput host disk_command = Return disk ->
          getoutput host nic_command = Raise e ->
          lines = [disk_header_line] ++ disk_verdict disk ++ [hardware_error_line])
    /\ (forall disk nic,
          getoutput host disk_command = Return disk ->
          getoutput host nic_command = Return nic ->
          lines = [disk_header_line] ++ disk_verdict disk ++ [nic_header_line]
                  ++ (if str_in (py "VMXNET3") (upper nic)
                      then [vmxnet_ok_line] else [vmxnet_warn_line; nic])).
Proof. apply check_virtual_hardware_sections_aux. Qed.

Lemma occurs_in_map (f : N -> N) (needle hay : pystr) :
  occurs_in needle (map f hay)
  <-> exists spelled : pystr, occurs_in spelled hay /\ map f spelled = needle.
Proof.
  split.
  - intros (pre & suf & H).
    apply List.map_eq_app in H as (pre' & rest & -> & <- & H).
    apply List.map_eq_app in H as (v & suf' & -> & <- & <-).
    exists v. split; [|reflexivity]. by exists pre', suf'.
  - intros (v & (pre & suf & ->) & <-).
    exists (map f pre), (map f suf). by rewrite !List.map_app.
Qed.

Lemma is_asciib_true (s : pystr) : is_asciib s = true -> is_ascii s.
Proof.
  unfold is_asciib, is_ascii. rewrite forallb_forall, List.Forall_forall.
  intros H c Hc. by apply N.ltb_lt, H.
Qed.

(** X11. On ASCII output of the adapter probe the test for VMXNET3 does
    not depend on the case of the letters: the ok line is emitted
    exactly when some spelling of the word occurs in the output.  The
    test for SCSI does: the ok line needs the word in capitals. *)
Theorem check_virtual_hardware_vmxnet_any_case (host : Host)
    (upper : pystr -> pystr) (disk nic : pystr) (log : list pystr) :
  upper_on_ascii upper ->
  getoutput host disk_command = Return disk ->
  getoutput host nic_command = Return nic ->
  is_ascii nic ->
  exists verdict : list pystr,
    check_virtual_hardware host upper log
    = (Return tt,
       log ++ [hardware_header_line; disk_header_line] ++ disk_verdict disk
           ++ [nic_header_line] ++ verdict)
    /\ ((exists spelled : pystr,
           occurs_in spelled nic /\ spelling_of (py "VMXNET3") spelled)
        -> verdict = [vmxnet_ok_line])
    /\ (~ (exists spelled : pystr,
             occurs_in spelled nic /\ spelling_of (py "VMXNET3") spelled)
        -> verdict = [vmxnet_warn_line; nic])
    /\ (disk_verdict disk = [scsi_ok_line] <-> occurs_in (py "SCSI") disk).
Proof.
  intros Hupper Hdisk Hnic Hascii.
  destruct (check_virtual_hardware_sections_aux host upper log)
    as (lines & Hrun & _ & _ & _ & Hboth).
  rewrite Hrun, (Hboth disk nic Hdisk Hnic). clear Hrun Hboth.
  rewrite (Hupper nic Hascii).
  eexists. split; [cbn [app]; reflexivity|].
  unfold spelling_of. rewrite <- occurs_in_map, <- str_in_spec.
  destruct (str_in (py "VMXNET3") (map ascii_upper nic)).
  - split; [reflexivity|]. split; [intros H; by destruct H|].
    rewrite <- str_in_spec. unfold disk_verdict.
    destruct (str_in (py "SCSI") disk); split; done.
  - split; [intros [=]|]. split; [reflexivity|].
    rewrite <- str_in_spec. unfold disk_verdict.
    destruct (str_in (py "SCSI") disk); split; done.
Qed.

Lemma check_virtual_hardware_vmxnet_any_case_witness :
  exists verdict : list pystr,
    run (check_virtual_hardware (echo_host (py "Name: vmxnet3 Ethernet Adapter"))
           (map ascii_upper))
    = (Return tt,
       [hardware_header_line; disk_header_line]
         ++ disk_verdict (py "Name: vmxnet3 Ethernet Adapter")
         ++ [nic_header_line] ++ verdict)
    /\ ((exists spelled : pystr,
           occurs_in spelled (py "Name: vmxnet3 Ethernet Adapter")
           /\ spelling_of (py "VMXNET3") spelled)
        -> verdict = [vmxnet_ok_line]).
Proof.
  destruct (check_virtual_hardware_vmxnet_any_case
              (echo_host (py "Name: vmxnet3 Ethernet Adapter")) (map ascii_upper)
              (py "Name: vmxnet3 Ethernet Adapter")
              (py "Name: vmxnet3 Ethernet Adapter") [])
    as (verdict & Hrun & Hfound & _).
  - intros s _. reflexivity.
  - reflexivity.
  - reflexivity.
  - apply is_asciib_true. vm_compute. reflexivity.
  - exists verdict. split; [exact Hrun|exact Hfound].
Defined.

End Hardware.

(** ** analyze_sql_workload *)

Section WorkloadCheck.
Import Workload.

Lemma framed_analyze_sql_workload (conn : Connection) (AttributeError : pystr -> exn)
    (top_n : nat) :
  framed (analyze_sql_workload conn AttributeError top_n).
Proof.
  unfold analyze_sql_workload, report_request, report_grant. cbv zeta. frame.
Qed.

Lemma for_each_lines {A} (xs : list A) (body : A -> M unit) (f : A -> list pystr)
    (log : list pystr) :
  Forall (fun x => forall l, body x l = (Return tt, l ++ f x)) xs ->
  for_each xs body log = (Return tt, log ++ concat (map f xs)).
Proof.
  intros H. revert log. induction H as [|x xs Hx _ IH]; intros log; cbn [for_each map concat].
  - unfold ret. by rewrite app_nil_r.
  - unfold bind. rewrite Hx, IH. by rewrite app_assoc.
Qed.

Lemma for_each_stops {A} (xs ys : list A) (x : A) (body : A -> M unit)
    (f : A -> list pystr) (e : exn) (partial log : list pystr) :
  Forall (fun x => forall l, body x l = (Return tt, l ++ f x)) xs ->
  (forall l, body x l = (Raise e, l ++ partial)) ->
  for_each (xs ++ x :: ys) body log
  = (Raise e, log ++ concat (map f xs) ++ partial).
Proof.
  intros H Hx. revert log.
  induction H as [|x' xs Hx' _ IH]; intros log; cbn [for_each map concat app].
  - unfold bind. by rewrite Hx.
  - unfold bind. rewrite Hx', IH. by rewrite <- !app_assoc.
Qed.

Lemma report_request_complete (AttributeError : pystr -> exn) (columns : list pystr)
    (row : list value) (log : list pystr) :
  complete_request columns row ->
  report_request AttributeError columns row log
  = (Return tt, log ++ request_lines columns row).
Proof.
  intros (([v1 H1] & [v2 H2] & [v3 H3] & [v4 H4] & [v5 H5]) & [text Ht]).
  unfold request_lines, request_head_lines. rewrite Ht, H1, H2, H3, H4, H5.
  unfold statement_text in Ht.
  destruct (attribute columns row "sql_text") as [[| | |s]|] eqn:H6; try discriminate Ht.
  injection Ht as ->.
  unfold attribute in *. unfold report_request, getattr.
  rewrite H1. step_check. rewrite H2. step_check. rewrite H3. step_check.
  rewrite H4. step_check. rewrite H5. step_check. rewrite H6. step_check.
  cbn [slice_to shown default]. step_check.
  unfold out, statement_line. rewrite <- ?app_assoc. reflexivity.
Qed.

Lemma report_request_without_text (AttributeError : pystr -> exn)
    (columns : list pystr) (row : list value) (v : value) (log : list pystr) :
  printable_request columns row ->
  attribute columns row "sql_text" = Some v ->
  statement_text columns row = None ->
  report_request AttributeError columns row log
  = (Raise TypeError, log ++ request_head_lines columns row).
Proof.
  intros ([v1 H1] & [v2 H2] & [v3 H3] & [v4 H4] & [v5 H5]) H6 Ht.
  unfold request_head_lines. rewrite H1, H2, H3, H4, H5.
  unfold statement_text in Ht. rewrite H6 in Ht.
  unfold attribute in *. unfold report_request, getattr.
  rewrite H1. step_check. rewrite H2. step_check. rewrite H3. step_check.
  rewrite H4. step_check. rewrite H5. step_check. rewrite H6. step_check.
  destruct v; try discriminate Ht; cbn [slice_to shown]; step_check;
    rewrite <- ?app_assoc; reflexivity.
Qed.

Lemma report_grant_complete (AttributeError : pystr -> exn) (columns : list pystr)
    (row : list value) (log : list pystr) :
  complete_grant columns row ->
  report_grant AttributeError columns row log
  = (Return tt, log ++ [grant_line columns row]).
Proof.
  intros ([v1 H1] & [v2 H2]). unfold grant_line. rewrite H1, H2.
  unfold attribute in *. unfold report_grant, getattr.
  rewrite H1. step_check. rewrite H2. step_check. reflexivity.
Qed.

(** The check never raises. *)
Lemma analyze_sql_workload_returns (conn : Connection) (AttributeError : pystr -> exn)
    (top_n : nat) (log : list pystr) :
  exists lines : list pystr,
    analyze_sql_workload conn AttributeError top_n log = (Return tt, log ++ lines).
Proof.
  rewrite (framed_analyze_sql_workload conn AttributeError top_n log).
  destruct (try_except_out_returns
              (lift (conn_cursor conn) ;;;
               out (requests_header_line top_n) ;;;
               rs <- lift (conn_execute conn requests_query) ;;
               (match take top_n (fetchall rs) with
                | [] => out no_requests_line
                | _ :: _ => for_each (take top_n (fetchall rs))
                              (report_request AttributeError (description rs))
                end) ;;;
               out grants_header_line ;;;
               rs <- lift (conn_execute conn memory_grants_query) ;;
               match fetchall rs with
               | [] => out no_grants_line
               | _ :: _ => for_each (fetchall rs)
                             (report_grant AttributeError (description rs))
               end) workload_error_line []) as [log' H].
  unfold analyze_sql_workload. cbv zeta.
  unfold requests_header_line, no_requests_line, grants_header_line, no_grants_line,
    workload_error_line in H.
  rewrite H. cbn [fst snd]. eauto.
Qed.

Lemma try_except_bind_lift_return {A B} (a : A) (k : A -> M B) (h : exn -> M B)
    (log : list pystr) :
  try_except (bind (lift (Return a)) k) h log = try_except (k a) h log.
Proof. reflexivity. Qed.

Lemma try_except_bind_lift_raise {A B} (e : exn) (k : A -> M B) (h : exn -> M B)
    (log : list pystr) :
  try_except (bind (lift (@Raise A e)) k) h log = h e log.
Proof. reflexivity. Qed.

Lemma try_except_bind_out {B} (msg : pystr) (k : unit -> M B) (h : exn -> M B)
    (log : list pystr) :
  try_except (bind (out msg) k) h log = try_except (k tt) h (log ++ [msg]).
Proof. reflexivity. Qed.

(** A guarded computation that only appends returns, having appended. *)
Lemma try_except_framed (m : M unit) (msg : pystr) (log : list pystr) :
  framed m ->
  exists rest : list pystr,
    try_except m (fun _ => out msg) log = (Return tt, log ++ rest).
Proof.
  intros Hm. unfold try_except. rewrite (Hm log).
  destruct (m []) as [[[]|e] rest]; cbn [fst snd]; [eauto|].
  exists (rest ++ [msg]). unfold out. by rewrite app_assoc.
Qed.

(** X12. [analyze_sql_workload] never raises and always emits a line.
    When the cursor cannot be opened its only line is the error line
    (the check catches what [query_dict] lets through); once the cursor
    is open the first line is the header; when the request query fails
    the header is followed by the error line. *)
Theorem analyze_sql_workload_never_raises (conn : Connection)
    (AttributeError : pystr -> exn) (top_n : nat) (log : list pystr) :
  exists lines : list pystr,
    analyze_sql_workload conn AttributeError top_n log = (Return tt, log ++ lines)
    /\ lines <> []
    /\ (forall e, conn_cursor conn = Raise e -> lines = [workload_error_line])
    /\ (conn_cursor conn = Return tt ->
        head lines = Some (requests_header_line top_n))
    /\ (forall e, conn_cursor conn = Return tt ->
        conn_execute conn requests_query = Raise e ->
        lines = [requests_header_line top_n; workload_error_line]).
Proof.
  unfold analyze_sql_workload. cbv zeta.
  destruct (conn_cursor conn) as [[]|e] eqn:Hc.
  2:{ exists [workload_error_line]. split; [reflexivity|]. split; [discriminate|].
      split; [reflexivity|]. split; intros; discriminate. }
  rewrite try_except_bind_lift_return, try_except_bind_out.
  destruct (conn_execute conn requests_query) as [rs|e] eqn:Hq.
  2:{ exists [requests_header_line top_n; workload_error_line].
      rewrite try_except_bind_lift_raise. unfold out. rewrite <- app_assoc.
      split; [reflexivity|]. split; [discriminate|]. split; [discriminate|].
      split; reflexivity. }
  rewrite try_except_bind_lift_return.
  match goal with
  | |- context [try_except ?m _ (log ++ [?h])] =>
      destruct (try_except_framed m (py "❌ Error analyzing SQL workload.")
                  (log ++ [h])) as [rest Hm];
        [unfold report_request, report_grant; frame|]
  end.
  rewrite <- app_assoc in Hm. eexists (_ :: rest). split; [exact Hm|].
  split; [discriminate|]. split; [discriminate|]. split; [reflexivity|].
  intros; discriminate.
Qed.

Lemma statement_line_length (text : pystr) : (length (statement_line text) <= 161)%nat.
Proof.
  unfold statement_line. rewrite !length_app, length_take.
  replace (length (py " - SQL: ")) with 8%nat by (vm_compute; reflexivity).
  replace (length (py "...")) with 3%nat by (vm_compute; reflexivity). lia.
Qed.

Lemma requests_section_length (columns : list pystr) (rows : list (list value)) :
  length (requests_section columns rows) = Nat.max 1 (6 * length rows).
Proof.
  destruct rows as [|row rows]; [reflexivity|].
  unfold requests_section.
  assert (H : forall l : list (list value),
            length (concat (map (request_lines columns) l)) = (6 * length l)%nat).
  { induction l as [|r l IH]; [reflexivity|].
    cbn [map concat]. rewrite length_app, IH. cbn [length request_lines
      request_head_lines app]. lia. }
  rewrite H. cbn [length]. lia.
Qed.

(** X13. On a server that answers both statements with rows the report
    can print, [analyze_sql_workload] reports the first [top_n]
    requests, six lines each in the order fetched, then the memory
    grants, one line each; an empty result gives the ok line of its
    section.  The request section has at most [6 * top_n] lines (one
    when [top_n] is 0) and a statement is cut to its first 150
    characters, so no statement line exceeds 161. *)
Theorem analyze_sql_workload_report (conn : Connection) (AttributeError : pystr -> exn)
    (top_n : nat) (requests grants : ResultSet) (log : list pystr) :
  conn_cursor conn = Return tt ->
  conn_execute conn requests_query = Return requests ->
  conn_execute conn memory_grants_query = Return grants ->
  Forall (complete_request (description requests)) (take top_n (fetchall requests)) ->
  Forall (complete_grant (description grants)) (fetchall grants) ->
  analyze_sql_workload conn AttributeError top_n log
  = (Return tt,
     log ++ [requests_header_line top_n]
         ++ requests_section (description requests) (take top_n (fetchall requests))
         ++ [grants_header_line]
         ++ grants_section (description grants) (fetchall grants))
  /\ (length (requests_section (description requests) (take top_n (fetchall requests)))
      <= Nat.max 1 (6 * top_n))%nat
  /\ Forall (fun row =>
              exists text, statement_text (description requests) row = Some text
                /\ last (request_lines (description requests) row)
                   = Some (statement_line text)
                /\ (length (statement_line text) <= 161)%nat)
       (take top_n (fetchall requests)).
Proof.
  intros Hc Hq Hg Hrows Hgrants. split; [|split].
  - unfold analyze_sql_workload, try_except. cbv zeta. rewrite Hc, Hq, Hg. step_check.
    assert (Hreq : (match take top_n (fetchall requests) with
                    | [] => out (py "✅ No active long-running queries.")
                    | _ :: _ => for_each (take top_n (fetchall requests))
                                  (report_request AttributeError (description requests))
                    end) (log ++ [requests_header_line top_n])
                   = (Return tt, (log ++ [requests_header_line top_n])
                        ++ requests_section (description requests)
                             (take top_n (fetchall requests)))).
    { destruct (take top_n (fetchall requests)) as [|row rows] eqn:Hrows'; [reflexivity|].
      unfold requests_section. apply for_each_lines.
      eapply Forall_impl; [exact Hrows|]. intros r Hr l.
      by apply report_request_complete. }
    assert (Hgr : forall l, (match fetchall grants with
                   | [] => out (py "✅ No memory grant pressure detected.")
                   | _ :: _ => for_each (fetchall grants)
                                 (report_grant AttributeError (description grants))
                   end) l
                  = (Return tt, l ++ grants_section (description grants) (fetchall grants))).
    { intros l. destruct (fetchall grants) as [|row rows] eqn:Hrows'; [reflexivity|].
      unfold grants_section.
      rewrite (for_each_lines _ _ (fun r => [grant_line (description grants) r])).
      - f_equal. f_equal. clear. induction (row :: rows) as [|r l' IH]; [reflexivity|].
        cbn [map concat app]. by rewrite IH.
      - eapply Forall_impl; [exact Hgrants|]. intros r Hr l'.
        by apply report_grant_complete. }
    unfold bind at 1. unfold requests_header_line in Hreq. rewrite Hreq.
    step_check. rewrite Hgr. unfold requests_header_line, grants_header_line.
    rewrite <- !app_assoc. reflexivity.
  - rewrite requests_section_length, length_take. lia.
  - eapply Forall_impl; [exact Hrows|]. intros row [_ [text Ht]].
    exists text. split; [exact Ht|]. split; [|apply statement_line_length].
    unfold request_lines. rewrite Ht. cbn [default]. by rewrite last_snoc.
Qed.

Lemma analyze_sql_workload_report_witness :
  run (analyze_sql_workload busy_server KeyError 5)
  = (Return tt,
     [requests_header_line 5]
       ++ requests_section request_columns
            [request_row 61 (VStr (py "SELECT name FROM sys.databases"));
             request_row 62 (VStr (py "WAITFOR DELAY '00:10'"))]
       ++ [grants_header_line; no_grants_line]).
Proof.
  refine (proj1 (analyze_sql_workload_report busy_server KeyError 5
            {| description := request_columns;
               fetchall := [request_row 61 (VStr (py "SELECT name FROM sys.databases"));
                            request_row 62 (VStr (py "WAITFOR DELAY '00:10'"))] |}
            {| description := grant_columns; fetchall := [] |} [] _ _ _ _ _)).
  - reflexivity.
  - vm_compute. reflexivity.
  - vm_compute. reflexivity.
  - cbn [fetchall description take].
    repeat (apply Forall_cons_2 || apply Forall_nil_2);
      (split; [repeat split|]); vm_compute; eauto.
  - apply Forall_nil_2.
Defined.

(** X14. A request whose statement text is not a string (NULL) stops
    the report: the requests before it are reported in full, its own
    five lines are emitted, then the error line; the memory grants are
    never looked at. *)
Theorem analyze_sql_workload_statement_without_text (conn : Connection)
    (AttributeError : pystr -> exn) (top_n : nat) (requests : ResultSet)
    (good rest : list (list value)) (bad : list value) (v : value)
    (log : list pystr) :
  conn_cursor conn = Return tt ->
  conn_execute conn requests_query = Return requests ->
  take top_n (fetchall requests) = good ++ bad :: rest ->
  Forall (complete_request (description requests)) good ->
  printable_request (description requests) bad ->
  attribute (description requests) bad "sql_text" = Some v ->
  statement_text (description requests) bad = None ->
  analyze_sql_workload conn AttributeError top_n log
  = (Return tt,
     log ++ [requests_header_line top_n]
         ++ concat (map (request_lines (description requests)) good)
         ++ request_head_lines (description requests) bad
         ++ [workload_error_line]).
Proof.
  intros Hc Hq Hrows Hgood Hbad Hv Ht.
  unfold analyze_sql_workload, try_except. cbv zeta. rewrite Hc, Hq. step_check.
  rewrite Hrows.
  assert (Hloop : forall l,
            for_each (good ++ bad :: rest)
              (report_request AttributeError (description requests)) l
            = (Raise TypeError,
               l ++ concat (map (request_lines (description requests)) good)
                 ++ request_head_lines (description requests) bad)).
  { intros l. apply for_each_stops.
    - eapply Forall_impl; [exact Hgood|]. intros r Hr l'.
      by apply report_request_complete.
    - intros l'. by eapply report_request_without_text. }
  destruct (good ++ bad :: rest) as [|r rs] eqn:Hl.
  { by destruct good. }
  unfold bind at 1. rewrite Hloop. unfold out, requests_header_line, workload_error_line.
  rewrite <- !app_assoc. reflexivity.
Qed.

Lemma analyze_sql_workload_statement_without_text_witness :
  run (analyze_sql_workload null_statement_server KeyError 5)
  = (Return tt,
     [requests_header_line 5]
       ++ request_lines request_columns
            (request_row 61 (VStr (py "SELECT name FROM sys.databases")))
       ++ request_head_lines request_columns (request_row 62 VNone)
       ++ [workload_error_line]).
Proof.
  rewrite <- (app_nil_r (request_lines _ _)).
  refine (analyze_sql_workload_statement_without_text null_statement_server KeyError 5
            {| description := request_columns;
               fetchall := [request_row 61 (VStr (py "SELECT name FROM sys.databases"));
                            request_row 62 VNone] |}
            [request_row 61 (VStr (py "SELECT name FROM sys.databases"))] []
            (request_row 62 VNone) VNone [] _ _ _ _ _ _ _).
  - reflexivity.
  - vm_compute. reflexivity.
  - reflexivity.
  - repeat (apply Forall_cons_2 || apply Forall_nil_2);
      (split; [repeat split|]); vm_compute; eauto.
  - repeat split; vm_compute; eauto.
  - vm_compute. reflexivity.
  - vm_compute. reflexivity.
Defined.

End WorkloadCheck.

(** ** db_connect.get_connection *)

Section ConnectionDialogue.
Import DbConnect.

Lemma lstrip_spec (s : pystr) :
  exists pre : pystr,
    s = pre ++ lstrip s
    /\ Forall (fun c => is_space c = true) pre
    /\ (forall c, head (lstrip s) = Some c -> is_space c = false).
Proof.
  induction s as [|c s (pre & Hs & Hpre & Hhead)]; cbn [lstrip].
  - exists []. repeat split; [constructor|discriminate].
  - destruct (is_space c) eqn:Hc.
    + exists (c :: pre). split; [cbn; by rewrite <- Hs|]. split; [by constructor|done].
    + exists []. split; [reflexivity|]. split; [constructor|].
      intros ? [= <-]. exact Hc.
Qed.

Lemma rstrip_spec (s : pystr) :
  exists suf : pystr,
    s = rstrip s ++ suf
    /\ Forall (fun c => is_space c = true) suf
    /\ (forall c, last (rstrip s) = Some c -> is_space c = false).
Proof.
  unfold rstrip. destruct (lstrip_spec (rev s)) as (pre & Hs & Hpre & Hhead).
  exists (rev pre). split; [|split].
  - rewrite <- rev_app_distr, <- Hs. by rewrite rev_involutive.
  - by apply Forall_rev.
  - intros c Hc. apply Hhead. rewrite <- Hc.
    generalize (lstrip (rev s)). intros l. clear.
    destruct l as [|x l]; [reflexivity|]. cbn [rev head]. by rewrite last_snoc.
Qed.

(** What [strip] returns: the string without the white space around
    it. *)
Lemma strip_spec (s : pystr) :
  exists pre suf : pystr,
    s = pre ++ strip s ++ suf
    /\ Forall (fun c => is_space c = true) pre
    /\ Forall (fun c => is_space c = true) suf
    /\ (forall c, head (strip s) = Some c -> is_space c = false)
    /\ (forall c, last (strip s) = Some c -> is_space c = false).
Proof.
  unfold strip.
  destruct (lstrip_spec s) as (pre & Hs & Hpre & Hhead).
  destruct (rstrip_spec (lstrip s)) as (suf & Ht & Hsuf & Hlast).
  exists pre, suf. split; [by rewrite <- Ht|]. split; [done|]. split; [done|].
  split; [|done]. intros c Hc. apply Hhead. rewrite Ht.
  destruct (rstrip (lstrip s)); [discriminate Hc|exact Hc].
Qed.

Lemma session_eq (s : Session) (w : ReportLogger.World) (p : list pystr)
    (n : list nat) (c : nat) :
  ReportLogger.stdout (world s) = ReportLogger.stdout w ->
  ReportLogger.files (world s) = ReportLogger.files w ->
  prompts s = p -> naps s = n -> connects s = c ->
  s = {| world := w; prompts := p; naps := n; connects := c |}.
Proof.
  destruct s as [[so sf] sp sn sc], w as [wo wf]. cbn. by intros -> -> -> -> ->.
Qed.

Ltac session_simpl :=
  cbn [input print sleep connect world prompts naps connects
       ReportLogger.print ReportLogger.stdout ReportLogger.files].

(** The loop, from any attempt number on. *)
Lemma get_connection_loop_spec (env : Environment) (retries : Z) (delay : nat)
    (k : nat) :
  forall (m a : nat) (s : Session),
    (k < m)%nat ->
    retries = Z.of_nat (a + m) - 1 ->
    (forall i, (i < k)%nat -> exists msg, connect_at env s i = Raise (PyodbcError msg)) ->
    (returned (connect_at env s k) = true
     \/ (exists e, connect_at env s k = Raise e /\ is_pyodbc_error e = false)
     \/ Z.of_nat (a + k) = retries) ->
    get_connection_loop env retries delay (map (fun i : nat => Z.of_nat i) (seq a m)) s
    = (match connect_at env s k with
       | Return conn => Return (Some (conn, server_at env s k))
       | Raise e => Raise e
       end, after_attempts delay k s).
Proof.
  induction k as [|k IH]; intros m a s Hk Hretries Hfail Hstop.
  - destruct m as [|m]; [lia|]. cbn [seq map get_connection_loop].
    session_simpl. rewrite length_app. cbn [length].
    unfold connect_at, server_at, database_at in *.
    rewrite Nat.mul_0_r, !Nat.add_0_r in *.
    set (server := strip (typed env (length (prompts s)))) in *.
    set (database := match strip (typed env (length (prompts s) + 1)) with
                     | [] => py "master"
                     | name => name
                     end) in *.
    assert (Hs : forall s' : Session,
              ReportLogger.stdout (world s')
              = ReportLogger.stdout (world s) ++ [nl ++ py "🔐 SQL Server Connection Setup"] ->
              ReportLogger.files (world s') = ReportLogger.files (world s) ->
              prompts s' = (prompts s ++ [server_prompt]) ++ [database_prompt] ->
              naps s' = naps s -> connects s' = S (connects s) ->
              s' = after_attempts delay 0 s).
    { intros s' H1 H2 H3 H4 H5.
      apply session_eq;
        cbn [after_attempts world prompts naps connects ReportLogger.stdout
             ReportLogger.files replicate concat app].
      - exact H1.
      - exact H2.
      - rewrite H3, <- app_assoc. reflexivity.
      - rewrite H4, app_nil_r. reflexivity.
      - rewrite H5. lia. }
    destruct (pyodbc_connect env (connects s) (connection_string server database))
      as [conn|e] eqn:Hconn.
    + f_equal. apply Hs; reflexivity.
    + destruct Hstop as [Hr|[(e' & [= <-] & He)|Hlast]]; [discriminate Hr| |].
      * rewrite He. f_equal. apply Hs; reflexivity.
      * destruct (is_pyodbc_error e); [|f_equal; apply Hs; reflexivity].
        replace (Z.of_nat a <? retries) with false by (symmetry; apply Z.ltb_ge; lia).
        f_equal. apply Hs; reflexivity.
  - destruct m as [|m]; [lia|]. cbn [seq map get_connection_loop].
    session_simpl. rewrite length_app. cbn [length].
    destruct (Hfail 0%nat) as [msg Hfirst]; [lia|].
    unfold connect_at, server_at, database_at in Hfirst.
    rewrite Nat.mul_0_r, !Nat.add_0_r in Hfirst. rewrite Hfirst.
    cbn [is_pyodbc_error].
    replace (Z.of_nat a <? retries) with true by (symmetry; apply Z.ltb_lt; lia).
    session_simpl.
    match goal with
    | |- get_connection_loop _ _ _ _ ?s1 = _ => set (s' := s1)
    end.
    assert (Hshift : forall i, connect_at env s' i = connect_at env s (S i)
                               /\ server_at env s' i = server_at env s (S i)).
    { intros i. unfold connect_at, server_at, database_at. subst s'.
      session_simpl. rewrite !length_app. cbn [length].
      replace (length (prompts s) + 1 + 1 + 2 * i)%nat
        with (length (prompts s) + 2 * S i)%nat by lia.
      replace (S (connects s) + i)%nat with (connects s + S i)%nat by lia.
      done. }
    rewrite (IH m (S a) s').
    + destruct (Hshift k) as [-> ->]. f_equal.
      apply session_eq; subst s'; unfold after_attempts; session_simpl;
        cbn [replicate concat].
      * unfold setup_line, retry_line. rewrite <- !app_assoc. reflexivity.
      * reflexivity.
      * unfold server_prompt, database_prompt. rewrite <- !app_assoc. reflexivity.
      * rewrite <- !app_assoc. reflexivity.
      * lia.
    + lia.
    + lia.
    + intros i Hi. destruct (Hshift i) as [-> _]. apply Hfail. lia.
    + destruct (Hshift k) as [-> _].
      destruct Hstop as [H|[H|H]]; [by left|right; by left|right; right; lia].
Qed.

(** X15. [get_connection] asks for the address and the database name
    anew at each attempt.  When the first [k] attempts fail with a
    driver error and attempt [k + 1] succeeds, fails with another
    exception, or is the last one allowed, the function ends there: it
    returns the connection with the address typed at that attempt, or
    raises that attempt's exception.  It has then paused [k] times for
    [delay] seconds, connected [k + 1] times and left the files alone.
    The address it returns has no white space around it.  With no
    attempt allowed it returns [None] at once. *)
Theorem get_connection_retries (env : Environment) (retries : Z) (delay k : nat)
    (s : Session) :
  (retries <= 0 -> get_connection env retries delay s = (Return None, s))
  /\ (Z.of_nat k < retries ->
      (forall i, (i < k)%nat ->
         exists msg, connect_at env s i = Raise (PyodbcError msg)) ->
      (returned (connect_at env s k) = true
       \/ (exists e, connect_at env s k = Raise e /\ is_pyodbc_error e = false)
       \/ Z.of_nat (S k) = retries) ->
      get_connection env retries delay s
      = (match connect_at env s k with
         | Return conn => Return (Some (conn, server_at env s k))
         | Raise e => Raise e
         end, after_attempts delay k s)
      /\ (forall c, head (server_at env s k) = Some c -> is_space c = false)
      /\ (forall c, last (server_at env s k) = Some c -> is_space c = false)).
Proof.
  split.
  - intros H. unfold get_connection, attempts.
    replace (Z.to_nat retries) with 0%nat by lia. reflexivity.
  - intros Hk Hfail Hstop. split.
    + unfold get_connection, attempts.
      apply get_connection_loop_spec; [lia|lia|exact Hfail|].
      destruct Hstop as [H|[H|H]]; [by left|right; by left|right; right; lia].
    + unfold server_at.
      destruct (strip_spec (typed env (length (prompts s) + 2 * k)))
        as (_ & _ & _ & _ & _ & Hhead & Hlast). done.
Qed.

Lemma get_connection_retries_witness :
  get_connection (patient_environment broken_connection) 3 5 fresh_session
  = (Return (Some (broken_connection, py "sql01")), after_attempts 5 2 fresh_session).
Proof.
  destruct (proj2 (get_connection_retries (patient_environment broken_connection)
                     3 5 2 fresh_session)) as [Hrun _].
  - lia.
  - intros [|[|i]] Hi; [exists (py "Login timeout expired"); reflexivity..|lia].
  - left. reflexivity.
  - rewrite Hrun. f_equal.
Defined.

End ConnectionDialogue.

(** ** main *)

Section MainProgram.
Import DbConnect Main.

Lemma record_all_world (msgs : list pystr) (self : ReportLogger.t)
    (w : ReportLogger.World) :
  (ReportLogger.record_all msgs (self, w)).2
  = {| ReportLogger.stdout := ReportLogger.stdout w ++ msgs;
       ReportLogger.files := ReportLogger.files w |}.
Proof.
  revert self w. induction msgs as [|msg msgs IH]; intros self w.
  - destruct w. cbn. by rewrite app_nil_r.
  - unfold ReportLogger.record_all in *. cbn [fold_left].
    unfold ReportLogger.write at 2. rewrite IH.
    cbn [ReportLogger.print ReportLogger.stdout ReportLogger.files].
    by rewrite <- app_assoc.
Qed.

Lemma write_reports_run (args : Args) (server_name : pystr) (self : ReportLogger.t)
    (w : ReportLogger.World) :
  write_reports args server_name (self, w)
  = (self,
     {| ReportLogger.stdout :=
          ReportLogger.stdout w
          ++ [markdown_saved_line (markdown_name (safe_name args server_name));
              json_saved_line (json_name (safe_name args server_name))]
          ++ summary_lines
               (ReportLogger.successes_of (splitlines (ReportLogger.buffer self)))
               (ReportLogger.warnings_of (splitlines (ReportLogger.buffer self)));
        ReportLogger.files :=
          <[json_name (safe_name args server_name) :=
              json_dump_report (splitlines (ReportLogger.buffer self))]>
            (<[markdown_name (safe_name args server_name) := ReportLogger.buffer self]>
               (ReportLogger.files w)) |}).
Proof.
  unfold write_reports, ReportLogger.export, ReportLogger.export_json.
  rewrite print_summary_run.
  cbn [ReportLogger.print ReportLogger.write_file ReportLogger.stdout ReportLogger.files].
  unfold markdown_saved_line, json_saved_line, markdown_name, json_name.
  rewrite <- !app_assoc. reflexivity.
Qed.

Lemma sanitize_safe (s : pystr) : Forall (fun c => is_safe_char c = true) (sanitize s).
Proof.
  induction s as [|c s IH]; [constructor|]. cbn [sanitize map]. constructor; [|exact IH].
  destruct (is_safe_char c) eqn:Hc; [exact Hc|reflexivity].
Qed.

Lemma sanitize_fixes_safe (s : pystr) :
  Forall (fun c => is_safe_char c = true) s -> sanitize s = s.
Proof.
  induction 1 as [|c s Hc _ IH]; [reflexivity|].
  cbn [sanitize map]. rewrite Hc. f_equal. exact IH.
Qed.

Lemma safe_char_not_path (c : N) : is_safe_char c = true -> c ∉ path_characters.
Proof.
  intros H Hin. unfold path_characters in Hin.
  repeat (apply elem_of_cons in Hin as [->|Hin]; [vm_compute in H; discriminate H|]).
  by apply elem_of_nil in Hin.
Qed.

Lemma report_names_differ (name : pystr) : markdown_name name <> json_name name.
Proof.
  unfold markdown_name, json_name. intros H.
  apply app_inv_head, app_inv_head in H. vm_compute in H. discriminate H.
Qed.

Lemma sanitize_lookup (s : pystr) (i : nat) (c : N) :
  s !! i = Some c -> sanitize s !! i = Some (if is_safe_char c then c else 95%N).
Proof.
  revert i. induction s as [|c0 s IH]; intros [|i] H; cbn in H; try discriminate H.
  - by injection H as ->.
  - exact (IH i H).
Qed.

(** X16. The name put into the report file names is made from the
    [--output] prefix when one is given and is not empty, and from the
    server address otherwise: it is that text with every character
    other than a letter, a digit, underscore and hyphen replaced by an
    underscore, position by position.  So the name has the length of
    the text, holds no slash, backslash, colon or dot (both files are
    written to the working directory), a text that is already safe is
    kept as it is, and the two file names differ. *)
Theorem report_file_names_are_safe (args : Args) (server_name : pystr) :
  exists base : pystr,
    ((output args = Some base /\ base <> [])
     \/ ((output args = None \/ output args = Some []) /\ base = server_name))
    /\ (base = server_name \/ output args = Some base)
    /\ safe_name args server_name = sanitize base
    /\ length (safe_name args server_name) = length base
    /\ (forall (i : nat) (c : N),
          base !! i = Some c ->
          safe_name args server_name !! i = Some (if is_safe_char c then c else 95%N))
    /\ Forall (fun c => is_safe_char c = true) (safe_name args server_name)
    /\ Forall (fun c => c ∉ path_characters) (safe_name args server_name)
    /\ (Forall (fun c => is_safe_char c = true) base ->
        safe_name args server_name = base)
    /\ markdown_name (safe_name args server_name)
       <> json_name (safe_name args server_name).
Proof.
  assert (H : exists base : pystr,
            ((output args = Some base /\ base <> [])
             \/ ((output args = None \/ output args = Some []) /\ base = server_name))
            /\ safe_name args server_name = sanitize base).
  { unfold safe_name. destruct (output args) as [[|c name]|].
    - exists server_name. split; [right; split; [by right|reflexivity]|reflexivity].
    - exists (c :: name). split; [left; split; [reflexivity|discriminate]|reflexivity].
    - exists server_name. split; [right; split; [by left|reflexivity]|reflexivity]. }
  destruct H as (base & Hbase & ->). exists base.
  split; [exact Hbase|].
  split; [destruct Hbase as [[H _]|[_ H]]; [by right|by left]|].
  split; [reflexivity|].
  split; [apply length_map|]. split; [apply sanitize_lookup|].
  split; [apply sanitize_safe|].
  split; [|split; [apply sanitize_fixes_safe|apply report_names_differ]].
  eapply Forall_impl; [apply sanitize_safe|]. intros c. apply safe_char_not_path.
Qed.

Lemma dry_run_line_summary :
  splitlines (dry_run_line ++ nl) = [dry_run_line]
  /\ ReportLogger.successes_of [dry_run_line] = []
  /\ ReportLogger.warnings_of [dry_run_line] = [].
Proof. vm_compute. repeat split. Qed.

(** X17. With [--dry-run] the program asks nothing, connects to nothing
    and pauses never, whatever the other flags; it writes the two
    report files, named after the [--output] prefix or [dry_run], each
    holding the one line of the dry run, and prints a summary with no
    success and no warning. *)
Theorem main_dry_run (env : Environment) (host : Host) (upper : pystr -> pystr)
    (AttributeError : pystr -> exn) (check_socket_layout : M unit) (args : Args)
    (s : Session) :
  dry_run args = true ->
  exists s' : Session,
    main env host upper AttributeError check_socket_layout args s = (Return tt, s')
    /\ prompts s' = prompts s /\ naps s' = naps s /\ connects s' = connects s
    /\ ReportLogger.files (world s')
       = <[json_name (safe_name args (py "dry_run")) := json_dump_report [dry_run_line]]>
           (<[markdown_name (safe_name args (py "dry_run")) := dry_run_line ++ nl]>
              (ReportLogger.files (world s)))
    /\ ReportLogger.stdout (world s')
       = ReportLogger.stdout (world s)
         ++ [dry_run_line;
             markdown_saved_line (markdown_name (safe_name args (py "dry_run")));
             json_saved_line (json_name (safe_name args (py "dry_run")))]
         ++ summary_lines [] [].
Proof.
  intros Hdry. unfold main. rewrite Hdry. cbv zeta.
  unfold ReportLogger.write, ReportLogger.init.
  cbn [ReportLogger.buffer]. rewrite app_nil_l, write_reports_run.
  cbn [ReportLogger.buffer ReportLogger.print ReportLogger.stdout ReportLogger.files].
  destruct dry_run_line_summary as (Hlines & Hok & Hwarn).
  fold dry_run_line. rewrite Hlines, Hok, Hwarn.
  eexists. split; [reflexivity|].
  cbn [in_world world prompts naps connects snd ReportLogger.stdout ReportLogger.files].
  repeat split. rewrite <- !app_assoc. reflexivity.
Qed.

Lemma get_connection_first_attempt (env : Environment) (s : Session) (conn : Connection) :
  connect_at env s 0 = Return conn ->
  get_connection env 3 5 s
  = (Return (Some (conn, server_at env s 0)), after_attempts 5 0 s).
Proof.
  intros Hconn. unfold get_connection, attempts.
  rewrite (get_connection_loop_spec env 3 5 0 (Z.to_nat 3) 1 s).
  - by rewrite Hconn.
  - lia.
  - lia.
  - intros i Hi. lia.
  - left. by rewrite Hconn.
Qed.

Lemma framed_flagged_checks (host : Host) (upper : pystr -> pystr)
    (AttributeError : pystr -> exn) (check_socket_layout : M unit) (args : Args)
    (conn : Connection) :
  framed check_socket_layout ->
  framed (flagged_checks host upper AttributeError check_socket_layout args conn).
Proof.
  intros Hcsl. unfold flagged_checks.
  repeat match goal with
         | |- framed (ret _) => apply framed_ret
         | |- framed (bind _ _) => apply framed_bind; [|intros ?]
         | |- framed (if ?b then _ else _) => destruct b
         | |- framed (NumaChecker.run_all_diagnostics _ _ _ _ _) =>
             apply framed_run_all_diagnostics
         | |- framed (NumaChecker.recommend_maxdop _) => apply framed_recommend_maxdop
         | |- framed (NumaChecker.validate_memory_config _) =>
             apply framed_validate_memory_config
         | |- framed (NumaChecker.check_affinity_config _) =>
             apply framed_check_affinity_config
         | |- framed (Workload.analyze_sql_workload _ _ _) =>
             apply framed_analyze_sql_workload
         | |- framed (HostChecks.check_virtual_hardware _ _) =>
             apply framed_check_virtual_hardware
         | H : framed ?m |- framed ?m => exact H
         end.
Qed.

Lemma framed_selected_checks (host : Host) (upper : pystr -> pystr)
    (AttributeError : pystr -> exn) (check_socket_layout : M unit) (args : Args)
    (conn : Connection) :
  framed check_socket_layout ->
  framed (selected_checks host upper AttributeError check_socket_layout args conn).
Proof.
  intros Hcsl. unfold selected_checks, NumaChecker.init.
  apply framed_bind; [apply framed_out|]. intros _. by apply framed_flagged_checks.
Qed.

(** The first line of every report is that of the constructor. *)
Lemma selected_checks_first_line (host : Host) (upper : pystr -> pystr)
    (AttributeError : pystr -> exn) (check_socket_layout : M unit) (args : Args)
    (conn : Connection) :
  framed check_socket_layout ->
  run (selected_checks host upper AttributeError check_socket_layout args conn)
  = ((run (flagged_checks host upper AttributeError check_socket_layout args conn)).1,
     tool_line
       :: (run (flagged_checks host upper AttributeError check_socket_layout args conn)).2).
Proof.
  intros Hcsl. unfold run, selected_checks, NumaChecker.init. rewrite bind_out.
  rewrite (framed_flagged_checks host upper AttributeError check_socket_layout args conn
             Hcsl ([] ++ [py "🔧 Infrastructure Tuning Toolkit - Diagnostic Tool"])).
  reflexivity.
Qed.

(** Whenever the scheduler query fails, the full run stops in its
    second check, after its header and the system specifications. *)
Lemma run_all_diagnostics_stops_at_layout (conn : Connection) (host : Host)
    (check_socket_layout check_virtual_hardware analyze_sql_workload : M unit)
    (e : exn) (log : list pystr) :
  NumaChecker.get_scheduler_layout conn = Raise e ->
  NumaChecker.run_all_diagnostics conn host check_socket_layout check_virtual_hardware
    analyze_sql_workload log
  = (Raise e,
     log ++ run_header_line :: (run (NumaChecker.get_system_specs conn)).2).
Proof.
  intros He. unfold NumaChecker.run_all_diagnostics, run. rewrite bind_out.
  unfold bind at 1. rewrite (framed_get_system_specs conn).
  destruct (get_system_specs_returns conn []) as [lines ->]. cbn [fst snd].
  unfold bind at 1. rewrite (validate_numa_layout_propagates conn e _ He).
  unfold run_header_line. rewrite <- app_assoc. reflexivity.
Qed.

Lemma logged_run {A} (m : M A) (self : ReportLogger.t) (w : ReportLogger.World)
    (o : outcome A) (lines : list pystr) :
  run m = (o, lines) ->
  logged m (self, w) = (o, ReportLogger.record_all lines (self, w)).
Proof. intros H. unfold logged. unfold run in H. by rewrite H. Qed.

(** X18. A check that raises takes the report with it.  When the
    server is reached at the first attempt and the scheduler query
    fails during a full run, [main] raises that failure; the lines
    emitted so far have been printed, but no report file is written
    and no summary is printed. *)
Theorem main_loses_report_when_a_check_raises (env : Environment) (host : Host)
    (upper : pystr -> pystr) (AttributeError : pystr -> exn)
    (check_socket_layout : M unit) (args : Args) (s : Session)
    (conn : Connection) (e : exn) :
  dry_run args = false ->
  full args = true ->
  connect_at env s 0 = Return conn ->
  NumaChecker.get_scheduler_layout conn = Raise e ->
  exists s' : Session,
    main env host upper AttributeError check_socket_layout args s = (Raise e, s')
    /\ ReportLogger.files (world s') = ReportLogger.files (world s)
    /\ ReportLogger.stdout (world s')
       = ReportLogger.stdout (world s)
         ++ [setup_line; tool_line; run_header_line]
         ++ (run (NumaChecker.get_system_specs conn)).2
    /\ naps s' = naps s.
Proof.
  intros Hdry Hfull Hconn He. unfold main. rewrite Hdry.
  rewrite (get_connection_first_attempt env s conn Hconn).
  assert (Hrun : run (selected_checks host upper AttributeError check_socket_layout
                        args conn)
                 = (Raise e, [tool_line; run_header_line]
                               ++ (run (NumaChecker.get_system_specs conn)).2)).
  { unfold run, selected_checks, NumaChecker.init. rewrite bind_out.
    unfold flagged_checks. rewrite Hfull. unfold bind at 1.
    rewrite (run_all_diagnostics_stops_at_layout _ _ _ _ _ e _ He). reflexivity. }
  rewrite (logged_run _ _ _ _ _ Hrun).
  eexists. split; [reflexivity|].
  cbn [in_world world prompts naps connects snd].
  rewrite record_all_world.
  cbn [after_attempts world naps ReportLogger.stdout ReportLogger.files replicate concat].
  split; [reflexivity|]. split; [|by rewrite app_nil_r].
  rewrite <- !app_assoc. reflexivity.
Qed.

Lemma main_loses_report_when_a_check_raises_witness :
  exists s' : Session,
    main (ready_environment Fixtures.refused_scheduler_server) dead_host
      (map ascii_upper) KeyError (ret tt) full_flag fresh_session
    = (Raise Fixtures.permission_denied, s')
    /\ ReportLogger.files (world s') = ∅.
Proof.
  destruct (main_loses_report_when_a_check_raises
              (ready_environment Fixtures.refused_scheduler_server) dead_host
              (map ascii_upper) KeyError (ret tt) full_flag fresh_session
              Fixtures.refused_scheduler_server Fixtures.permission_denied)
    as (s' & Hrun & Hfiles & _).
  - reflexivity.
  - reflexivity.
  - reflexivity.
  - vm_compute. reflexivity.
  - exists s'. split; [exact Hrun|exact Hfiles].
Defined.

(** X19. When the server is reached at the first attempt and the
    selected checks return, [main] writes the two reports and nothing
    else: the text report holds the emitted lines, each followed by a
    newline, and the structured report parses back to the lines of that
    text.  The first line is that of the tool, nothing is asked twice
    and the program does not pause. *)
Theorem main_writes_both_reports (env : Environment) (host : Host)
    (upper : pystr -> pystr) (AttributeError : pystr -> exn)
    (check_socket_layout : M unit) (args : Args) (s : Session)
    (conn : Connection) (lines : list pystr) :
  dry_run args = false ->
  framed check_socket_layout ->
  connect_at env s 0 = Return conn ->
  run (selected_checks host upper AttributeError check_socket_layout args conn)
  = (Return tt, lines) ->
  Forall is_text lines ->
  exists s' : Session,
    main env host upper AttributeError check_socket_layout args s = (Return tt, s')
    /\ ReportLogger.files (world s')
         !! markdown_name (safe_name args (server_at env s 0))
       = Some (text_log lines)
    /\ ReportLogger.files (world s')
         !! json_name (safe_name args (server_at env s 0)) ≫= json_load_report
       = Some (splitlines (text_log lines))
    /\ (forall filename : pystr,
          filename <> markdown_name (safe_name args (server_at env s 0)) ->
          filename <> json_name (safe_name args (server_at env s 0)) ->
          ReportLogger.files (world s') !! filename
          = ReportLogger.files (world s) !! filename)
    /\ head lines = Some tool_line
    /\ prompts s' = prompts s ++ [server_prompt; database_prompt]
    /\ naps s' = naps s.
Proof.
  intros Hdry Hcsl Hconn Hrun Htext. unfold main. rewrite Hdry.
  rewrite (get_connection_first_attempt env s conn Hconn).
  rewrite (logged_run _ _ _ _ _ Hrun).
  destruct (ReportLogger.record_all lines
              (ReportLogger.init, world (after_attempts 5 0 s))) as [self w] eqn:Hrec.
  pose proof (buffer_record_all lines ReportLogger.init (world (after_attempts 5 0 s)))
    as Hbuf.
  pose proof (record_all_world lines ReportLogger.init (world (after_attempts 5 0 s)))
    as Hw.
  rewrite Hrec in Hbuf, Hw. cbn [fst snd ReportLogger.buffer ReportLogger.init] in Hbuf, Hw.
  rewrite app_nil_l in Hbuf.
  cbv zeta. rewrite write_reports_run, Hbuf.
  eexists. split; [reflexivity|].
  cbn [in_world world prompts naps connects snd ReportLogger.files].
  split; [|split; [|split; [|split; [|split]]]].
  - rewrite lookup_insert_ne by (apply not_eq_sym, report_names_differ).
    by rewrite lookup_insert_eq.
  - rewrite lookup_insert_eq. cbn [mbind option_bind].
    apply json_load_dump_report.
    apply (splitlines_chars scalar), text_log_is_text, Htext.
  - intros filename Hmd Hjson.
    rewrite !lookup_insert_ne by (by apply not_eq_sym).
    rewrite Hw. reflexivity.
  - rewrite (selected_checks_first_line _ _ _ _ _ _ Hcsl) in Hrun.
    injection Hrun as _ <-. reflexivity.
  - cbn [after_attempts prompts replicate concat]. by rewrite app_nil_r.
  - cbn [after_attempts naps replicate]. by rewrite app_nil_r.
Qed.

Lemma main_writes_both_reports_witness :
  exists s' : Session,
    main (ready_environment Fixtures.first_offline_server) dead_host
      (map ascii_upper) KeyError (ret tt) affinity_flag fresh_session
    = (Return tt, s')
    /\ ReportLogger.files (world s') !! json_name (py "sql01_corp_PROD")
         ≫= json_load_report
       = Some [tool_line; affinity_warn_line; missing_cpus_line []].
Proof.
  destruct (main_writes_both_reports
              (ready_environment Fixtures.first_offline_server) dead_host
              (map ascii_upper) KeyError (ret tt) affinity_flag fresh_session
              Fixtures.first_offline_server
              [tool_line; affinity_warn_line; missing_cpus_line []])
    as (s' & Hrun & _ & Hjson & _).
  - reflexivity.
  - apply framed_ret.
  - reflexivity.
  - vm_compute. reflexivity.
  - apply Forall_cons_2; [|apply Forall_cons_2; [|apply Forall_cons_2;
      [|apply Forall_nil_2]]]; apply is_textb_true; vm_compute; reflexivity.
  - exists s'. split; [exact Hrun|].
    replace (json_name (py "sql01_corp_PROD"))
      with (json_name (safe_name affinity_flag
              (server_at (ready_environment Fixtures.first_offline_server)
                 fresh_session 0))) by (vm_compute; reflexivity).
    rewrite Hjson. vm_compute. reflexivity.
Defined.

Lemma main_dry_run_witness :
  exists s' : Session,
    main (ready_environment broken_connection) dead_host (map ascii_upper) KeyError
      (ret tt) dry_run_flag fresh_session
    = (Return tt, s')
    /\ connects s' = 0%nat
    /\ ReportLogger.files (world s')
         !! markdown_name (safe_name dry_run_flag (py "dry_run"))
       = Some (dry_run_line ++ nl)
    /\ safe_name dry_run_flag (py "dry_run") = py "___prod_sql01".
Proof.
  destruct (main_dry_run (ready_environment broken_connection) dead_host
              (map ascii_upper) KeyError (ret tt) dry_run_flag fresh_session)
    as (s' & Hrun & _ & _ & Hconnects & Hfiles & _).
  - reflexivity.
  - exists s'. split; [exact Hrun|]. split; [exact Hconnects|]. split.
    + rewrite Hfiles.
      rewrite lookup_insert_ne by (apply not_eq_sym, report_names_differ).
      by rewrite lookup_insert_eq.
    + vm_compute. reflexivity.
Defined.

(** X20. [main] allows three attempts, five seconds apart.  When the
    driver refuses all three, [main] raises the error of the third,
    having asked for address and database three times and paused
    twice; no checker is built, nothing is written and no summary is
    printed. *)
Theorem main_gives_up_after_three_attempts (env : Environment) (host : Host)
    (upper : pystr -> pystr) (AttributeError : pystr -> exn)
    (check_socket_layout : M unit) (args : Args) (s : Session) :
  dry_run args = false ->
  (forall i, (i < 3)%nat -> exists msg, connect_at env s i = Raise (PyodbcError msg)) ->
  exists (msg : pystr) (s' : Session),
    connect_at env s 2 = Raise (PyodbcError msg)
    /\ main env host upper AttributeError check_socket_layout args s
       = (Raise (PyodbcError msg), s')
    /\ naps s' = naps s ++ [5; 5]%nat
    /\ connects s' = (connects s + 3)%nat
    /\ prompts s'
       = prompts s ++ [server_prompt; database_prompt; server_prompt; database_prompt;
                       server_prompt; database_prompt]
    /\ ReportLogger.files (world s') = ReportLogger.files (world s)
    /\ ReportLogger.stdout (world s')
       = ReportLogger.stdout (world s)
         ++ [setup_line; retry_line 5; setup_line; retry_line 5; setup_line].
Proof.
  intros Hdry Hfail. destruct (Hfail 2%nat) as [msg Hlast]; [lia|].
  exists msg, (after_attempts 5 2 s). split; [exact Hlast|].
  split.
  - unfold main. rewrite Hdry. unfold get_connection, attempts.
    rewrite (get_connection_loop_spec env 3 5 2 (Z.to_nat 3) 1 s).
    + by rewrite Hlast.
    + lia.
    + lia.
    + intros i Hi. apply Hfail. lia.
    + right. right. lia.
  - cbn [after_attempts world prompts naps connects ReportLogger.stdout
         ReportLogger.files replicate concat].
    rewrite !app_nil_r. repeat split; rewrite <- ?app_assoc; reflexivity.
Qed.

Lemma main_gives_up_after_three_attempts_witness :
  exists s' : Session,
    main unreachable_environment dead_host (map ascii_upper) KeyError (ret tt)
      full_flag fresh_session
    = (Raise login_timeout, s')
    /\ naps s' = [5; 5]%nat.
Proof.
  destruct (main_gives_up_after_three_attempts unreachable_environment dead_host
              (map ascii_upper) KeyError (ret tt) full_flag fresh_session)
    as (msg & s' & Hlast & Hrun & Hnaps & _).
  - reflexivity.
  - intros i _. exists (py "Login timeout expired"). reflexivity.
  - exists s'. injection Hlast as <-. split; [exact Hrun|exact Hnaps].
Defined.

End MainProgram.

(** ** A full run that completes *)

Section Completion.
Import NumaChecker.

Lemma bind_returns_framed {A B} (m : M A) (k : A -> M B) (log log' : list pystr)
    (b : B) :
  framed m ->
  bind m k log = (Return b, log') ->
  exists (a : A) (lines : list pystr),
    m log = (Return a, log ++ lines) /\ k a (log ++ lines) = (Return b, log').
Proof.
  intros Hm H. unfold bind in H. rewrite (Hm log) in H. rewrite (Hm log).
  destruct (m []) as [[a|e] lines]; cbn [fst snd] in *; [eauto|discriminate H].
Qed.

Lemma extends_refl (log : list pystr) : exists lines : list pystr, log = log ++ lines.
Proof. exists []. by rewrite app_nil_r. Qed.

Lemma extends_app (log cur more : list pystr) :
  (exists lines : list pystr, cur = log ++ lines) ->
  exists lines : list pystr, cur ++ more = log ++ lines.
Proof. intros [lines ->]. exists (lines ++ more). by rewrite app_assoc. Qed.

(** X22. A full run that returns has emitted its header first and the
    completion line last, with the lines of the checks in between and
    the earlier lines untouched.  It can only return when the scheduler
    query answered at least one record and the memory-node query
    answered: otherwise [validate_numa_layout] or
    [validate_memory_alignment] has raised. *)
Theorem run_all_diagnostics_completes (conn : Connection) (host : Host)
    (check_socket_layout check_virtual_hardware analyze_sql_workload : M unit)
    (log log' : list pystr) :
  framed check_socket_layout -> framed check_virtual_hardware ->
  framed analyze_sql_workload ->
  run_all_diagnostics conn host check_socket_layout check_virtual_hardware
    analyze_sql_workload log = (Return tt, log') ->
  (exists lines : list pystr,
     log' = log ++ run_header_line :: lines ++ [complete_line])
  /\ (exists (row : gmap pystr value) (rows : list (gmap pystr value)),
        get_scheduler_layout conn = Return (row :: rows))
  /\ (exists memory_nodes : list (gmap pystr value),
        get_memory_nodes conn = Return memory_nodes).
Proof.
  intros Hcsl Hcvh Hasw H. unfold run_all_diagnostics in H. rewrite bind_out in H.
  apply bind_returns_framed in H as (a1 & l1 & _ & H); [|apply framed_get_system_specs].
  apply bind_returns_framed in H as (a2 & l2 & Hnuma & H);
    [|apply framed_validate_numa_layout].
  apply bind_returns_framed in H as (a3 & l3 & Halign & H);
    [|apply framed_validate_memory_alignment].
  apply bind_returns_framed in H as (a4 & l4 & _ & H); [|apply framed_recommend_maxdop].
  apply bind_returns_framed in H as (a5 & l5 & _ & H);
    [|apply framed_validate_memory_config].
  apply bind_returns_framed in H as (a6 & l6 & _ & H);
    [|apply framed_check_affinity_config].
  apply bind_returns_framed in H as (a7 & l7 & _ & H); [|apply framed_get_system_specs].
  apply bind_returns_framed in H as (a8 & l8 & _ & H); [|exact Hcsl].
  apply bind_returns_framed in H as (a9 & l9 & _ & H);
    [|apply framed_detect_virtual_environment].
  apply bind_returns_framed in H as (a10 & l10 & _ & H); [|exact Hcvh].
  apply bind_returns_framed in H as (a11 & l11 & _ & H); [|exact Hasw].
  unfold out in H. injection H as <-.
  assert (Hrows : exists (row : gmap pystr value) (rows : list (gmap pystr value)),
            get_scheduler_layout conn = Return (row :: rows)).
  { destruct (get_scheduler_layout conn) as [[|row rows]|e] eqn:Hs; [| eauto |].
    - exfalso. unfold validate_numa_layout in Hnuma. rewrite Hs in Hnuma.
      step_check_in Hnuma. cbn [for_in] in Hnuma. step_check_in Hnuma.
      cbn [locals_of local] in Hnuma. step_check_in Hnuma. discriminate Hnuma.
    - exfalso. rewrite (validate_numa_layout_propagates conn e _ Hs) in Hnuma.
      discriminate Hnuma. }
  split; [|split; [exact Hrows|]].
  - match goal with
    | |- exists lines, ?cur ++ [_] = _ =>
        assert (Hext : exists lines : list pystr, cur = (log ++ [run_header_line]) ++ lines)
          by (unfold run_header_line;
              repeat first [apply extends_refl | apply extends_app])
    end.
    destruct Hext as [lines ->]. exists lines.
    rewrite <- !app_assoc. reflexivity.
  - destruct Hrows as (row & rows & Hs).
    unfold validate_memory_alignment in Halign. rewrite Hs in Halign.
    step_check_in Halign.
    destruct (get_memory_nodes conn) as [memory_nodes|e]; [eauto|].
    step_check_in Halign. discriminate Halign.
Qed.

Lemma run_all_diagnostics_completes_witness :
  exists lines : list pystr,
    (run (run_all_diagnostics healthy_server dead_host (ret tt) (ret tt)
            (ret tt))).2
    = run_header_line :: lines ++ [complete_line].
Proof.
  destruct (run (run_all_diagnostics healthy_server dead_host (ret tt)
                   (ret tt) (ret tt))) as [o log'] eqn:Hrun.
  assert (Ho : o = Return tt).
  { replace o with (o, log').1 by reflexivity. rewrite <- Hrun. vm_compute. reflexivity. }
  subst o.
  destruct (run_all_diagnostics_completes healthy_server dead_host
              (ret tt) (ret tt) (ret tt) [] log'
              (framed_ret tt) (framed_ret tt) (framed_ret tt) Hrun)
    as [[lines ->] _].
  exists lines. reflexivity.
Defined.

End Completion.
